(** * Texas hold'em hand ranking: a shallow embedding of [play.py]

    The development follows the Python module function by function.
    Python integers are unbounded, so card identifiers and rank values
    are [Z]; lengths are [nat].  Dictionaries and [Counter]s keep their
    insertion order, which the code relies on, so they are association
    lists.  Partial accesses ([x[0]], tuple unpacking) raise, so the
    functions that use them live in a small error monad.  The class
    [Party], which deals the cards, takes no part in the ranking and is
    left out. *)

From Stdlib Require Import ZArith List Bool Lia Permutation.
From Stdlib Require Import FMapPositive FunctionalExtensionality.
From Stdlib Require Import Sorted.
Import ListNotations.
Local Open Scope Z_scope.

(** ** Exceptions and results *)

Inductive exn : Set := IndexError | ValueError.

Inductive result (A : Type) : Type :=
| Ok (a : A)
| Raise (e : exn).
Arguments Ok {A} a.
Arguments Raise {A} e.

Definition bind {A B : Type} (m : result A) (k : A -> result B) : result B :=
  match m with
  | Ok a => k a
  | Raise e => Raise e
  end.

Notation "x <- m ;; k" := (bind m (fun x => k))
  (at level 61, m at next level, right associativity).

(** ** The builtins the module uses *)

Module Py.

(** [x[i]], with Python's negative indices. *)
Definition getitem {A : Type} (l : list A) (i : Z) : result A :=
  let n := Z.of_nat (length l) in
  let j := if i <? 0 then i + n else i in
  if (0 <=? j) && (j <? n)
  then match nth_error l (Z.to_nat j) with
       | Some a => Ok a
       | None => Raise IndexError
       end
  else Raise IndexError.

(** [x[:k]] and [x[-k:]]. *)
Definition slice_to {A : Type} (k : nat) (l : list A) : list A := firstn k l.
Definition slice_last {A : Type} (k : nat) (l : list A) : list A :=
  skipn (length l - k) l.

(** [sorted]: a stable sort.  [le x y] says that [x] may stand before
    [y]; an element is placed before the first one it may stand before,
    so equal elements keep the order they came in, as in Python, also
    with [reverse=True]. *)
Fixpoint insert {A : Type} (le : A -> A -> bool) (x : A) (l : list A) : list A :=
  match l with
  | [] => [x]
  | y :: l' => if le x y then x :: l else y :: insert le x l'
  end.

Definition sorted {A : Type} (le : A -> A -> bool) (l : list A) : list A :=
  fold_right (insert le) [] l.

(** The order [sorted(..., key=key, reverse=reverse)] sorts by. *)
Definition by_key {A : Type} (key : A -> Z) (reverse : bool) (x y : A) : bool :=
  if reverse then key y <=? key x else key x <=? key y.

(** Tuples compare lexicographically. *)
Definition pair_le (x y : Z * Z) : bool :=
  (fst x <? fst y) || ((fst x =? fst y) && (snd x <=? snd y)).

Fixpoint tuple_lt (x y : list Z) : bool :=
  match x, y with
  | [], [] => false
  | [], _ :: _ => true
  | _ :: _, [] => false
  | a :: x', b :: y' => (a <? b) || ((a =? b) && tuple_lt x' y')
  end.

(** A [dict] in insertion order: assigning to a key that is present
    replaces the value where it stands, a new key goes to the end. *)
Fixpoint dict_set {V : Type} (k : Z) (v : V) (d : list (Z * V)) : list (Z * V) :=
  match d with
  | [] => [(k, v)]
  | (k', v') :: d' =>
      if k' =? k then (k', v) :: d' else (k', v') :: dict_set k v d'
  end.

Fixpoint dict_get {V : Type} (d : list (Z * V)) (k : Z) : option V :=
  match d with
  | [] => None
  | (k', v') :: d' => if k' =? k then Some v' else dict_get d' k
  end.

Definition dict_values {V : Type} (d : list (Z * V)) : list V := map snd d.

(** [Counter(iterable)]: counts in first-seen order. *)
Fixpoint counter_incr (k : Z) (d : list (Z * Z)) : list (Z * Z) :=
  match d with
  | [] => [(k, 1)]
  | (k', n) :: d' =>
      if k' =? k then (k', n + 1) :: d' else (k', n) :: counter_incr k d'
  end.

Definition Counter (l : list Z) : list (Z * Z) :=
  fold_left (fun d k => counter_incr k d) l [].

(** [counter.most_common(n)]: the [n] largest counts, the earlier
    entry first among equal counts. *)
Definition most_common (n : nat) (c : list (Z * Z)) : list (Z * Z) :=
  firstn n (sorted (by_key snd true) c).

(** [defaultdict(list)]: [groups[n].append(x)] and [groups[n]]. *)
Fixpoint dd_append (n x : Z) (g : list (Z * list Z)) : list (Z * list Z) :=
  match g with
  | [] => [(n, [x])]
  | (n', xs) :: g' =>
      if n' =? n then (n', xs ++ [x]) :: g' else (n', xs) :: dd_append n x g'
  end.

Definition dd_get (g : list (Z * list Z)) (n : Z) : list Z :=
  match dict_get g n with
  | Some xs => xs
  | None => []
  end.

(** [{f(c) for c in cards}.difference(xs)], as a duplicate-free list. *)
Definition set_of (l : list Z) : list Z := nodup Z.eq_dec l.
Definition difference (s xs : list Z) : list Z :=
  filter (fun v => negb (existsb (Z.eqb v) xs)) s.

(** [zip] applied to the unpacked rows, each row having two fields. *)
Definition zip_star (rows : list (Z * Z)) : list (list Z) :=
  match rows with
  | [] => []
  | _ :: _ => [map fst rows; map snd rows]
  end.

(** [a, b = xs]. *)
Definition unpack2 {A : Type} (xs : list A) : result (A * A) :=
  match xs with
  | [a; b] => Ok (a, b)
  | _ => Raise ValueError
  end.

Definition truthy {A : Type} (l : list A) : bool :=
  match l with [] => false | _ :: _ => true end.

End Py.

(** ** The module *)

Inductive Hand : Set :=
| HIGH_CARD | PAIR | TWO_PAIR | THREE | STRAIGHT
| FLUSH | FULL_HOUSE | FOUR | STRAIGHT_FLUSH.

Definition Hand_value (h : Hand) : Z :=
  match h with
  | HIGH_CARD => 1 | PAIR => 2 | TWO_PAIR => 3 | THREE => 4 | STRAIGHT => 5
  | FLUSH => 6 | FULL_HOUSE => 7 | FOUR => 8 | STRAIGHT_FLUSH => 9
  end.

(** The tuple [assess_hand] returns: the category, then the tie-breaks. *)
Definition record : Set := (Hand * list Z)%type.

Definition record_tuple (r : record) : list Z := Hand_value (fst r) :: snd r.
Definition record_lt (r1 r2 : record) : bool :=
  Py.tuple_lt (record_tuple r1) (record_tuple r2).

Definition card_value (c : Z) : Z :=
  if c mod 13 =? 0 then 13 else c mod 13.

Definition select_side_cards (cards cards_to_exclude : list Z) : list Z :=
  let side_cards :=
    Py.difference (Py.set_of (map card_value cards))
                  (map card_value cards_to_exclude) in
  Py.sorted (Py.by_key id true) side_cards.

Definition sort_cards (cards : list Z) (suit : option Z)
    (reverse transform_cards : bool) : list Z :=
  let cards :=
    match suit with
    | Some s => filter (fun c => c / 13 =? s) cards
    | None => cards
    end in
  if transform_cards
  then Py.sorted (Py.by_key id reverse) (map card_value cards)
  else Py.sorted (Py.by_key card_value reverse) cards.

Definition max_card (cards : list Z) (suit : option Z)
    (transform_cards : bool) : result Z :=
  Py.getitem (sort_cards cards suit false transform_cards) (-1).

Definition min_card (cards : list Z) (transform_cards : bool) : result Z :=
  Py.getitem (sort_cards cards None false transform_cards) 0.

(** The dictionary comprehension of [find_max_sequence]: one
    [(value, id)] entry per rank value, the last card of a value winning. *)
Definition card_dict_of (cards : list Z) : list (Z * (Z * Z)) :=
  fold_left (fun d c => Py.dict_set (card_value c) (card_value c, c) d) cards [].

(** The loop of [find_max_sequence]: [prev] is [cards[i]], [rest] what
    follows it. *)
Fixpoint split_runs (prev : Z * Z) (rest : list (Z * Z))
    (sequence : list (Z * Z)) (sequences : list (list (Z * Z)))
    : list (list (Z * Z)) :=
  match rest with
  | [] => sequences ++ [sequence]
  | next :: rest' =>
      if fst next =? fst prev + 1
      then split_runs next rest' (sequence ++ [next]) sequences
      else split_runs next rest' [next] (sequences ++ [sequence])
  end.

Definition find_max_sequence (cards : list Z) : result (list (list Z)) :=
  let card_dict := card_dict_of cards in
  if (length card_dict =? 1)%nat then Ok []
  else
    let card_dict :=
      match Py.dict_get card_dict 13 with
      | Some ace => Py.dict_set 0 (0, snd ace) card_dict
      | None => card_dict
      end in
    let cards := Py.sorted Py.pair_le (Py.dict_values card_dict) in
    first <- Py.getitem cards 0 ;;
    let sequences := split_runs first (tl cards) [first] [] in
    max_sequence <-
      Py.getitem (Py.sorted (Py.by_key (fun s => Z.of_nat (length s)) false)
                            sequences) (-1) ;;
    let max_sequence := Py.slice_last 5 max_sequence in
    Ok (Py.zip_star max_sequence).

Definition group_duplicates (hand : list Z) : list (Z * list Z) :=
  let counter := Py.Counter (map card_value hand) in
  fold_left (fun groups kn => Py.dd_append (snd kn) (fst kn) groups)
            (Py.most_common 2 counter) [].

Definition flush_suite (hand : list Z) : result (option Z) :=
  let counter := Py.Counter (map (fun c => c / 13) hand) in
  top <- Py.getitem (Py.most_common 1 counter) 0 ;;
  if snd top =? 5
  then top' <- Py.getitem (Py.most_common 1 counter) 0 ;; Ok (Some (fst top'))
  else Ok None.

Definition is_not_None {A : Type} (o : option A) : bool :=
  match o with Some _ => true | None => false end.

Definition assess_hand (cards : list Z) : result record :=
  found <- find_max_sequence cards ;;
  unpacked <- Py.unpack2 found ;;
  let seq_values := fst unpacked in
  let seq_cards := snd unpacked in
  let duplicates := group_duplicates cards in
  straight_flush <-
    (if (length seq_values =? 5)%nat
     then s <- flush_suite seq_cards ;; Ok (is_not_None s)
     else Ok false) ;;
  if straight_flush then
    high <- Py.getitem seq_values (-1) ;;
    Ok (STRAIGHT_FLUSH, [high])
  else if Py.truthy (Py.dd_get duplicates 4) then
    let side_cards := select_side_cards cards (Py.dd_get duplicates 4) in
    four <- Py.getitem (Py.dd_get duplicates 4) 0 ;;
    kicker <- Py.getitem side_cards 0 ;;
    Ok (FOUR, [four; kicker])
  else if Py.truthy (Py.dd_get duplicates 3) && Py.truthy (Py.dd_get duplicates 2) then
    three <- Py.getitem (Py.dd_get duplicates 3) 0 ;;
    two <- Py.getitem (Py.dd_get duplicates 2) 0 ;;
    Ok (FULL_HOUSE, [three; two])
  else
    suite <- flush_suite cards ;;
    if is_not_None suite then
      suite' <- flush_suite cards ;;
      let flush_cards := sort_cards cards suite' true true in
      Ok (FLUSH, Py.slice_to 5 flush_cards)
    else if (length seq_values =? 5)%nat then
      high <- Py.getitem seq_values (-1) ;;
      Ok (STRAIGHT, [high])
    else if Py.truthy (Py.dd_get duplicates 3) then
      let side_cards := select_side_cards cards (Py.dd_get duplicates 3) in
      three <- Py.getitem (Py.dd_get duplicates 3) 0 ;;
      Ok (THREE, three :: Py.slice_to 2 side_cards)
    else if (length (Py.dd_get duplicates 2) =? 2)%nat then
      let side_cards := select_side_cards cards (Py.dd_get duplicates 2) in
      high_pair <- max_card (Py.dd_get duplicates 2) None true ;;
      low_pair <- min_card (Py.dd_get duplicates 2) true ;;
      kicker <- Py.getitem side_cards 0 ;;
      Ok (TWO_PAIR, [high_pair; low_pair; kicker])
    else if (length (Py.dd_get duplicates 2) =? 1)%nat then
      let side_cards := select_side_cards cards (Py.dd_get duplicates 2) in
      pair <- Py.getitem (Py.dd_get duplicates 2) 0 ;;
      Ok (PAIR, pair :: Py.slice_to 3 side_cards)
    else
      let best_hand := Py.slice_to 5 (sort_cards cards None true true) in
      Ok (HIGH_CARD, best_hand).

(** ** Notions the statements are written with *)

(** The suit of a card, which the module computes in line as [c // 13]. *)
Definition card_suit (c : Z) : Z := c / 13.

(** How often [k] occurs in [l]. *)
Definition occurrences (l : list Z) (k : Z) : Z :=
  Z.of_nat (count_occ Z.eq_dec l k).

(** How many cards of [hand] have suit [s]. *)
Definition suit_count (hand : list Z) (s : Z) : Z :=
  occurrences (map card_suit hand) s.

(** The [n] consecutive integers from [a] on. *)
Fixpoint consecutive (a : Z) (n : nat) : list Z :=
  match n with
  | O => []
  | S n' => a :: consecutive (a + 1) n'
  end.

(** The input [assess_hand] is written for: five to seven different
    cards of the 52-card deck. *)
Definition well_formed (cards : list Z) : Prop :=
  (5 <= length cards <= 7)%nat /\ NoDup cards /\
  Forall (fun c => 0 <= c <= 51) cards.

Definition deck : list Z := map Z.of_nat (seq 0 52).

(** The [k]-element subsets of [l], each in the order of [l], as
    [itertools.combinations] lists them. *)
Fixpoint combinations (k : nat) (l : list Z) {struct l} : list (list Z) :=
  match k, l with
  | O, _ => [[]]
  | S _, [] => []
  | S k', x :: l' => map (cons x) (combinations k' l') ++ combinations k l'
  end.

Fixpoint choose (n k : nat) {struct n} : Z :=
  match k, n with
  | O, _ => 1
  | S _, O => 0
  | S k', S n' => choose n' k' + choose n' k
  end.

(** All lists of length [n] over [l]. *)
Fixpoint tuples (n : nat) (l : list Z) : list (list Z) :=
  match n with
  | O => [[]]
  | S n' => flat_map (fun t => map (fun x => x :: t) l) (tuples n' l)
  end.

Fixpoint distinct (l : list Z) : bool :=
  match l with
  | [] => true
  | x :: l' => negb (existsb (Z.eqb x) l') && distinct l'
  end.

(** The strongest descriptor among the five-card hands that can be
    drawn from [cards], five-card hands being ranked by [assess_hand]. *)
Definition best_of_five (cards : list Z) : option record :=
  fold_left
    (fun best hand =>
       match assess_hand hand, best with
       | Ok r, None => Some r
       | Ok r, Some b => if record_lt b r then Some r else best
       | Raise _, _ => best
       end)
    (combinations 5 cards) None.

(** Ace to five and two to six of one suit. *)
Definition wheel (suit : Z) : list Z := map (fun v => 13 * suit + v) [0; 1; 2; 3; 4].
Definition six_high (suit : Z) : list Z := map (fun v => 13 * suit + v) [1; 2; 3; 4; 5].

(** [x] may stand before every element of [l]. *)
Definition before_all {A : Type} (le : A -> A -> bool) (x : A) (l : list A) : Prop :=
  forall y, In y l -> le x y = true.

(** The entries of the two most common values, in their order. *)
Definition top_two (hand : list Z) : list (Z * Z) :=
  Py.most_common 2 (Py.Counter (map card_value hand)).

(** A run: consecutive rank values, at least one. *)
Definition is_run (r : list (Z * Z)) : Prop :=
  r <> [] /\ exists a, map fst r = consecutive a (length r).

(** Whether every ordering of [hand] is ranked a straight flush with
    the top value [high]. *)
Definition every_order_straight_flush (hand : list Z) (high : Z) : bool :=
  forallb
    (fun h =>
       negb (distinct h) ||
       match assess_hand h with
       | Ok (STRAIGHT_FLUSH, [v]) => v =? high
       | _ => false
       end)
    (tuples (length hand) hand).

(** ** Enumerating the five-card hands *)

(** The two card projections as lookup tables on the deck; off the deck
    they are the module's own computations. *)
Definition card_value_tab (c : Z) : Z :=
  match c with
  | 0 | 13 | 26 | 39 => 13
  | 1 | 14 | 27 | 40 => 1
  | 2 | 15 | 28 | 41 => 2
  | 3 | 16 | 29 | 42 => 3
  | 4 | 17 | 30 | 43 => 4
  | 5 | 18 | 31 | 44 => 5
  | 6 | 19 | 32 | 45 => 6
  | 7 | 20 | 33 | 46 => 7
  | 8 | 21 | 34 | 47 => 8
  | 9 | 22 | 35 | 48 => 9
  | 10 | 23 | 36 | 49 => 10
  | 11 | 24 | 37 | 50 => 11
  | 12 | 25 | 38 | 51 => 12
  | _ => card_value c
  end.

Definition div_tab (c d : Z) : Z :=
  match d, c with
  | 13, (0 | 1 | 2 | 3 | 4 | 5 | 6 | 7 | 8 | 9 | 10 | 11 | 12) => 0
  | 13, (13 | 14 | 15 | 16 | 17 | 18 | 19 | 20 | 21 | 22 | 23 | 24 | 25) => 1
  | 13, (26 | 27 | 28 | 29 | 30 | 31 | 32 | 33 | 34 | 35 | 36 | 37 | 38) => 2
  | 13, (39 | 40 | 41 | 42 | 43 | 44 | 45 | 46 | 47 | 48 | 49 | 50 | 51) => 3
  | _, _ => c / d
  end.

(** [assess_hand] as a function of the rank-value function and of the
    division it uses, read off the definitions above by unfolding them. *)
Definition assess_hand_on : (Z -> Z) -> (Z -> Z -> Z) -> list Z -> result record :=
  ltac:(let body :=
          eval cbv delta [assess_hand find_max_sequence card_dict_of
                          group_duplicates flush_suite select_side_cards
                          sort_cards max_card min_card] in assess_hand in
        let abstracted := eval pattern card_value, Z.div in body in
        match abstracted with ?f _ _ => exact f end).

Definition assess_hand_tab : list Z -> result record :=
  assess_hand_on card_value_tab div_tab.

(** A fold over [combinations k l] that does not build the list;
    [prefix] holds, last first, the cards already chosen. *)
Fixpoint fold_combinations {S : Type} (f : list Z -> S -> S) (k : nat)
    (l prefix : list Z) (acc : S) {struct l} : S :=
  match k, l with
  | O, _ => f (rev prefix) acc
  | S _, [] => acc
  | S k', x :: l' =>
      fold_combinations f k l' prefix (fold_combinations f k' l' (x :: prefix) acc)
  end.

(** Whether [c] can be read off [l] from left to right. *)
Fixpoint subseq (c l : list Z) {struct l} : bool :=
  match c, l with
  | [], _ => true
  | _ :: _, [] => false
  | x :: c', y :: l' => if x =? y then subseq c' l' else subseq c l'
  end.

Fixpoint tuple_eqb (x y : list Z) : bool :=
  match x, y with
  | [], [] => true
  | a :: x', b :: y' => (a =? b) && tuple_eqb x' y'
  | _, _ => false
  end.

Definition record_eqb (r1 r2 : record) : bool :=
  tuple_eqb (record_tuple r1) (record_tuple r2).

(** A number for a descriptor, to file it under. *)
Definition record_code (r : record) : Z :=
  fold_left (fun acc v => acc * 16 + v) (record_tuple r) 1.

(** The descriptors of the five-card hands, each with the first hand
    that has it, filed under its code. *)
Definition rank_table : PositiveMap.t (record * list Z) :=
  Eval vm_compute in
    fold_combinations
      (fun hand table =>
         match assess_hand_tab hand with
         | Ok r =>
             match PositiveMap.find (Z.to_pos (record_code r)) table with
             | Some _ => table
             | None => PositiveMap.add (Z.to_pos (record_code r)) (r, hand) table
             end
         | Raise _ => table
         end)
      5 deck [] (PositiveMap.empty _).

Definition descriptors : list record :=
  map (fun e => fst (snd e)) (PositiveMap.elements rank_table).

(** The hand is ranked, and with a descriptor of the table. *)
Definition in_table (hand : list Z) : bool :=
  match assess_hand_tab hand with
  | Ok r =>
      match PositiveMap.find (Z.to_pos (record_code r)) rank_table with
      | Some e => record_eqb r (fst e)
      | None => false
      end
  | Raise _ => false
  end.

(** The entry is filed under its descriptor's code, and its hand is a
    five-card hand of [cards] with this descriptor. *)
Definition realised (cards : list Z) (e : positive * (record * list Z)) : bool :=
  Pos.eqb (fst e) (Z.to_pos (record_code (fst (snd e)))) &&
  subseq (snd (snd e)) cards && (length (snd (snd e)) =? 5)%nat &&
  match assess_hand_tab (snd (snd e)) with
  | Ok r => record_eqb r (fst (snd e))
  | Raise _ => false
  end.

(** *** Five cards by their rank values *)

(** Whether the cards are all of the suit of the first one. *)
Definition same_suit (hand : list Z) : bool :=
  match hand with
  | [] => false
  | c :: _ => forallb (fun c' => c' / 13 =? c / 13) hand
  end.

(** Cards with the given rank values, in this order: all spades, or the
    first one a heart and the others spades. *)
Definition canonical (values : list Z) (flush : bool) : list Z :=
  match values with
  | [] => []
  | v :: vs =>
      (if flush then v mod 13 else 13 + v mod 13) :: map (fun v => v mod 13) vs
  end.

Definition values13 : list Z := [1; 2; 3; 4; 5; 6; 7; 8; 9; 10; 11; 12; 13].

(** Whether [p] holds of every list of [n] elements of [l] put before
    [suffix]. *)
Fixpoint all_tuples (p : list Z -> bool) (n : nat) (l suffix : list Z) : bool :=
  match n with
  | O => p suffix
  | S n' => forallb (fun x => all_tuples p n' l (x :: suffix)) l
  end.

Definition alike (values : list Z) : bool :=
  match values with
  | [] => true
  | v :: vs => forallb (Z.eqb v) vs
  end.

(** The hands with these rank values are ranked with descriptors of the
    table: the ones not of one suit, unless the values are all the same,
    and the ones of one suit, if the values are all different. *)
Definition values_in_table (values : list Z) : bool :=
  (alike values || in_table (canonical values false)) &&
  (negb (distinct values) || in_table (canonical values true)).

(** *** The stages of [find_max_sequence] *)

(** The dictionary after the ace's second registration. *)
Definition with_low_ace (card_dict : list (Z * (Z * Z))) : list (Z * (Z * Z)) :=
  match Py.dict_get card_dict 13 with
  | Some ace => Py.dict_set 0 (0, snd ace) card_dict
  | None => card_dict
  end.

(** The keys of a card dictionary with the rank values stored under them. *)
Definition entry_values (d : list (Z * (Z * Z))) : list (Z * Z) :=
  map (fun e => (fst e, fst (snd e))) d.

(** Two results of [find_max_sequence] with the same row of values. *)
Definition same_rows (r r' : result (list (list Z))) : Prop :=
  match r, r' with
  | Ok [values; _], Ok [values'; _] => values = values'
  | Ok [], Ok [] => True
  | Raise e, Raise e' => e = e'
  | _, _ => False
  end.

Definition result_map {A B : Type} (f : A -> B) (m : result A) : result B :=
  match m with
  | Ok a => Ok (f a)
  | Raise e => Raise e
  end.

(** ** Notions for the further properties *)

(** The order a list sorted with [reverse] is in. *)
Definition ordered (reverse : bool) (x y : Z) : Prop :=
  if reverse then y <= x else x <= y.

(** The cards [sort_cards] keeps: those of the suit, all without one. *)
Definition of_suit (cards : list Z) (suit : option Z) : list Z :=
  match suit with
  | Some s => filter (fun c => card_suit c =? s) cards
  | None => cards
  end.

(** The values [find_max_sequence] looks for runs in: the rank values of
    the cards, and 0 when there is an ace. *)
Definition has_value (cards : list Z) (v : Z) : Prop :=
  In v (map card_value cards) \/ (v = 0 /\ In 13 (map card_value cards)).

(** The entries [find_max_sequence] sorts, and the runs it splits a
    sorted list of entries into. *)
Definition sorted_entries (cards : list Z) : list (Z * Z) :=
  Py.sorted Py.pair_le (Py.dict_values (with_low_ace (card_dict_of cards))).

Definition runs_of (entries : list (Z * Z)) : list (list (Z * Z)) :=
  match entries with
  | [] => []
  | first :: rest => split_runs first rest [first] []
  end.

(** A run of values among [present] that cannot be extended: the values
    next to its two ends are not present. *)
Definition maximal_run (present : list Z) (r : list (Z * Z)) : Prop :=
  exists a n, map fst r = consecutive a (S n) /\
              ~ In (a - 1) present /\ ~ In (a + Z.of_nat (S n)) present.

(** What a descriptor of each category tells about the run of the
    ranker that produced it: the tests passed and failed on the way, and
    where the tie-breaks were read. *)
Definition assess_hand_path (cards sv ids : list Z) (cat : Hand) (tb : list Z) : Prop :=
  let d := Py.dd_get (group_duplicates cards) in
  let no_four := Py.truthy (d 4) = false in
  let no_full_house := Py.truthy (d 3) && Py.truthy (d 2) = false in
  let no_flush := flush_suite cards = Ok None in
  let no_straight := (length sv =? 5)%nat = false in
  match cat with
  | STRAIGHT_FLUSH =>
      length sv = 5%nat /\
      exists s h, flush_suite ids = Ok (Some s) /\
                  Py.getitem sv (-1) = Ok h /\ tb = [h]
  | FOUR =>
      Py.truthy (d 4) = true /\
      exists q k, Py.getitem (d 4) 0 = Ok q /\
                  Py.getitem (select_side_cards cards (d 4)) 0 = Ok k /\
                  tb = [q; k]
  | FULL_HOUSE =>
      no_four /\ Py.truthy (d 3) && Py.truthy (d 2) = true /\
      exists t p, Py.getitem (d 3) 0 = Ok t /\ Py.getitem (d 2) 0 = Ok p /\
                  tb = [t; p]
  | FLUSH =>
      no_four /\ no_full_house /\
      exists s, flush_suite cards = Ok (Some s) /\
                tb = Py.slice_to 5 (sort_cards cards (Some s) true true)
  | STRAIGHT =>
      no_four /\ no_full_house /\ no_flush /\ length sv = 5%nat /\
      exists h, Py.getitem sv (-1) = Ok h /\ tb = [h]
  | THREE =>
      no_four /\ no_full_house /\ no_flush /\ no_straight /\
      Py.truthy (d 3) = true /\
      exists t, Py.getitem (d 3) 0 = Ok t /\
                tb = t :: Py.slice_to 2 (select_side_cards cards (d 3))
  | TWO_PAIR =>
      no_four /\ no_flush /\ no_straight /\ Py.truthy (d 3) = false /\
      length (d 2) = 2%nat /\
      exists high low k,
        max_card (d 2) None true = Ok high /\ min_card (d 2) true = Ok low /\
        Py.getitem (select_side_cards cards (d 2)) 0 = Ok k /\
        tb = [high; low; k]
  | PAIR =>
      no_four /\ no_flush /\ no_straight /\ Py.truthy (d 3) = false /\
      length (d 2) = 1%nat /\
      exists p, Py.getitem (d 2) 0 = Ok p /\
                tb = p :: Py.slice_to 3 (select_side_cards cards (d 2))
  | HIGH_CARD =>
      no_four /\ no_flush /\ no_straight /\ Py.truthy (d 3) = false /\
      length (d 2) <> 2%nat /\ length (d 2) <> 1%nat /\
      tb = Py.slice_to 5 (sort_cards cards None true true)
  end.

(** Proof steps for the lemmas on [assess_hand]: [walk] goes through the
    binds and tests of a run, [tidy] puts what it recorded in the form
    the statements use. *)
Ltac walk H :=
  repeat match type of H with
         | context [bind ?m _] => destruct m eqn:?; cbn [bind] in H
         | context [if ?b then _ else _] => destruct b eqn:?
         end.

Ltac tidy :=
  repeat match goal with
         | E : is_not_None ?o = true |- _ => destruct o; [clear E|discriminate E]
         | E : is_not_None ?o = false |- _ => destruct o; [discriminate E|clear E]
         | E : (_ =? _)%nat = true |- _ => apply Nat.eqb_eq in E
         | E : (_ =? _)%nat = false |- _ => apply Nat.eqb_neq in E
         | E : Ok _ = Ok _ |- _ => injection E as E; try subst
         end.

(** The kickers of a hand: the [n] highest of the rank values of [cards]
    that are not in [group], the highest first. *)
Definition kickers_of (cards group : list Z) (n : nat) (kickers : list Z) : Prop :=
  exists side,
    kickers = firstn n side /\ StronglySorted Z.gt side /\
    forall v, In v side <-> In v (map card_value cards) /\ ~ In v group.

(** In a run of the ranker the card [id] stands for the value [v]: it
    has this rank value, or it is an ace counted low. *)
Definition stands_for (cards : list Z) (v id : Z) : Prop :=
  In id cards /\ (v = card_value id \/ (v = 0 /\ card_value id = 13)).

(** Two rank values only, each on [n] cards. *)
Definition two_values_evenly (cards : list Z) (n : Z) : Prop :=
  exists a b,
    a <> b /\
    occurrences (map card_value cards) a = n /\
    occurrences (map card_value cards) b = n /\
    forall c, In c cards -> card_value c = a \/ card_value c = b.

Fixpoint decreasing (l : list Z) : bool :=
  match l with
  | [] => true
  | x :: l' => forallb (fun y => y <? x) l' && decreasing l'
  end.

(** The form of the descriptor of a five-card hand: values from 1 to 13,
    as many as the category asks for; the top of a run is at least 4,
    kickers go down and differ from the values they go with. *)
Definition well_shaped (r : record) : bool :=
  forallb (fun v => (1 <=? v) && (v <=? 13)) (snd r) &&
  match fst r, snd r with
  | (STRAIGHT_FLUSH | STRAIGHT), [high] => 4 <=? high
  | (FOUR | FULL_HOUSE), [a; b] => negb (a =? b)
  | (FLUSH | HIGH_CARD), [_; _; _; _; _] => decreasing (snd r)
  | THREE, [t; k1; k2] => (k2 <? k1) && negb (existsb (Z.eqb t) [k1; k2])
  | TWO_PAIR, [high; low; k] => (low <? high) && negb (existsb (Z.eqb k) [high; low])
  | PAIR, [p; k1; k2; k3] =>
      decreasing [k1; k2; k3] && negb (existsb (Z.eqb p) [k1; k2; k3])
  | _, _ => false
  end.

Definition category_count (cat : Hand) (l : list record) : Z :=
  Z.of_nat (length (filter (fun r => Hand_value (fst r) =? Hand_value cat) l)).

(** The number of different descriptors of each category. *)
Definition distinct_descriptors (cat : Hand) : Z :=
  match cat with
  | STRAIGHT_FLUSH | STRAIGHT => 10
  | FOUR | FULL_HOUSE => 156
  | FLUSH | HIGH_CARD => 1277
  | THREE | TWO_PAIR => 858
  | PAIR => 2860
  end.

(** The number of tie-breaks a descriptor of each category is meant to
    hold. *)
Definition tie_breaks (cat : Hand) : nat :=
  match cat with
  | STRAIGHT_FLUSH | STRAIGHT => 1
  | FOUR | FULL_HOUSE => 2
  | THREE | TWO_PAIR => 3
  | PAIR => 4
  | FLUSH | HIGH_CARD => 5
  end.

(** The cards whose rank value is not in [group]. *)
Definition outside (group cards : list Z) : list Z :=
  filter (fun c => negb (existsb (Z.eqb (card_value c)) group)) cards.

(** ** The repository's tests, replayed *)

Example test_card_value :
  map card_value [12; 51; 0; 1; 2] = [12; 12; 13; 1; 2].
Proof. reflexivity. Qed.

Example test_max_sequence_values :
  map (fun cards => bind (find_max_sequence cards) (fun r => Py.getitem r 0))
      [[38; 24; 10; 9]; [38; 24; 10; 9; 0]; [0; 1; 2; 3; 5; 6; 7];
       [0; 1; 2; 3; 5; 6; 7; 8; 9; 10]]
  = [Ok [9; 10; 11; 12]; Ok [9; 10; 11; 12; 13]; Ok [0; 1; 2; 3];
     Ok [6; 7; 8; 9; 10]].
Proof. reflexivity. Qed.

Example test_max_sequence_ids :
  find_max_sequence [0; 10; 14; 23; 28] = Ok [[0; 1; 2]; [0; 14; 28]].
Proof. reflexivity. Qed.

Example test_group_duplicates :
  let duplicates := group_duplicates [0; 13; 26; 12; 51] in
  Py.dd_get duplicates 2 = [12] /\ Py.dd_get duplicates 3 = [13].
Proof. split; reflexivity. Qed.

Example test_flush_suite :
  map flush_suite [[0; 1; 2; 3; 4]; [0; 1; 15; 3; 4]; [0; 1; 2; 3]]
  = [Ok (Some 0); Ok None; Ok None].
Proof. reflexivity. Qed.

Example test_sort_cards :
  sort_cards [39; 40; 41; 17] (Some 3) false true = [1; 2; 13].
Proof. reflexivity. Qed.

Example test_assess_hand :
  map assess_hand
      [[0; 9; 12; 11; 10; 27; 28]; [0; 8; 12; 11; 10; 14; 28];
       [0; 22; 12; 11; 10; 14; 28]; [0; 13; 11; 37; 7; 18; 28];
       [0; 13; 11; 37; 5; 18; 38]]
  = [Ok (STRAIGHT_FLUSH, [13]); Ok (FLUSH, [13; 12; 11; 10; 8]);
     Ok (STRAIGHT, [13]); Ok (TWO_PAIR, [13; 11; 7]);
     Ok (TWO_PAIR, [13; 11; 12])].
Proof. reflexivity. Qed.

Example test_hand_order :
  (r1 <- assess_hand [0; 9; 12; 11; 10; 27; 28] ;;
   r2 <- assess_hand [0; 22; 12; 11; 10; 14; 28] ;;
   Ok (record_lt r2 r1)) = Ok true
  /\ (r1 <- assess_hand [0; 13; 12; 11; 9] ;;
      r2 <- assess_hand [0; 13; 38; 50; 8] ;;
      Ok (record_lt r2 r1)) = Ok true.
Proof. split; reflexivity. Qed.

(** ** Card encoding and the kicker selector *)

Lemma card_value_range (c : Z) : 1 <= card_value c <= 13.
Proof.
  unfold card_value.
  pose proof (Z.mod_pos_bound c 13 ltac:(lia)).
  destruct (Z.eqb_spec (c mod 13) 0); lia.
Qed.

Lemma card_value_fixed (v : Z) : 1 <= v <= 13 -> card_value v = v.
Proof.
  intros Hv. unfold card_value.
  destruct (Z.eq_dec v 13) as [->|Hne]; [reflexivity|].
  rewrite (Z.mod_small v 13) by lia.
  destruct (Z.eqb_spec v 0); lia.
Qed.

Lemma card_value_idempotent (c : Z) : card_value (card_value c) = card_value c.
Proof. apply card_value_fixed, card_value_range. Qed.

(** C10: [card_value] is idempotent (on every integer, so on every card
    id in [0,51]), and therefore [select_side_cards] returns the same
    list whether the cards to exclude are given as raw ids or as rank
    values already converted. *)
Theorem select_side_cards_values_or_ids :
  (forall c, card_value (card_value c) = card_value c) /\
  (forall cards ids,
      select_side_cards cards (map card_value ids) = select_side_cards cards ids).
Proof.
  split; [exact card_value_idempotent|].
  intros cards ids. unfold select_side_cards.
  rewrite map_map.
  rewrite (map_ext _ card_value (fun c => card_value_idempotent c)).
  reflexivity.
Qed.

(** ** Where the code departs from the claims: evaluations *)

(** C9: on the five cards 2, 3, 5, 6, 8 of spades the runs are [1,2],
    [4,5] and [7]; the run the code selects is the last of the longest
    ones, [4,5], not the first, [1,2]. *)
Theorem find_max_sequence_takes_last_longest_run :
  find_max_sequence [1; 2; 4; 5; 7] = Ok [[4; 5]; [4; 5]] /\
  split_runs (1, 1) [(2, 2); (4, 4); (5, 5); (7, 7)] [(1, 1)] []
  = [[(1, 1); (2, 2)]; [(4, 4); (5, 5)]; [(7, 7)]].
Proof. split; reflexivity. Qed.

(** C1: ace, king, queen, jack, nine of spades with the two of hearts,
    and the same five with the two of spades, have the same best
    five-card hand, a flush; the code ranks the second as a high card. *)
Theorem equivalent_hands_ranked_differently :
  best_of_five [0; 12; 11; 10; 8; 14] = best_of_five [0; 12; 11; 10; 8; 1] /\
  best_of_five [0; 12; 11; 10; 8; 14] = Some (FLUSH, [13; 12; 11; 10; 8]) /\
  assess_hand [0; 12; 11; 10; 8; 14] = Ok (FLUSH, [13; 12; 11; 10; 8]) /\
  assess_hand [0; 12; 11; 10; 8; 1] = Ok (HIGH_CARD, [13; 12; 11; 10; 8]).
Proof. repeat split; vm_compute; reflexivity. Qed.

(** C2: the same seven cards, supplied in two orders, get two
    descriptors: with three pairs, the two pairs seen first are kept.
    So do ace to five of spades with the five of hearts: the five seen
    last stands for its value in the run. *)
Theorem assess_hand_depends_on_order :
  Permutation [1; 14; 2; 15; 0; 13; 12] [0; 13; 2; 15; 1; 14; 12] /\
  well_formed [1; 14; 2; 15; 0; 13; 12] /\
  assess_hand [1; 14; 2; 15; 0; 13; 12] = Ok (TWO_PAIR, [2; 1; 13]) /\
  assess_hand [0; 13; 2; 15; 1; 14; 12] = Ok (TWO_PAIR, [13; 2; 12]) /\
  assess_hand [0; 1; 2; 3; 4; 17] = Ok (FLUSH, [13; 4; 3; 2; 1]) /\
  assess_hand [17; 0; 1; 2; 3; 4] = Ok (STRAIGHT_FLUSH, [4]).
Proof.
  split; [|split; [|repeat split; reflexivity]].
  - apply (Permutation_cons_app [0; 13; 2; 15] [14; 12]). simpl.
    apply (Permutation_cons_app [0; 13; 2; 15] [12]). simpl.
    apply (Permutation_cons_app [0; 13] [15; 12]). simpl.
    apply (Permutation_cons_app [0; 13] [12]). simpl.
    reflexivity.
  - unfold well_formed. split; [simpl; lia|]. split.
    + repeat constructor; simpl; intuition lia.
    + repeat constructor; lia.
Qed.

(** C4, as stated, fails: nothing in [assess_hand] checks its input.
    Four cards, an id out of range, and a repeated id all get a
    descriptor. *)
Lemma malformed_input_gets_a_descriptor :
  assess_hand [0; 1; 2; 3] = Ok (HIGH_CARD, [13; 3; 2; 1]) /\
  assess_hand [52; 1; 2; 3; 4] = Ok (STRAIGHT, [4]) /\
  assess_hand [0; 0; 1; 2; 3] = Ok (FLUSH, [13; 13; 3; 2; 1]).
Proof. repeat split; reflexivity. Qed.

(** ** Facts about the builtins *)

Module PyFacts.
Import Py.

Lemma getitem_nil {A : Type} (i : Z) : getitem (@nil A) i = Raise IndexError.
Proof.
  unfold getitem.
  destruct (_ && _); [|reflexivity].
  now destruct (Z.to_nat _).
Qed.

Lemma getitem_first {A : Type} (x : A) (l : list A) : getitem (x :: l) 0 = Ok x.
Proof.
  unfold getitem. cbn [Z.ltb Z.compare].
  replace (0 <? Z.of_nat (length (x :: l))) with true
    by (symmetry; apply Z.ltb_lt; simpl; lia).
  reflexivity.
Qed.

Lemma getitem_last {A : Type} (l : list A) (x : A) :
  getitem (l ++ [x]) (-1) = Ok x.
Proof.
  unfold getitem. cbn [Z.ltb Z.compare].
  rewrite length_app, Nat.add_comm. cbn [length Nat.add].
  replace (-1 + Z.of_nat (S (length l))) with (Z.of_nat (length l)) by lia.
  replace (0 <=? Z.of_nat (length l)) with true by (symmetry; apply Z.leb_le; lia).
  replace (Z.of_nat (length l) <? Z.of_nat (S (length l))) with true
    by (symmetry; apply Z.ltb_lt; lia).
  cbn [andb]. rewrite Nat2Z.id, nth_error_app2, Nat.sub_diag by lia.
  reflexivity.
Qed.

Lemma getitem_last_ex {A : Type} (l : list A) :
  l <> [] -> exists x, getitem l (-1) = Ok x /\ In x l.
Proof.
  intros Hl. destruct (exists_last Hl) as [l' [x ->]].
  exists x. rewrite getitem_last, in_app_iff. simpl. auto.
Qed.

Section Sorting.
Context {A : Type} (le : A -> A -> bool).

Lemma insert_perm (x : A) (l : list A) : Permutation (insert le x l) (x :: l).
Proof.
  induction l as [|y l IH]; simpl; [reflexivity|].
  destruct (le x y); [reflexivity|].
  rewrite IH. apply perm_swap.
Qed.

Lemma sorted_perm (l : list A) : Permutation (sorted le l) l.
Proof.
  induction l as [|x l IH]; simpl; [reflexivity|].
  rewrite insert_perm. now constructor.
Qed.

Lemma sorted_length (l : list A) : length (sorted le l) = length l.
Proof. apply Permutation_length, sorted_perm. Qed.

Lemma sorted_In (l : list A) (x : A) : In x (sorted le l) <-> In x l.
Proof.
  split; apply Permutation_in; [|symmetry]; apply sorted_perm.
Qed.

Lemma sorted_nonempty (l : list A) : l <> [] -> sorted le l <> [].
Proof.
  intros Hl Hs. apply Hl, length_zero_iff_nil.
  rewrite <- sorted_length, Hs. reflexivity.
Qed.

(** With a total and transitive order the first element of the sorted
    list may stand before every other one. *)
Hypothesis le_total : forall x y, le x y = true \/ le y x = true.
Hypothesis le_trans : forall x y z, le x y = true -> le y z = true -> le x z = true.


Lemma insert_head (x : A) (l : list A) :
  (match l with [] => True | y :: l' => before_all le y l' end) ->
  match insert le x l with [] => False | y :: l' => before_all le y l' end.
Proof.
  destruct l as [|y l]; simpl; intros Hl.
  - intros z [].
  - destruct (le x y) eqn:Hxy.
    + intros z [<-|Hz]; [assumption|]. apply (le_trans _ y); auto.
    + intros z Hz. apply (Permutation_in _ (insert_perm x l)) in Hz.
      destruct Hz as [<-|Hz]; [|auto].
      destruct (le_total x y); congruence.
Qed.

Lemma sorted_head (l : list A) :
  match sorted le l with [] => True | y :: l' => before_all le y l' end.
Proof.
  induction l as [|x l IH]; simpl; [exact I|].
  pose proof (insert_head x _ IH) as H.
  destruct (insert le x (sorted le l)); [contradiction|assumption].
Qed.
End Sorting.

Lemma by_key_total {A : Type} (key : A -> Z) (r : bool) (x y : A) :
  by_key key r x y = true \/ by_key key r y x = true.
Proof. unfold by_key. destruct r; rewrite !Z.leb_le; lia. Qed.

Lemma by_key_trans {A : Type} (key : A -> Z) (r : bool) (x y z : A) :
  by_key key r x y = true -> by_key key r y z = true -> by_key key r x z = true.
Proof. unfold by_key. destruct r; rewrite !Z.leb_le; lia. Qed.

(** The entry [most_common 1] returns has the largest count. *)
Lemma most_common_1 (c : list (Z * Z)) :
  c <> [] ->
  exists k n, most_common 1 c = [(k, n)] /\ In (k, n) c /\
              forall k' n', In (k', n') c -> n' <= n.
Proof.
  intros Hc. unfold most_common.
  pose proof (sorted_head (by_key snd true) (by_key_total snd true)
                (by_key_trans snd true) c) as Hhead.
  pose proof (sorted_nonempty (by_key snd true) c Hc) as Hne.
  pose proof (sorted_In (by_key snd true) c) as Hin.
  destruct (sorted (by_key snd true) c) as [|[k n] rest]; [congruence|].
  exists k, n. split; [reflexivity|]. split; [apply Hin; now left|].
  intros k' n' H'. apply Hin in H'. destruct H' as [[= -> ->]|H']; [lia|].
  specialize (Hhead _ H'). unfold by_key in Hhead. simpl in Hhead.
  now apply Z.leb_le.
Qed.

(** A sort by a key that a map preserves commutes with the map. *)
Lemma sorted_map {A B : Type} (f : A -> B) (le : A -> A -> bool)
    (le' : B -> B -> bool) (l : list A) :
  (forall x y, le' (f x) (f y) = le x y) ->
  map f (sorted le l) = sorted le' (map f l).
Proof.
  intros Hle. induction l as [|x l IH]; simpl; [reflexivity|].
  rewrite <- IH. generalize (sorted le l) as s.
  induction s as [|y s IHs]; simpl; [reflexivity|].
  rewrite Hle. destruct (le x y); simpl; [reflexivity|now rewrite IHs].
Qed.

Lemma getitem_map {A B : Type} (f : A -> B) (l : list A) (i : Z) :
  getitem (map f l) i = result_map f (getitem l i).
Proof.
  unfold getitem. rewrite length_map, nth_error_map.
  destruct (_ && _); [|reflexivity].
  now destruct (nth_error l _).
Qed.

Lemma slice_last_map {A B : Type} (f : A -> B) (k : nat) (l : list A) :
  map f (slice_last k l) = slice_last k (map f l).
Proof. unfold slice_last. now rewrite skipn_map, length_map. Qed.


End PyFacts.

Module DictFacts.
Import Py.

Section Dict.
Context {V : Type}.
Implicit Types (d : list (Z * V)) (k : Z) (v : V).

Lemma dict_set_keys k v d k' :
  In k' (map fst (dict_set k v d)) <-> k' = k \/ In k' (map fst d).
Proof.
  induction d as [|[k0 v0] d IH]; simpl.
  - intuition congruence.
  - destruct (Z.eqb_spec k0 k) as [->|Hne]; simpl; [intuition congruence|].
    rewrite IH. intuition congruence.
Qed.

Lemma dict_set_NoDup k v d :
  NoDup (map fst d) -> NoDup (map fst (dict_set k v d)).
Proof.
  induction d as [|[k0 v0] d IH]; simpl; intros Hd.
  - repeat constructor. intros [].
  - inversion Hd as [|? ? Hnotin Hd']; subst.
    destruct (Z.eqb_spec k0 k) as [->|Hne]; simpl.
    + now constructor.
    + constructor; [|auto]. rewrite dict_set_keys. intuition congruence.
Qed.

Lemma dict_set_In k v d k' x :
  In (k', x) (dict_set k v d) -> (k' = k /\ x = v) \/ In (k', x) d.
Proof.
  induction d as [|[k0 v0] d IH]; simpl.
  - intros [[= <- <-]|[]]. auto.
  - destruct (Z.eqb_spec k0 k) as [->|Hne]; simpl.
    + intros [[= <- <-]|H]; auto.
    + intros [H|H]; [auto|]. destruct (IH H); auto.
Qed.

Lemma dict_set_length k v d :
  (length d <= length (dict_set k v d) <= S (length d))%nat.
Proof.
  induction d as [|[k0 v0] d IH]; simpl; [lia|].
  destruct (k0 =? k); simpl; lia.
Qed.

Lemma dict_get_Some d k v : dict_get d k = Some v -> In (k, v) d.
Proof.
  induction d as [|[k0 v0] d IH]; simpl; [discriminate|].
  destruct (Z.eqb_spec k0 k) as [->|Hne]; [intros [= ->]|]; auto.
Qed.

Lemma dict_get_In d k v :
  NoDup (map fst d) -> In (k, v) d -> dict_get d k = Some v.
Proof.
  induction d as [|[k0 v0] d IH]; simpl; [intros _ []|].
  intros Hd [[= -> ->]|Hin].
  - now rewrite Z.eqb_refl.
  - inversion Hd as [|? ? Hnotin Hd']; subst.
    destruct (Z.eqb_spec k0 k) as [->|Hne]; [|auto].
    exfalso. apply Hnotin. change k with (fst (k, v)). now apply in_map.
Qed.

Lemma dict_get_None d k : dict_get d k = None <-> ~ In k (map fst d).
Proof.
  induction d as [|[k0 v0] d IH]; simpl; [intuition|].
  destruct (Z.eqb_spec k0 k) as [->|Hne]; [|rewrite IH]; intuition congruence.
Qed.
End Dict.

(** [Counter] *)

Lemma counter_incr_keys k d k' :
  In k' (map fst (counter_incr k d)) <-> k' = k \/ In k' (map fst d).
Proof.
  induction d as [|[k0 n0] d IH]; simpl.
  - intuition congruence.
  - destruct (Z.eqb_spec k0 k) as [->|Hne]; simpl; [intuition congruence|].
    rewrite IH. intuition congruence.
Qed.

Lemma counter_incr_NoDup k d :
  NoDup (map fst d) -> NoDup (map fst (counter_incr k d)).
Proof.
  induction d as [|[k0 n0] d IH]; simpl; intros Hd.
  - repeat constructor. intros [].
  - inversion Hd as [|? ? Hnotin Hd']; subst.
    destruct (Z.eqb_spec k0 k) as [->|Hne]; simpl.
    + now constructor.
    + constructor; [|auto]. rewrite counter_incr_keys. intuition congruence.
Qed.

Lemma dict_get_counter_incr k d k' :
  dict_get (counter_incr k d) k' =
  if k =? k'
  then Some (match dict_get d k with Some m => m + 1 | None => 1 end)
  else dict_get d k'.
Proof.
  induction d as [|[k0 n0] d IH]; simpl.
  - now rewrite Z.eqb_sym.
  - destruct (Z.eqb_spec k0 k) as [->|Hne]; simpl.
    + destruct (Z.eqb_spec k k'); reflexivity.
    + rewrite IH.
      destruct (Z.eqb_spec k0 k'), (Z.eqb_spec k k'); congruence.
Qed.

Lemma occurrences_snoc l x k :
  occurrences (l ++ [x]) k = occurrences l k + (if x =? k then 1 else 0).
Proof.
  unfold occurrences. rewrite count_occ_app. simpl.
  destruct (Z.eq_dec x k), (Z.eqb_spec x k); try congruence; lia.
Qed.

Lemma occurrences_pos l k : In k l <-> 0 < occurrences l k.
Proof.
  unfold occurrences. rewrite (count_occ_In Z.eq_dec). lia.
Qed.

Lemma Counter_snoc l x : Counter (l ++ [x]) = counter_incr x (Counter l).
Proof. unfold Counter. now rewrite fold_left_app. Qed.

Lemma Counter_NoDup l : NoDup (map fst (Counter l)).
Proof.
  induction l as [|x l IH] using rev_ind; [constructor|].
  rewrite Counter_snoc. now apply counter_incr_NoDup.
Qed.

Lemma Counter_get l k :
  dict_get (Counter l) k =
  if occurrences l k =? 0 then None else Some (occurrences l k).
Proof.
  induction l as [|x l IH] using rev_ind; [reflexivity|].
  rewrite Counter_snoc, dict_get_counter_incr, occurrences_snoc.
  destruct (Z.eqb_spec x k) as [->|Hne].
  - rewrite IH.
    assert (0 <= occurrences l k) by (unfold occurrences; lia).
    destruct (Z.eqb_spec (occurrences l k) 0) as [E|E].
    + rewrite E. reflexivity.
    + destruct (Z.eqb_spec (occurrences l k + 1) 0); [lia|reflexivity].
  - now rewrite IH, Z.add_0_r.
Qed.

(** The entries of a counter: every element once, with its count. *)
Lemma Counter_In l k n :
  In (k, n) (Counter l) <-> In k l /\ n = occurrences l k.
Proof.
  rewrite occurrences_pos. split.
  - intros H. apply (dict_get_In _ _ _ (Counter_NoDup l)) in H.
    rewrite Counter_get in H.
    destruct (Z.eqb_spec (occurrences l k) 0); [discriminate|].
    injection H as <-. unfold occurrences in *. lia.
  - intros [Hpos ->]. apply dict_get_Some. rewrite Counter_get.
    destruct (Z.eqb_spec (occurrences l k) 0); [lia|reflexivity].
Qed.

Lemma Counter_nonempty l : l <> [] -> Counter l <> [].
Proof.
  destruct l as [|x l]; [congruence|]. intros _ H.
  assert (Hin : In (x, occurrences (x :: l) x) (Counter (x :: l)))
    by (apply Counter_In; simpl; auto).
  rewrite H in Hin. destruct Hin.
Qed.

End DictFacts.

(** ** The flush detector *)

Lemma occurrences_two (l : list Z) (a b : Z) :
  a <> b -> occurrences l a + occurrences l b <= Z.of_nat (length l).
Proof.
  intros Hab. unfold occurrences.
  induction l as [|x l IH]; simpl; [lia|].
  destruct (Z.eq_dec x a), (Z.eq_dec x b); subst; try congruence; lia.
Qed.

Lemma occurrences_nonneg (l : list Z) (k : Z) : 0 <= occurrences l k.
Proof. unfold occurrences. lia. Qed.

(** What [flush_suite] computes: the first suit with the largest count,
    kept when that count is five. *)
Lemma flush_suite_spec (hand : list Z) :
  hand <> [] ->
  exists k, (forall t, suit_count hand t <= suit_count hand k) /\
            flush_suite hand =
            Ok (if suit_count hand k =? 5 then Some k else None).
Proof.
  intros Hhand. unfold flush_suite.
  assert (Hne : map card_suit hand <> [])
    by (destruct hand; [congruence|discriminate]).
  destruct (PyFacts.most_common_1 _ (DictFacts.Counter_nonempty _ Hne))
    as (k & n & Hmc & Hin & Hmax).
  change (map (fun c => c / 13) hand) with (map card_suit hand).
  rewrite Hmc, PyFacts.getitem_first. cbn [bind snd fst].
  apply DictFacts.Counter_In in Hin. destruct Hin as [Hk ->].
  exists k. split.
  - intros t. unfold suit_count.
    destruct (Z.eq_dec (occurrences (map card_suit hand) t) 0) as [->|Hpos].
    + apply occurrences_nonneg.
    + apply (Hmax t). apply DictFacts.Counter_In. split; [|reflexivity].
      apply DictFacts.occurrences_pos.
      pose proof (occurrences_nonneg (map card_suit hand) t). lia.
  - unfold suit_count. now destruct (_ =? 5).
Qed.

(** C8: on five to seven cards [flush_suite] returns a suit exactly when
    the most frequent suit occurs exactly five times, and that suit;
    otherwise it returns [None], in particular when six or seven cards
    share a suit. *)
Theorem flush_suite_exactly_five (hand : list Z) :
  (5 <= length hand <= 7)%nat ->
  (forall s, flush_suite hand = Ok (Some s) <->
             suit_count hand s = 5 /\ forall t, suit_count hand t <= 5) /\
  (flush_suite hand = Ok None <->
   ~ exists s, suit_count hand s = 5 /\ forall t, suit_count hand t <= 5) /\
  (forall s, 6 <= suit_count hand s -> flush_suite hand = Ok None).
Proof.
  intros Hlen.
  assert (Hhand : hand <> []) by (destruct hand; [simpl in Hlen; lia|discriminate]).
  destruct (flush_suite_spec hand Hhand) as (k & Hmax & Hfl).
  assert (Huniq : forall s, suit_count hand s = 5 -> suit_count hand k = 5 -> s = k).
  { intros s Hs Hk. destruct (Z.eq_dec s k) as [|Hne]; [assumption|].
    pose proof (occurrences_two (map card_suit hand) s k Hne) as H.
    unfold suit_count in Hs, Hk. rewrite length_map in H. lia. }
  rewrite Hfl. split; [|split].
  - intros s. split.
    + destruct (Z.eqb_spec (suit_count hand k) 5) as [E|E]; [|discriminate].
      intros HH. injection HH as Hks. subst s. split; [assumption|]. intros t. rewrite <- E. apply Hmax.
    + intros [Hs Hall].
      assert (E : suit_count hand k = 5)
        by (pose proof (Hmax s); pose proof (Hall k); lia).
      rewrite E. cbn. now rewrite (Huniq s Hs E).
  - split.
    + destruct (Z.eqb_spec (suit_count hand k) 5) as [E|E]; [discriminate|].
      intros _ (s & Hs & Hall). pose proof (Hmax s). pose proof (Hall k). lia.
    + intros Hno.
      destruct (Z.eqb_spec (suit_count hand k) 5) as [E|E]; [|reflexivity].
      exfalso. apply Hno. exists k. split; [assumption|].
      intros t. rewrite <- E. apply Hmax.
  - intros s Hs. pose proof (Hmax s).
    destruct (Z.eqb_spec (suit_count hand k) 5); [lia|reflexivity].
Qed.

Lemma flush_suite_exactly_five_witness :
  (5 <= length [0; 1; 2; 3; 4; 5] <= 7)%nat /\
  flush_suite [0; 1; 2; 3; 4; 5] = Ok None.
Proof.
  split; [simpl; lia|].
  refine (proj2 (proj2 (flush_suite_exactly_five [0; 1; 2; 3; 4; 5] _)) 0 _).
  - simpl; lia.
  - vm_compute. discriminate.
Defined.

(** ** The duplicate grouper *)

Module GroupFacts.
Import Py.

Lemma dd_get_dd_append (n x : Z) (g : list (Z * list Z)) (m : Z) :
  dd_get (dd_append n x g) m =
  if n =? m then dd_get g m ++ [x] else dd_get g m.
Proof.
  unfold dd_get. induction g as [|[n0 xs] g IH]; simpl.
  - destruct (n =? m); reflexivity.
  - destruct (Z.eqb_spec n0 n) as [->|Hne]; simpl.
    + destruct (Z.eqb_spec n m); reflexivity.
    + destruct (Z.eqb_spec n0 m) as [->|Hne']; [|apply IH].
      destruct (Z.eqb_spec n m); [congruence|reflexivity].
Qed.


(** [groups[n]] lists the values among the two most common ones that
    occur [n] times, in the order [most_common] gives them. *)
Lemma group_duplicates_get (hand : list Z) (n : Z) :
  dd_get (group_duplicates hand) n =
  map fst (filter (fun kn => snd kn =? n) (top_two hand)).
Proof.
  unfold group_duplicates, top_two.
  generalize (most_common 2 (Counter (map card_value hand))) as mc.
  assert (H : forall mc g,
             dd_get (fold_left (fun groups kn => dd_append (snd kn) (fst kn) groups)
                               mc g) n
             = dd_get g n ++ map fst (filter (fun kn => snd kn =? n) mc)).
  { induction mc as [|[k c] mc IH]; intros g; simpl.
    - now rewrite app_nil_r.
    - rewrite IH, dd_get_dd_append.
      destruct (c =? n); simpl; [now rewrite <- app_assoc|reflexivity]. }
  intros mc. apply (H mc []).
Qed.

Lemma NoDup_keys_filter {V : Type} (p : Z * V -> bool) (l : list (Z * V)) :
  NoDup (map fst l) -> NoDup (map fst (filter p l)).
Proof.
  induction l as [|x l IH]; simpl; intros Hl; [constructor|].
  inversion Hl as [|? ? Hx Hl']; subst.
  destruct (p x); simpl; [|auto].
  constructor; [|auto].
  intros Hin. apply Hx. apply in_map_iff in Hin.
  destruct Hin as (y & Hy & Hin). apply filter_In in Hin.
  rewrite <- Hy. apply in_map, Hin.
Qed.

Lemma NoDup_firstn {B : Type} (n : nat) (l : list B) :
  NoDup l -> NoDup (firstn n l).
Proof.
  intros Hl. rewrite <- (firstn_skipn n l) in Hl.
  now apply NoDup_app_remove_r in Hl.
Qed.

Lemma top_two_facts (hand : list Z) :
  NoDup (map fst (top_two hand)) /\ (length (top_two hand) <= 2)%nat /\
  forall k n, In (k, n) (top_two hand) ->
              In k (map card_value hand) /\
              n = occurrences (map card_value hand) k.
Proof.
  unfold top_two, most_common. split; [|split].
  - rewrite <- firstn_map. apply NoDup_firstn.
    eapply Permutation_NoDup; [|apply (DictFacts.Counter_NoDup (map card_value hand))].
    symmetry. apply Permutation_map, PyFacts.sorted_perm.
  - apply firstn_le_length.
  - intros k n Hin.
    apply DictFacts.Counter_In, (PyFacts.sorted_In (by_key snd true)).
    rewrite <- (firstn_skipn 2). apply in_or_app. now left.
Qed.

Lemma group_facts (hand : list Z) (n : Z) :
  NoDup (dd_get (group_duplicates hand) n) /\
  (length (dd_get (group_duplicates hand) n) <= 2)%nat /\
  forall k, In k (dd_get (group_duplicates hand) n) ->
            In k (map card_value hand) /\
            occurrences (map card_value hand) k = n.
Proof.
  rewrite group_duplicates_get.
  destruct (top_two_facts hand) as (Hnd & Hlen & Hin).
  split; [|split].
  - now apply NoDup_keys_filter.
  - rewrite length_map.
    pose proof (NoDup_incl_length
                  (NoDup_filter (fun kn => snd kn =? n)
                     (NoDup_map_inv _ _ Hnd))
                  (incl_filter (fun kn : Z * Z => snd kn =? n) (top_two hand))).
    lia.
  - intros k Hk. apply in_map_iff in Hk. destruct Hk as ([k' c] & <- & Hk).
    apply filter_In in Hk. destruct Hk as [Hk Hc]. simpl in *.
    apply Z.eqb_eq in Hc. destruct (Hin _ _ Hk) as [H1 H2].
    split; [assumption|congruence].
Qed.

(** The values in a group are their own rank value. *)
Lemma group_values (hand : list Z) (n : Z) :
  map card_value (dd_get (group_duplicates hand) n)
  = dd_get (group_duplicates hand) n.
Proof.
  destruct (group_facts hand n) as (_ & _ & Hin).
  erewrite map_ext_in; [apply map_id|].
  intros k Hk. destruct (Hin k Hk) as [Hv _].
  apply in_map_iff in Hv. destruct Hv as (c & <- & _).
  apply card_value_idempotent.
Qed.

End GroupFacts.

(** ** The sequence finder *)

Module SequenceFacts.
Import Py.

Lemma consecutive_length (a : Z) (n : nat) : length (consecutive a n) = n.
Proof. revert a. induction n as [|n IH]; intros a; simpl; auto. Qed.

Lemma consecutive_snoc (a : Z) (n : nat) :
  consecutive a n ++ [a + Z.of_nat n] = consecutive a (S n).
Proof.
  revert a. induction n as [|n IH]; intros a.
  - simpl. now rewrite Z.add_0_r.
  - change (a :: (consecutive (a + 1) n ++ [a + Z.of_nat (S n)])
            = a :: consecutive (a + 1) (S n)).
    f_equal. rewrite <- IH. do 2 f_equal. lia.
Qed.

Lemma consecutive_skipn (k : nat) (a : Z) (n : nat) :
  skipn k (consecutive a n) = consecutive (a + Z.of_nat k) (n - k).
Proof.
  revert a n. induction k as [|k IH]; intros a n.
  - rewrite Nat.sub_0_r. simpl. now rewrite Z.add_0_r.
  - destruct n as [|n]; [reflexivity|].
    simpl skipn. rewrite IH. simpl Nat.sub. f_equal. lia.
Qed.

Lemma card_dict_snoc (l : list Z) (c : Z) :
  card_dict_of (l ++ [c])
  = dict_set (card_value c) (card_value c, c) (card_dict_of l).
Proof. unfold card_dict_of. now rewrite fold_left_app. Qed.

Lemma card_dict_NoDup (l : list Z) : NoDup (map fst (card_dict_of l)).
Proof.
  induction l as [|c l IH] using rev_ind; [constructor|].
  rewrite card_dict_snoc. now apply DictFacts.dict_set_NoDup.
Qed.

Lemma card_dict_keys (l : list Z) (k : Z) :
  In k (map fst (card_dict_of l)) <-> In k (map card_value l).
Proof.
  induction l as [|c l IH] using rev_ind; [reflexivity|].
  rewrite card_dict_snoc, DictFacts.dict_set_keys, IH, map_app, in_app_iff.
  simpl. intuition congruence.
Qed.

(** Every entry is filed under its rank value and holds a card of the
    hand with that value. *)
Lemma card_dict_entry (l : list Z) (k : Z) (x : Z * Z) :
  In (k, x) (card_dict_of l) ->
  k = fst x /\ fst x = card_value (snd x) /\ In (snd x) l.
Proof.
  induction l as [|c l IH] using rev_ind; [intros []|].
  rewrite card_dict_snoc. intros H.
  apply DictFacts.dict_set_In in H. rewrite in_app_iff. simpl.
  destruct H as [[-> ->]|H]; [simpl; auto|].
  destruct (IH H) as (? & ? & ?). auto.
Qed.

Lemma with_low_ace_NoDup (d : list (Z * (Z * Z))) :
  NoDup (map fst d) -> NoDup (map fst (with_low_ace d)).
Proof.
  intros H. unfold with_low_ace.
  destruct (dict_get d 13); [now apply DictFacts.dict_set_NoDup|assumption].
Qed.

(** The entries after the ace's second registration. *)
Lemma with_low_ace_entry (l : list Z) (k : Z) (x : Z * Z) :
  In (k, x) (with_low_ace (card_dict_of l)) ->
  k = fst x /\ In (snd x) l /\
  (fst x = card_value (snd x) \/ (fst x = 0 /\ card_value (snd x) = 13)).
Proof.
  unfold with_low_ace.
  destruct (dict_get (card_dict_of l) 13) as [ace|] eqn:Hace.
  - intros H. apply DictFacts.dict_set_In in H.
    destruct H as [[-> ->]|H].
    + apply DictFacts.dict_get_Some, card_dict_entry in Hace.
      destruct Hace as (E1 & E2 & Hin). simpl. split; [reflexivity|].
      split; [assumption|]. right. split; [reflexivity|]. congruence.
    + destruct (card_dict_entry _ _ _ H) as (? & ? & ?). auto.
  - intros H. destruct (card_dict_entry _ _ _ H) as (? & ? & ?). auto.
Qed.


Lemma split_runs_concat prev rest sequence sequences :
  concat (split_runs prev rest sequence sequences)
  = concat sequences ++ sequence ++ rest.
Proof.
  revert prev sequence sequences.
  induction rest as [|next rest IH]; intros prev sequence sequences; simpl.
  - rewrite concat_app. simpl. now rewrite !app_nil_r.
  - destruct (fst next =? fst prev + 1); rewrite IH.
    + now rewrite <- app_assoc.
    + rewrite concat_app. simpl. now rewrite app_nil_r, <- app_assoc.
Qed.

Lemma split_runs_runs prev rest sequence sequences :
  Forall is_run sequences ->
  is_run sequence ->
  (forall a, map fst sequence = consecutive a (length sequence) ->
             fst prev = a + Z.of_nat (length sequence) - 1) ->
  Forall is_run (split_runs prev rest sequence sequences).
Proof.
  revert prev sequence sequences.
  induction rest as [|next rest IH]; intros prev sequence sequences Hs Hrun Hprev;
    simpl.
  - apply Forall_app. split; [assumption|]. now constructor.
  - destruct (Z.eqb_spec (fst next) (fst prev + 1)) as [Hnext|Hnext].
    + destruct Hrun as [Hne [a Ha]].
      assert (Hext : map fst (sequence ++ [next])
                     = consecutive a (length (sequence ++ [next]))).
      { rewrite map_app, length_app, Nat.add_comm. simpl map. simpl length.
        rewrite <- consecutive_snoc, <- Ha. do 2 f_equal.
        rewrite Hnext, (Hprev a Ha). lia. }
      apply IH; [assumption| |].
      * split; [now destruct sequence|]. now exists a.
      * intros b Hb. rewrite Hext in Hb.
        rewrite length_app, Nat.add_comm in Hb |- *. simpl in Hb |- *.
        injection Hb as <- _. rewrite Hnext, (Hprev a Ha). lia.
    + apply IH.
      * apply Forall_app. split; [assumption|]. now constructor.
      * split; [discriminate|]. now exists (fst next).
      * simpl. intros b [= <-]. lia.
Qed.

Lemma split_runs_nonempty prev rest sequence sequences :
  split_runs prev rest sequence sequences <> [].
Proof.
  revert prev sequence sequences.
  induction rest as [|next rest IH]; intros prev sequence sequences; simpl.
  - now destruct sequences.
  - destruct (fst next =? fst prev + 1); apply IH.
Qed.

Lemma zip_star_rows (rows : list (Z * Z)) :
  rows <> [] -> zip_star rows = [map fst rows; map snd rows].
Proof. now destruct rows. Qed.

Lemma in_concat_length {B : Type} (ls : list (list B)) (l : list B) :
  In l ls -> (length l <= length (concat ls))%nat.
Proof.
  induction ls as [|l0 ls IH]; simpl; [intros []|].
  rewrite length_app. intros [->|H]; [lia|]. specialize (IH H). lia.
Qed.

Lemma find_max_sequence_unfold (cards : list Z) :
  find_max_sequence cards =
  if (length (card_dict_of cards) =? 1)%nat then Ok []
  else
    let cards := sorted pair_le (dict_values (with_low_ace (card_dict_of cards))) in
    first <- getitem cards 0 ;;
    let sequences := split_runs first (tl cards) [first] [] in
    max_sequence <-
      getitem (sorted (by_key (fun s => Z.of_nat (length s)) false) sequences) (-1) ;;
    Ok (zip_star (slice_last 5 max_sequence)).
Proof. reflexivity. Qed.

(** What [find_max_sequence] returns when the cards have more than one
    rank value: the two rows of a run [r] of at most five entries, with
    consecutive values from some [a >= 0] on, each entry holding a card
    of the hand, under its rank value or, for an ace, under 0. *)
Lemma find_max_sequence_run (cards : list Z) :
  cards <> [] ->
  length (card_dict_of cards) <> 1%nat ->
  exists a r,
    0 <= a /\ (1 <= length r <= 5)%nat /\
    (length r <= S (length (card_dict_of cards)))%nat /\
    map fst r = consecutive a (length r) /\
    (forall x, In x r ->
               In (snd x) cards /\
               (fst x = card_value (snd x) \/
                (fst x = 0 /\ card_value (snd x) = 13))) /\
    find_max_sequence cards = Ok [map fst r; map snd r].
Proof.
  intros Hcards Hlen. rewrite find_max_sequence_unfold.
  apply Nat.eqb_neq in Hlen. rewrite Hlen. cbv zeta.
  set (d := card_dict_of cards) in *.
  assert (Hd : d <> []).
  { destruct cards as [|c cards]; [congruence|].
    assert (Hin : In (card_value c) (map fst d))
      by (apply card_dict_keys; simpl; auto).
    intros E. rewrite E in Hin. destruct Hin. }
  assert (Hd'len : (1 <= length (with_low_ace d) <= S (length d))%nat).
  { assert (1 <= length d)%nat by (destruct d; [congruence|simpl; lia]).
    unfold with_low_ace. destruct (dict_get d 13); [|lia].
    pose proof (DictFacts.dict_set_length 0 (0, snd p) d). lia. }
  assert (Hentry : forall x, In x (dict_values (with_low_ace d)) ->
                             In (snd x) cards /\
                             (fst x = card_value (snd x) \/
                              (fst x = 0 /\ card_value (snd x) = 13))).
  { intros x Hx. apply in_map_iff in Hx. destruct Hx as ([k y] & <- & Hin).
    now destruct (with_low_ace_entry _ _ _ Hin) as (_ & ? & ?). }
  pose proof (PyFacts.sorted_perm pair_le (dict_values (with_low_ace d)))
    as Hperm.
  pose proof (PyFacts.sorted_length pair_le (dict_values (with_low_ace d)))
    as Hsorted_len.
  unfold dict_values in Hsorted_len at 2. rewrite length_map in Hsorted_len.
  destruct (sorted pair_le (dict_values (with_low_ace d))) as [|first rest];
    [simpl in Hsorted_len; lia|].
  rewrite PyFacts.getitem_first. cbn [bind tl].
  set (runs := split_runs first rest [first] []).
  assert (Hruns : Forall is_run runs).
  { apply split_runs_runs; [constructor| |].
    - split; [discriminate|]. now exists (fst first).
    - simpl. intros b [= <-]. lia. }
  assert (Hconcat : concat runs = first :: rest)
    by (unfold runs; now rewrite split_runs_concat).
  set (le_len := by_key (fun s : list (Z * Z) => Z.of_nat (length s)) false).
  destruct (PyFacts.getitem_last_ex (sorted le_len runs)) as (run & Hget & Hin).
  { apply PyFacts.sorted_nonempty, split_runs_nonempty. }
  rewrite Hget. cbn [bind].
  apply PyFacts.sorted_In in Hin.
  rewrite Forall_forall in Hruns. destruct (Hruns run Hin) as [Hne [a Ha]].
  assert (Hrunlen : (1 <= length run <= S (length d))%nat).
  { pose proof (in_concat_length runs run Hin) as H.
    rewrite Hconcat, Hsorted_len in H.
    destruct run; [congruence|simpl in *; lia]. }
  assert (Hrun : forall x, In x run -> In x (dict_values (with_low_ace d))).
  { intros x Hx. apply (Permutation_in _ Hperm).
    rewrite <- Hconcat. apply in_concat. eauto. }
  assert (Ha0 : 0 <= a).
  { destruct run as [|x run]; [congruence|].
    simpl in Ha. injection Ha as Ha _. rewrite <- Ha.
    destruct (Hentry x (Hrun x (or_introl eq_refl))) as [_ [E|[E _]]];
      rewrite E; [|lia].
    pose proof (card_value_range (snd x)). lia. }
  set (k := (length run - 5)%nat).
  assert (Hslice : length (slice_last 5 run) = (length run - k)%nat)
    by (unfold slice_last; now rewrite length_skipn).
  exists (a + Z.of_nat k), (slice_last 5 run).
  rewrite Hslice.
  split; [lia|]. split; [unfold k; lia|]. split; [lia|]. split; [|split].
  - rewrite PyFacts.slice_last_map. unfold slice_last. rewrite length_map. fold k.
    now rewrite Ha, consecutive_skipn.
  - intros x Hx. apply Hentry, Hrun.
    unfold slice_last in Hx. rewrite <- (firstn_skipn (length run - 5) run).
    apply in_or_app. now right.
  - rewrite zip_star_rows; [reflexivity|].
    intros E. rewrite E in Hslice. simpl in Hslice. unfold k in Hslice. lia.
Qed.

(** The same, for the rows alone. *)
Lemma find_max_sequence_spec (cards : list Z) :
  cards <> [] ->
  length (card_dict_of cards) <> 1%nat ->
  exists a m ids,
    0 <= a /\ (1 <= m <= 5)%nat /\
    (m <= S (length (card_dict_of cards)))%nat /\
    length ids = m /\
    find_max_sequence cards = Ok [consecutive a m; ids].
Proof.
  intros Hcards Hlen.
  destruct (find_max_sequence_run cards Hcards Hlen)
    as (a & r & Ha & Hm & Hd & Hrun & _ & E).
  exists a, (length r), (map snd r). rewrite <- Hrun.
  repeat split; try assumption; try lia. apply length_map.
Qed.

End SequenceFacts.

(** ** The hand ranker returns *)

Lemma getitem_first_ex {A : Type} (l : list A) :
  l <> [] -> exists x, Py.getitem l 0 = Ok x.
Proof.
  destruct l as [|x l]; [congruence|]. intros _. exists x.
  apply PyFacts.getitem_first.
Qed.

Lemma truthy_nonempty {A : Type} (l : list A) : Py.truthy l = true -> l <> [].
Proof. now destruct l. Qed.

Lemma flush_suite_returns (hand : list Z) :
  hand <> [] -> exists s, flush_suite hand = Ok s.
Proof.
  intros H. destruct (flush_suite_spec hand H) as (k & _ & E). eauto.
Qed.

(** The only partial accesses that depend on more than the hand being
    non-empty with two rank values are the two [side_cards[0]]. *)
Lemma assess_hand_returns (cards : list Z) :
  cards <> [] ->
  length (card_dict_of cards) <> 1%nat ->
  (Py.dd_get (group_duplicates cards) 4 <> [] ->
   select_side_cards cards (Py.dd_get (group_duplicates cards) 4) <> []) ->
  (length (Py.dd_get (group_duplicates cards) 2) = 2%nat ->
   select_side_cards cards (Py.dd_get (group_duplicates cards) 2) <> []) ->
  exists r, assess_hand cards = Ok r.
Proof.
  intros Hcards Hdict Hfour Htwo. unfold assess_hand.
  destruct (SequenceFacts.find_max_sequence_spec cards Hcards Hdict)
    as (a & m & ids & Ha & Hm & _ & Hids & ->).
  cbn [bind Py.unpack2 fst snd].
  assert (Hvals : consecutive a m <> [])
    by (destruct m; [lia|discriminate]).
  assert (Hidsne : ids <> []) by (destruct ids; [simpl in Hids; lia|discriminate]).
  destruct (PyFacts.getitem_last_ex _ Hvals) as (high & Hhigh & _).
  destruct (flush_suite_returns ids Hidsne) as (s & Hs).
  destruct (flush_suite_returns cards Hcards) as (s' & Hs').
  rewrite Hs, Hs', Hhigh. cbn [bind].
  set (d4 := Py.dd_get (group_duplicates cards) 4) in *.
  set (d3 := Py.dd_get (group_duplicates cards) 3) in *.
  set (d2 := Py.dd_get (group_duplicates cards) 2) in *.
  assert (Hsf : forall b : bool,
             (if b then Ok (is_not_None s) else Ok false)
             = Ok (if b then is_not_None s else false))
    by (now intros []).
  rewrite Hsf. cbn [bind].
  destruct (if (length (consecutive a m) =? 5)%nat then is_not_None s else false);
    [eauto|].
  destruct (Py.truthy d4) eqn:H4.
  { apply truthy_nonempty in H4.
    destruct (getitem_first_ex _ H4) as (x & ->).
    destruct (getitem_first_ex _ (Hfour H4)) as (y & ->).
    cbn [bind]. eauto. }
  destruct (Py.truthy d3 && Py.truthy d2) eqn:H32.
  { apply andb_prop in H32. destruct H32 as [H3 H2].
    destruct (getitem_first_ex _ (truthy_nonempty _ H3)) as (x & ->).
    destruct (getitem_first_ex _ (truthy_nonempty _ H2)) as (y & ->).
    cbn [bind]. eauto. }
  destruct (is_not_None s'); [eauto|].
  destruct (length (consecutive a m) =? 5)%nat; [eauto|].
  destruct (Py.truthy d3) eqn:H3.
  { destruct (getitem_first_ex _ (truthy_nonempty _ H3)) as (x & ->).
    cbn [bind]. eauto. }
  destruct (Nat.eqb_spec (length d2) 2) as [H2|H2].
  { assert (Hsorted : sort_cards d2 None false true <> []).
    { unfold sort_cards. apply PyFacts.sorted_nonempty.
      destruct d2; [discriminate|discriminate]. }
    unfold max_card, min_card.
    destruct (PyFacts.getitem_last_ex _ Hsorted) as (x & -> & _).
    destruct (getitem_first_ex _ Hsorted) as (y & ->).
    destruct (getitem_first_ex _ (Htwo H2)) as (z & ->).
    cbn [bind]. eauto. }
  destruct (Nat.eqb_spec (length d2) 1) as [H1|H1]; [|eauto].
  assert (Hd2 : d2 <> []) by (destruct d2; [discriminate|discriminate]).
  destruct (getitem_first_ex _ Hd2) as (x & ->).
  cbn [bind]. eauto.
Qed.

(** ** Well-formed input *)

Lemma card_value_mod (c c' : Z) :
  card_value c = card_value c' -> c mod 13 = c' mod 13.
Proof.
  unfold card_value.
  pose proof (Z.mod_pos_bound c 13 ltac:(lia)).
  pose proof (Z.mod_pos_bound c' 13 ltac:(lia)).
  destruct (Z.eqb_spec (c mod 13) 0), (Z.eqb_spec (c' mod 13) 0); lia.
Qed.

(** A rank value is on four cards of the deck. *)
Lemma same_value_at_most_four (cards : list Z) (k : Z) :
  NoDup cards -> Forall (fun c => 0 <= c <= 51) cards ->
  (forall c, In c cards -> card_value c = k) ->
  (length cards <= 4)%nat.
Proof.
  intros Hnd Hrange Hk. rewrite Forall_forall in Hrange.
  rewrite <- (length_map card_suit).
  change 4%nat with (length [0; 1; 2; 3]).
  apply NoDup_incl_length.
  - apply NoDup_map_NoDup_ForallPairs; [|assumption].
    intros c c' Hc Hc' Hsuit. unfold card_suit in Hsuit.
    pose proof (card_value_mod c c' ltac:(rewrite (Hk c Hc), (Hk c' Hc'); reflexivity)).
    rewrite (Z.div_mod c 13), (Z.div_mod c' 13) by lia. congruence.
  - intros s Hs. apply in_map_iff in Hs. destruct Hs as (c & <- & Hc).
    specialize (Hrange c Hc). cbv beta in Hrange. unfold card_suit.
    pose proof (Z.div_mod c 13 ltac:(lia)).
    pose proof (Z.mod_pos_bound c 13 ltac:(lia)).
    assert (Hq : c / 13 = 0 \/ c / 13 = 1 \/ c / 13 = 2 \/ c / 13 = 3) by lia.
    simpl. intuition.
Qed.

Lemma well_formed_two_values (cards : list Z) :
  well_formed cards -> length (card_dict_of cards) <> 1%nat.
Proof.
  intros (Hlen & Hnd & Hrange) Hone.
  destruct (card_dict_of cards) as [|[k x] [|? ?]] eqn:Hd; try discriminate.
  assert (Hk : forall c, In c cards -> card_value c = k).
  { intros c Hc.
    assert (Hin : In (card_value c) (map fst (card_dict_of cards)))
      by (apply SequenceFacts.card_dict_keys, in_map, Hc).
    rewrite Hd in Hin. simpl in Hin. intuition. }
  pose proof (same_value_at_most_four cards k Hnd Hrange Hk). lia.
Qed.

Lemma side_cards_empty (cards excl : list Z) :
  select_side_cards cards excl = [] ->
  forall c, In c cards -> In (card_value c) (map card_value excl).
Proof.
  unfold select_side_cards. intros Hempty c Hc.
  set (values := Py.set_of (map card_value cards)) in *.
  set (excl' := map card_value excl) in *.
  destruct (in_dec Z.eq_dec (card_value c) excl') as [|Hnot]; [assumption|].
  exfalso. revert Hempty. apply PyFacts.sorted_nonempty.
  assert (Hin : In (card_value c) (Py.difference values excl')).
  { unfold Py.difference. apply filter_In. split.
    - unfold values, Py.set_of. apply nodup_In, in_map, Hc.
    - apply negb_true_iff, not_true_iff_false. intros Hex.
      apply existsb_exists in Hex. destruct Hex as (v & Hv & Heq).
      apply Z.eqb_eq in Heq. congruence. }
  intros E. rewrite E in Hin. destruct Hin.
Qed.

Lemma occurrences_all_same (l : list Z) (a : Z) :
  (forall x, In x l -> x = a) -> Z.of_nat (length l) = occurrences l a.
Proof.
  unfold occurrences. induction l as [|x l IH]; simpl; intros H; [reflexivity|].
  specialize (IH (fun y Hy => H y (or_intror Hy))).
  destruct (Z.eq_dec x a) as [|Hne]; [lia|]. exfalso. apply Hne. auto.
Qed.

Lemma occurrences_two_values (l : list Z) (a b : Z) :
  a <> b -> (forall x, In x l -> x = a \/ x = b) ->
  Z.of_nat (length l) = occurrences l a + occurrences l b.
Proof.
  intros Hab. unfold occurrences.
  induction l as [|x l IH]; simpl; intros H; [reflexivity|].
  specialize (IH (fun y Hy => H y (or_intror Hy))).
  destruct (H x (or_introl eq_refl)) as [->| ->];
    destruct (Z.eq_dec a a), (Z.eq_dec a b), (Z.eq_dec b a), (Z.eq_dec b b);
    try congruence; lia.
Qed.

(** When every card's value is in [groups[n]], the hand has [n] or
    [2 n] cards. *)
Lemma group_covers (cards : list Z) (n : Z) :
  let g := Py.dd_get (group_duplicates cards) n in
  g <> [] ->
  select_side_cards cards g = [] ->
  Z.of_nat (length cards) = n * Z.of_nat (length g).
Proof.
  intros g Hg Hempty.
  pose proof (side_cards_empty cards g Hempty) as Hcover.
  unfold g in Hcover. rewrite GroupFacts.group_values in Hcover. fold g in Hcover.
  destruct (GroupFacts.group_facts cards n) as (Hnd & Hlen & Hcount).
  fold g in Hnd, Hlen, Hcount.
  rewrite <- (length_map card_value cards).
  destruct g as [|a [|b [|? ?]]]; [congruence| | |simpl in Hlen; lia].
  - rewrite (occurrences_all_same _ a).
    + rewrite (proj2 (Hcount a ltac:(simpl; auto))). simpl. lia.
    + intros v Hv. apply in_map_iff in Hv. destruct Hv as (c & <- & Hc).
      destruct (Hcover c Hc) as [|[]]. congruence.
  - assert (Hab : a <> b).
    { inversion Hnd as [|? ? Hnot _]; subst. simpl in Hnot. intuition. }
    rewrite (occurrences_two_values _ a b Hab).
    + rewrite (proj2 (Hcount a ltac:(simpl; auto))),
              (proj2 (Hcount b ltac:(simpl; auto))).
      simpl length. lia.
    + intros v Hv. apply in_map_iff in Hv. destruct Hv as (c & <- & Hc).
      destruct (Hcover c Hc) as [|[|[]]]; auto.
Qed.

(** C3: on five to seven different cards of the deck [assess_hand]
    raises nothing and returns a descriptor: [find_max_sequence] returns
    its two rows, [flush_suite] finds a most common suit, and the
    kicker lists indexed at [0] are not empty. *)
Theorem assess_hand_total (cards : list Z) :
  well_formed cards ->
  (exists r, assess_hand cards = Ok r) /\
  (exists seq_values seq_cards,
      find_max_sequence cards = Ok [seq_values; seq_cards]) /\
  (exists s, flush_suite cards = Ok s) /\
  (Py.dd_get (group_duplicates cards) 4 <> [] ->
   select_side_cards cards (Py.dd_get (group_duplicates cards) 4) <> []) /\
  (length (Py.dd_get (group_duplicates cards) 2) = 2%nat ->
   select_side_cards cards (Py.dd_get (group_duplicates cards) 2) <> []).
Proof.
  intros Hwf.
  pose proof (well_formed_two_values cards Hwf) as Hdict.
  destruct Hwf as (Hlen & Hnd & Hrange).
  assert (Hcards : cards <> []) by (destruct cards; [simpl in Hlen; lia|discriminate]).
  assert (Hfour : Py.dd_get (group_duplicates cards) 4 <> [] ->
                  select_side_cards cards (Py.dd_get (group_duplicates cards) 4) <> []).
  { intros Hg Hempty. pose proof (group_covers cards 4 Hg Hempty) as H.
    cbv zeta in H. lia. }
  assert (Htwo : length (Py.dd_get (group_duplicates cards) 2) = 2%nat ->
                 select_side_cards cards (Py.dd_get (group_duplicates cards) 2) <> []).
  { intros Hg Hempty.
    assert (Hne : Py.dd_get (group_duplicates cards) 2 <> [])
      by (intros E; rewrite E in Hg; discriminate).
    pose proof (group_covers cards 2 Hne Hempty) as H.
    cbv zeta in H. rewrite Hg in H. lia. }
  split; [now apply assess_hand_returns|].
  split.
  { destruct (SequenceFacts.find_max_sequence_spec cards Hcards Hdict)
      as (a & m & ids & _ & _ & _ & _ & E). eauto. }
  split; [now apply flush_suite_returns|]. split; assumption.
Qed.

Lemma assess_hand_total_witness :
  well_formed [0; 13; 26; 39; 12; 25; 38] /\
  exists r, assess_hand [0; 13; 26; 39; 12; 25; 38] = Ok r.
Proof.
  assert (Hwf : well_formed [0; 13; 26; 39; 12; 25; 38]).
  { unfold well_formed. split; [simpl; lia|]. split.
    - repeat constructor; simpl; intuition lia.
    - repeat constructor; lia. }
  split; [exact Hwf|].
  exact (proj1 (assess_hand_total [0; 13; 26; 39; 12; 25; 38] Hwf)).
Defined.

(** ** Input outside the contract *)

Lemma three_values_side_cards (cards : list Z) (n : Z) (c1 c2 c3 : Z) :
  In c1 cards -> In c2 cards -> In c3 cards ->
  card_value c1 <> card_value c2 -> card_value c1 <> card_value c3 ->
  card_value c2 <> card_value c3 ->
  select_side_cards cards (Py.dd_get (group_duplicates cards) n) <> [].
Proof.
  intros H1 H2 H3 H12 H13 H23 Hempty.
  pose proof (side_cards_empty _ _ Hempty) as Hcover.
  destruct (GroupFacts.group_facts cards n) as (_ & Hlen & _).
  assert (Hnd : NoDup [card_value c1; card_value c2; card_value c3]).
  { repeat constructor; simpl; intuition. }
  pose proof (NoDup_incl_length Hnd
                (l' := map card_value (Py.dd_get (group_duplicates cards) n))) as H.
  rewrite length_map in H. simpl in H.
  assert (3 <= length (Py.dd_get (group_duplicates cards) n))%nat; [|lia].
  apply H. intros v [<-|[<-|[<-|[]]]]; auto.
Qed.

(** C4, amended: [assess_hand] does not check its input.  A list with
    three different rank values gets a descriptor whatever its length,
    the range of its ids and the repetitions in it; an error is raised
    only where an access happens to fail: [IndexError] on the empty list
    and on two pairs alone, [ValueError] when all cards have one rank
    value. *)
Theorem assess_hand_without_validation :
  (forall cards c1 c2 c3,
      In c1 cards -> In c2 cards -> In c3 cards ->
      card_value c1 <> card_value c2 -> card_value c1 <> card_value c3 ->
      card_value c2 <> card_value c3 ->
      exists r, assess_hand cards = Ok r) /\
  assess_hand [] = Raise IndexError /\
  assess_hand [0; 13; 1; 14] = Raise IndexError /\
  assess_hand [0; 13; 26; 39] = Raise ValueError.
Proof.
  split; [|repeat split; reflexivity].
  intros cards c1 c2 c3 H1 H2 H3 H12 H13 H23.
  apply assess_hand_returns.
  - intros E. rewrite E in H1. destruct H1.
  - intros Hone.
    destruct (card_dict_of cards) as [|[k x] [|? ?]] eqn:Hd; try discriminate.
    assert (Hk : forall c, In c cards -> card_value c = k).
    { intros c Hc.
      assert (Hin : In (card_value c) (map fst (card_dict_of cards)))
        by (apply SequenceFacts.card_dict_keys, in_map, Hc).
      rewrite Hd in Hin. simpl in Hin. intuition. }
    rewrite (Hk c1 H1), (Hk c2 H2) in H12. congruence.
  - intros _. now apply (three_values_side_cards cards 4 c1 c2 c3).
  - intros _. now apply (three_values_side_cards cards 2 c1 c2 c3).
Qed.

Lemma assess_hand_without_validation_witness :
  exists r, assess_hand [0; 1; 2; 3] = Ok r.
Proof.
  apply (proj1 assess_hand_without_validation [0; 1; 2; 3] 0 1 2);
    simpl; auto; vm_compute; discriminate.
Defined.

(** ** Two three-of-a-kind groups *)

Section TwoTrips.
Variables (cards : list Z) (a b c : Z).
Local Abbreviation values := (map card_value cards).
Hypothesis Hlen : length cards = 7%nat.
Hypothesis Hab : a <> b.
Hypothesis Ha : occurrences values a = 3.
Hypothesis Hb : occurrences values b = 3.
Hypothesis Hc : occurrences values c = 1.

Lemma occurrences_four (l : list Z) (w x y z : Z) :
  w <> x -> w <> y -> w <> z -> x <> y -> x <> z -> y <> z ->
  occurrences l w + occurrences l x + occurrences l y + occurrences l z
  <= Z.of_nat (length l).
Proof.
  intros. unfold occurrences. induction l as [|v l IH]; simpl; [lia|].
  destruct (Z.eq_dec v w), (Z.eq_dec v x), (Z.eq_dec v y), (Z.eq_dec v z);
    subst; try congruence; lia.
Qed.

Lemma trips_distinct : a <> c /\ b <> c.
Proof. split; intros E; rewrite E in *; lia. Qed.

Lemma trips_values (v : Z) : In v values <-> v = a \/ v = b \/ v = c.
Proof.
  destruct trips_distinct as [Hac Hbc]. split.
  - intros Hv.
    destruct (Z.eq_dec v a) as [|Hva]; [auto|].
    destruct (Z.eq_dec v b) as [|Hvb]; [auto|].
    destruct (Z.eq_dec v c) as [|Hvc]; [auto|].
    apply DictFacts.occurrences_pos in Hv.
    pose proof (occurrences_four values a b c v) as H.
    rewrite length_map, Hlen in H.
    specialize (H Hab Hac ltac:(congruence) Hbc ltac:(congruence) ltac:(congruence)).
    lia.
  - intros [->|[->| ->]]; apply DictFacts.occurrences_pos; lia.
Qed.

Lemma trips_three_keys (keys : list Z) :
  NoDup keys -> (forall k, In k keys <-> In k values) -> length keys = 3%nat.
Proof.
  destruct trips_distinct as [Hac Hbc]. intros Hnd Hkeys.
  assert (Habc : NoDup [a; b; c]) by (repeat constructor; simpl; intuition).
  assert (H1 : (length keys <= length [a; b; c])%nat).
  { apply NoDup_incl_length; [assumption|].
    intros k Hk. apply Hkeys, trips_values in Hk. simpl. intuition. }
  assert (H2 : (length [a; b; c] <= length keys)%nat).
  { apply NoDup_incl_length; [assumption|].
    intros k Hk. apply Hkeys, trips_values. simpl in Hk. intuition. }
  simpl in H1, H2. lia.
Qed.

(** The two values with three cards are the two most common ones, in
    the order they were first seen. *)
Lemma trips_top_two :
  top_two cards = [(a, 3); (b, 3)] \/
  top_two cards = [(b, 3); (a, 3)].
Proof.
  destruct trips_distinct as [Hac Hbc].
  unfold top_two.
  pose proof (DictFacts.Counter_NoDup values) as Hnd.
  pose proof (DictFacts.Counter_In values) as Hin.
  pose proof (trips_three_keys _ Hnd) as Hthree.
  rewrite length_map in Hthree.
  assert (Hkeys : forall k, In k (map fst (Py.Counter values)) <-> In k values).
  { intros k. split.
    - intros Hk. apply in_map_iff in Hk. destruct Hk as ([k' n] & <- & Hk).
      now apply Hin in Hk.
    - intros Hk. apply in_map_iff. exists (k, occurrences values k).
      split; [reflexivity|]. now apply Hin. }
  specialize (Hthree Hkeys).
  assert (Hentry : forall k n, In (k, n) (Py.Counter values) ->
                               (k, n) = (a, 3) \/ (k, n) = (b, 3) \/ (k, n) = (c, 1)).
  { intros k n Hk. apply Hin in Hk. destruct Hk as [Hk ->].
    apply trips_values in Hk. destruct Hk as [->|[->| ->]];
      rewrite ?Ha, ?Hb, ?Hc; auto. }
  destruct (Py.Counter values) as [|[k1 n1] [|[k2 n2] [|[k3 n3] [|? ?]]]];
    try discriminate.
  pose proof (Hentry k1 n1 ltac:(simpl; auto)) as E1.
  pose proof (Hentry k2 n2 ltac:(simpl; auto)) as E2.
  pose proof (Hentry k3 n3 ltac:(simpl; auto)) as E3.
  inversion Hnd as [|? ? N1 Hnd']; subst.
  inversion Hnd' as [|? ? N2 _]; subst. simpl in N1, N2.
  destruct E1 as [E1|[E1|E1]], E2 as [E2|[E2|E2]], E3 as [E3|[E3|E3]];
    injection E1 as -> ->; injection E2 as -> ->; injection E3 as -> ->;
    try (exfalso; tauto); cbv; auto.
Qed.

Lemma trips_groups :
  (Py.dd_get (group_duplicates cards) 3 = [a; b] \/
   Py.dd_get (group_duplicates cards) 3 = [b; a]) /\
  Py.dd_get (group_duplicates cards) 2 = [] /\
  Py.dd_get (group_duplicates cards) 4 = [].
Proof.
  rewrite !GroupFacts.group_duplicates_get.
  destruct trips_top_two as [-> | ->]; simpl; auto.
Qed.

Lemma filter_single (p : Z -> bool) (l : list Z) (x : Z) :
  NoDup l -> In x l -> (forall y, In y l -> p y = true -> y = x) ->
  p x = true -> filter p l = [x].
Proof.
  intros Hnd Hx Hp Hpx. induction l as [|y l IH]; [destruct Hx|].
  inversion Hnd as [|? ? Hy Hnd']; subst. simpl.
  assert (Hnone : forall l', (forall z, In z l' -> p z = true -> z = x) ->
                             ~ In x l' -> filter p l' = []).
  { induction l' as [|z l' IH']; intros Hl' Hnot; [reflexivity|]. simpl.
    destruct (p z) eqn:Hz.
    - exfalso. apply Hnot. left. apply Hl'; simpl; auto.
    - apply IH'; [|simpl in Hnot; tauto].
      intros w Hw. apply Hl'. now right. }
  destruct Hx as [->|Hx].
  - rewrite Hpx. f_equal. apply Hnone; [|assumption].
    intros z Hz. apply Hp. now right.
  - destruct (p y) eqn:Hpy.
    + exfalso. assert (y = x) by (apply Hp; simpl; auto). congruence.
    + apply IH; [assumption|assumption|].
      intros z Hz. apply Hp. now right.
Qed.

(** The only kicker is the seventh card. *)
Lemma trips_side_cards :
  select_side_cards cards (Py.dd_get (group_duplicates cards) 3) = [c].
Proof.
  destruct trips_distinct as [Hac Hbc].
  unfold select_side_cards. rewrite GroupFacts.group_values.
  assert (Hfilter : forall g, g = [a; b] \/ g = [b; a] ->
                              Py.difference (Py.set_of values) g = [c]).
  { intros g Hg. unfold Py.difference, Py.set_of. apply filter_single.
    - apply NoDup_nodup.
    - apply nodup_In, trips_values. auto.
    - intros y Hy Hp. apply nodup_In, trips_values in Hy.
      destruct Hy as [->|[->|Hy]]; [| |assumption];
        destruct Hg as [-> | ->]; simpl in Hp; rewrite Z.eqb_refl in Hp;
        simpl in Hp; try discriminate;
        rewrite orb_true_r in Hp; discriminate.
    - destruct Hg as [-> | ->]; simpl;
        destruct (Z.eqb_spec c a), (Z.eqb_spec c b); congruence || reflexivity. }
  rewrite (Hfilter _ (proj1 trips_groups)). reflexivity.
Qed.

Hypothesis Hflush : flush_suite cards = Ok None.

Lemma trips_assess_hand :
  assess_hand cards = Ok (THREE, [a; c]) \/
  assess_hand cards = Ok (THREE, [b; c]).
Proof.
  assert (Hcards : cards <> []) by (destruct cards; [discriminate Hlen|discriminate]).
  pose proof (trips_three_keys _ (SequenceFacts.card_dict_NoDup cards)
                (SequenceFacts.card_dict_keys cards)) as Hdict.
  rewrite length_map in Hdict.
  destruct (SequenceFacts.find_max_sequence_spec cards Hcards ltac:(lia))
    as (a0 & m & ids & _ & _ & Hm & _ & Hfind).
  assert (Hfive : (length (consecutive a0 m) =? 5)%nat = false).
  { rewrite SequenceFacts.consecutive_length. apply Nat.eqb_neq. lia. }
  unfold assess_hand. rewrite Hfind. cbn [bind Py.unpack2 fst snd].
  rewrite Hfive. cbn [bind].
  pose proof trips_side_cards as Hside.
  destruct trips_groups as (H3 & -> & ->). cbn [Py.truthy].
  rewrite Hflush. cbn [bind is_not_None].
  destruct H3 as [E|E]; rewrite E in Hside |- *; rewrite Hside;
    cbn [Py.truthy andb]; rewrite PyFacts.getitem_first; cbn; auto.
Qed.

End TwoTrips.

(** C7: a seven-card hand with three cards of a value [a], three of a
    value [b] and one of a value [c], and no flush, has both [a] and [b]
    in [groups[3]] and nothing in [groups[2]]; there being no straight
    either, [assess_hand] ranks it as three of a kind and not as a full
    house. *)
Theorem two_trips_ranked_three (cards : list Z) (a b c : Z) :
  length cards = 7%nat ->
  a <> b ->
  occurrences (map card_value cards) a = 3 ->
  occurrences (map card_value cards) b = 3 ->
  occurrences (map card_value cards) c = 1 ->
  flush_suite cards = Ok None ->
  (Py.dd_get (group_duplicates cards) 3 = [a; b] \/
   Py.dd_get (group_duplicates cards) 3 = [b; a]) /\
  Py.dd_get (group_duplicates cards) 2 = [] /\
  (assess_hand cards = Ok (THREE, [a; c]) \/
   assess_hand cards = Ok (THREE, [b; c])).
Proof.
  intros Hlen Hab Ha Hb Hc Hflush.
  destruct (trips_groups cards a b c Hlen Hab Ha Hb Hc) as (H3 & H2 & _).
  split; [assumption|]. split; [assumption|].
  now apply trips_assess_hand.
Qed.

Lemma two_trips_ranked_three_witness :
  Py.dd_get (group_duplicates [0; 13; 26; 12; 25; 38; 1]) 3 = [13; 12] /\
  assess_hand [0; 13; 26; 12; 25; 38; 1] = Ok (THREE, [13; 1]).
Proof.
  destruct (two_trips_ranked_three [0; 13; 26; 12; 25; 38; 1] 13 12 1)
    as (H3 & _ & Hr); try reflexivity; try discriminate.
  split.
  - destruct H3 as [E|E]; [exact E|]. vm_compute in E. discriminate E.
  - destruct Hr as [E|E]; [exact E|]. vm_compute in E. discriminate E.
Defined.

(** ** Straights and the wheel *)

Lemma tuples_In (n : nat) (l h : list Z) :
  length h = n -> (forall x, In x h -> In x l) -> In h (tuples n l).
Proof.
  revert h. induction n as [|n IH]; intros h Hlen Hin.
  - destruct h; [simpl; auto|discriminate].
  - destruct h as [|x t]; [discriminate|].
    simpl. apply in_flat_map. exists t. split.
    + apply IH; [simpl in Hlen; lia|]. intros y Hy. apply Hin. now right.
    + apply in_map_iff. exists x. split; [reflexivity|]. apply Hin. now left.
Qed.

Lemma distinct_NoDup (l : list Z) : NoDup l -> distinct l = true.
Proof.
  induction 1 as [|x l Hx _ IH]; [reflexivity|]. simpl.
  rewrite IH, andb_true_r. apply negb_true_iff, not_true_iff_false.
  intros Hex. apply existsb_exists in Hex. destruct Hex as (y & Hy & E).
  apply Z.eqb_eq in E. congruence.
Qed.


Lemma every_order_straight_flush_spec (hand : list Z) (high : Z) :
  NoDup hand ->
  every_order_straight_flush hand high = true ->
  forall h, Permutation h hand -> assess_hand h = Ok (STRAIGHT_FLUSH, [high]).
Proof.
  intros Hnd Hall h Hperm.
  unfold every_order_straight_flush in Hall. rewrite forallb_forall in Hall.
  specialize (Hall h). rewrite distinct_NoDup in Hall.
  - specialize (Hall (tuples_In _ _ _ (Permutation_length Hperm)
                        (fun x => Permutation_in x Hperm))).
    simpl in Hall.
    destruct (assess_hand h) as [[[] [|v [|? ?]]]|]; try discriminate.
    apply Z.eqb_eq in Hall. now subst.
  - apply (Permutation_NoDup (Permutation_sym Hperm) Hnd).
Qed.

(** A descriptor of a straight category comes from a run of five. *)
Lemma assess_hand_straight (cards : list Z) (cat : Hand) (tb : list Z) :
  assess_hand cards = Ok (cat, tb) ->
  cat = STRAIGHT \/ cat = STRAIGHT_FLUSH ->
  exists vals ids h,
    find_max_sequence cards = Ok [vals; ids] /\ length vals = 5%nat /\
    Py.getitem vals (-1) = Ok h /\ tb = [h].
Proof.
  unfold assess_hand. intros H Hcat.
  destruct (find_max_sequence cards) as [[|vals [|ids [|? ?]]]|]; try discriminate.
  cbn [bind Py.unpack2 fst snd] in H.
  exists vals, ids.
  destruct (Nat.eqb_spec (length vals) 5) as [Hlen|Hlen].
  - destruct (Py.getitem vals (-1)) as [h|] eqn:Hh.
    + exists h. repeat split; try assumption.
      repeat match type of H with
             | context [bind ?m _] => destruct m; cbn [bind] in H
             | context [if ?b then _ else _] => destruct b
             end;
        try discriminate; injection H as <- <-; try reflexivity;
        destruct Hcat; discriminate.
    + exfalso.
      repeat match type of H with
             | context [bind ?m _] => destruct m; cbn [bind] in H
             | context [if ?b then _ else _] => destruct b
             end;
        try discriminate; injection H as <- <-; destruct Hcat; discriminate.
  - exfalso. cbn [bind] in H.
    repeat match type of H with
           | context [bind ?m _] => destruct m; cbn [bind] in H
           | context [if ?b then _ else _] => destruct b
           end;
      try discriminate; injection H as <- <-; destruct Hcat; discriminate.
Qed.

Lemma find_max_sequence_fails (cards : list Z) :
  cards = [] \/ length (card_dict_of cards) = 1%nat ->
  find_max_sequence cards = Raise IndexError \/ find_max_sequence cards = Ok [].
Proof.
  intros [->|H]; [left; reflexivity|].
  right. unfold find_max_sequence. now rewrite H.
Qed.

(** C6: ace to five of one suit, in any order, is ranked
    [(STRAIGHT_FLUSH, 4)]; two to six of one suit is ranked
    [(STRAIGHT_FLUSH, 5)], above it; every straight or straight flush
    has a top value of at least 4, and 4 only when its run is the
    wheel; and the wheel's descriptor is above every descriptor of
    another category than these two. *)
Theorem wheel_correctness :
  (forall suit hand,
      In suit [0; 1; 2; 3] -> Permutation hand (wheel suit) ->
      assess_hand hand = Ok (STRAIGHT_FLUSH, [4])) /\
  (forall suit hand,
      In suit [0; 1; 2; 3] -> Permutation hand (six_high suit) ->
      assess_hand hand = Ok (STRAIGHT_FLUSH, [5])) /\
  record_lt (STRAIGHT_FLUSH, [4]) (STRAIGHT_FLUSH, [5]) = true /\
  (forall cards cat tb,
      assess_hand cards = Ok (cat, tb) ->
      cat = STRAIGHT \/ cat = STRAIGHT_FLUSH ->
      exists h, tb = [h] /\ 4 <= h /\
                (h = 4 -> exists ids,
                      find_max_sequence cards = Ok [[0; 1; 2; 3; 4]; ids])) /\
  (forall cards r,
      assess_hand cards = Ok r ->
      fst r <> STRAIGHT -> fst r <> STRAIGHT_FLUSH ->
      record_lt r (STRAIGHT_FLUSH, [4]) = true).
Proof.
  split; [|split; [|split; [reflexivity|split]]].
  - intros suit hand Hsuit. apply every_order_straight_flush_spec.
    + simpl in Hsuit. destruct Hsuit as [<-|[<-|[<-|[<-|[]]]]];
        repeat constructor; simpl; intuition lia.
    + simpl in Hsuit. destruct Hsuit as [<-|[<-|[<-|[<-|[]]]]];
        vm_compute; reflexivity.
  - intros suit hand Hsuit. apply every_order_straight_flush_spec.
    + simpl in Hsuit. destruct Hsuit as [<-|[<-|[<-|[<-|[]]]]];
        repeat constructor; simpl; intuition lia.
    + simpl in Hsuit. destruct Hsuit as [<-|[<-|[<-|[<-|[]]]]];
        vm_compute; reflexivity.
  - intros cards cat tb Hr Hcat.
    destruct (assess_hand_straight cards cat tb Hr Hcat)
      as (vals & ids & h & Hfind & Hlen & Hh & ->).
    destruct cards as [|c0 cards']; [discriminate|].
    destruct (Nat.eq_dec (length (card_dict_of (c0 :: cards'))) 1) as [Hone|Hone].
    { destruct (find_max_sequence_fails (c0 :: cards') (or_intror Hone));
        congruence. }
    destruct (SequenceFacts.find_max_sequence_spec (c0 :: cards')
                ltac:(discriminate) Hone)
      as (a & m & ids' & Ha & _ & _ & _ & Hspec).
    rewrite Hspec in Hfind. injection Hfind as <- <-.
    rewrite SequenceFacts.consecutive_length in Hlen. subst m.
    cbv in Hh. injection Hh as <-.
    exists (a + 1 + 1 + 1 + 1). split; [reflexivity|]. split; [lia|].
    intros E. assert (a = 0) by lia. subst a. exists ids'. exact Hspec.
  - intros cards [cat tb] _ H1 H2. simpl in H1, H2.
    destruct cat; try congruence; reflexivity.
Qed.

Lemma wheel_correctness_witness :
  assess_hand [4; 0; 3; 1; 2] = Ok (STRAIGHT_FLUSH, [4]) /\
  record_lt (FOUR, [13; 12]) (STRAIGHT_FLUSH, [4]) = true.
Proof.
  destruct wheel_correctness as (Hwheel & _ & _ & _ & Habove).
  split.
  - apply (Hwheel 0); [simpl; auto|].
    apply (Permutation_cons_app [0; 1; 2; 3] []). simpl.
    apply perm_skip.
    apply (Permutation_cons_app [1; 2] []). simpl. reflexivity.
  - apply (Habove [0; 13; 26; 39; 12]); [reflexivity|discriminate|discriminate].
Defined.

(** ** What the sequence finder reads of the cards *)

Module ValueFacts.
Import Py.

Lemma dict_set_values (k v i i' : Z) (d d' : list (Z * (Z * Z))) :
  entry_values d = entry_values d' ->
  entry_values (dict_set k (v, i) d) = entry_values (dict_set k (v, i') d').
Proof.
  revert d'. induction d as [|[k0 [v0 i0]] d IH]; intros [|[k1 [v1 i1]] d'];
    simpl; try discriminate; [reflexivity|].
  intros [= -> -> H]. destruct (k1 =? k); simpl; f_equal; auto.
Qed.

Lemma card_dict_values (h h' : list Z) :
  map card_value h = map card_value h' ->
  entry_values (card_dict_of h) = entry_values (card_dict_of h').
Proof.
  unfold card_dict_of.
  assert (H : forall h h' d d',
             map card_value h = map card_value h' ->
             entry_values d = entry_values d' ->
             entry_values
               (fold_left (fun d c => dict_set (card_value c) (card_value c, c) d) h d)
             = entry_values
                 (fold_left (fun d c => dict_set (card_value c) (card_value c, c) d) h' d')).
  { clear. induction h as [|c h IH]; intros [|c' h'] d d'; simpl; try discriminate;
      [auto|].
    intros [= Hc Hv] Hd. apply IH; [assumption|].
    rewrite Hc. now apply dict_set_values. }
  intros Hv. now apply H.
Qed.

Lemma dict_get_values (d d' : list (Z * (Z * Z))) (k : Z) :
  entry_values d = entry_values d' ->
  (dict_get d k = None <-> dict_get d' k = None).
Proof.
  intros H. rewrite !DictFacts.dict_get_None.
  assert (E : map fst d = map fst d').
  { unfold entry_values in H. apply (f_equal (map fst)) in H.
    now rewrite !map_map in H. }
  now rewrite E.
Qed.

Lemma with_low_ace_values (d d' : list (Z * (Z * Z))) :
  entry_values d = entry_values d' ->
  entry_values (with_low_ace d) = entry_values (with_low_ace d').
Proof.
  intros H. unfold with_low_ace.
  pose proof (dict_get_values d d' 13 H) as Hget.
  destruct (dict_get d 13) as [[v i]|], (dict_get d' 13) as [[v' i']|];
    [now apply dict_set_values| | |assumption].
  - destruct Hget as [_ Hget]. discriminate (Hget eq_refl).
  - destruct Hget as [Hget _]. discriminate (Hget eq_refl).
Qed.

(** Sorting pairs with different first fields looks at these only. *)
Lemma insert_pair_le_values (x x' : Z * Z) (s s' : list (Z * Z)) :
  fst x = fst x' -> map fst s = map fst s' -> ~ In (fst x) (map fst s) ->
  map fst (insert pair_le x s) = map fst (insert pair_le x' s').
Proof.
  intros Hx. revert s'.
  induction s as [|y s IH]; intros [|y' s']; simpl; try discriminate;
    [now rewrite Hx|].
  intros [= Hy Hs] Hnot. unfold pair_le. rewrite <- Hx, <- Hy.
  destruct (Z.eqb_spec (fst x) (fst y)) as [E|_]; [exfalso; apply Hnot; auto|].
  rewrite andb_false_l, orb_false_r.
  destruct (fst x <? fst y); simpl; [now rewrite Hx, Hy, Hs|].
  rewrite Hy. f_equal. apply IH; [assumption|]. tauto.
Qed.

Lemma sorted_pair_le_values (l l' : list (Z * Z)) :
  map fst l = map fst l' -> NoDup (map fst l) ->
  map fst (sorted pair_le l) = map fst (sorted pair_le l').
Proof.
  revert l'. induction l as [|x l IH]; intros [|x' l']; simpl; try discriminate;
    [reflexivity|].
  intros [= Hx Hl] Hnd. inversion Hnd as [|? ? Hnot Hnd']; subst.
  apply insert_pair_le_values; [assumption|auto|].
  intros Hin. apply Hnot.
  apply (Permutation_in _ (Permutation_map fst (PyFacts.sorted_perm pair_le l))).
  exact Hin.
Qed.

Lemma split_runs_values prev prev' rest rest' sequence sequence' sequences sequences' :
  fst prev = fst prev' -> map fst rest = map fst rest' ->
  map fst sequence = map fst sequence' ->
  map (map fst) sequences = map (map fst) sequences' ->
  map (map fst) (split_runs prev rest sequence sequences)
  = map (map fst) (split_runs prev' rest' sequence' sequences').
Proof.
  revert prev prev' rest' sequence sequence' sequences sequences'.
  induction rest as [|next rest IH];
    intros prev prev' [|next' rest'] sequence sequence' sequences sequences';
    simpl; try discriminate.
  - intros _ _ Hs Hss. rewrite !map_app, Hss. simpl. now rewrite Hs.
  - intros Hp [= Hn Hr] Hs Hss. rewrite <- Hp, <- Hn.
    destruct (fst next =? fst prev + 1).
    + apply IH; try assumption. rewrite !map_app, Hs. simpl. now rewrite Hn.
    + apply IH; try assumption; simpl; [now rewrite Hn|].
      rewrite !map_app, Hss. simpl. now rewrite Hs.
Qed.

Lemma sorted_entries_values (h h' : list Z) :
  map card_value h = map card_value h' ->
  map fst (sorted pair_le (dict_values (with_low_ace (card_dict_of h))))
  = map fst (sorted pair_le (dict_values (with_low_ace (card_dict_of h')))).
Proof.
  intros Hv.
  pose proof (with_low_ace_values _ _ (card_dict_values h h' Hv)) as Hev.
  assert (Hproj : forall d : list (Z * (Z * Z)),
             map fst (dict_values d) = map snd (entry_values d)).
  { intros d. unfold dict_values, entry_values. rewrite !map_map. reflexivity. }
  apply sorted_pair_le_values.
  - now rewrite !Hproj, Hev.
  - replace (map fst (dict_values (with_low_ace (card_dict_of h))))
      with (map fst (with_low_ace (card_dict_of h))).
    + apply SequenceFacts.with_low_ace_NoDup, SequenceFacts.card_dict_NoDup.
    + unfold dict_values. rewrite map_map. apply map_ext_in.
      intros [k x] Hin. now destruct (SequenceFacts.with_low_ace_entry _ _ _ Hin) as [-> _].
Qed.

(** The row of values [find_max_sequence] returns depends on the rank
    values of the cards only. *)
Lemma find_max_sequence_values (h h' : list Z) :
  map card_value h = map card_value h' ->
  same_rows (find_max_sequence h) (find_max_sequence h').
Proof.
  intros Hv. rewrite !SequenceFacts.find_max_sequence_unfold.
  pose proof (card_dict_values h h' Hv) as Hd.
  apply (f_equal (@length _)) in Hd. unfold entry_values in Hd.
  rewrite !length_map in Hd. rewrite <- Hd.
  destruct (length (card_dict_of h) =? 1)%nat; [exact I|].
  pose proof (sorted_entries_values h h' Hv) as Hfst.
  cbv zeta.
  destruct (sorted pair_le (dict_values (with_low_ace (card_dict_of h))))
    as [|first rest],
    (sorted pair_le (dict_values (with_low_ace (card_dict_of h'))))
    as [|first' rest']; try discriminate Hfst.
  { rewrite !PyFacts.getitem_nil. reflexivity. }
  rewrite !PyFacts.getitem_first. cbn [bind tl].
  injection Hfst as Hfirst Hrest.
  set (le_len := by_key (fun s : list (Z * Z) => Z.of_nat (length s)) false).
  set (le_len' := by_key (fun s : list Z => Z.of_nat (length s)) false).
  assert (Hle : forall x y : list (Z * Z),
             le_len' (map fst x) (map fst y) = le_len x y).
  { intros x y. unfold le_len, le_len', by_key. now rewrite !length_map. }
  pose proof (split_runs_values first first' rest rest' [first] [first'] [] []
                Hfirst Hrest ltac:(simpl; now rewrite Hfirst) eq_refl) as Hruns.
  pose proof (PyFacts.getitem_map (map fst)
                (sorted le_len (split_runs first rest [first] [])) (-1)) as G.
  pose proof (PyFacts.getitem_map (map fst)
                (sorted le_len (split_runs first' rest' [first'] [])) (-1)) as G'.
  rewrite (PyFacts.sorted_map (map fst) le_len le_len' _ Hle) in G.
  rewrite (PyFacts.sorted_map (map fst) le_len le_len' _ Hle) in G'.
  rewrite Hruns, G' in G.
  destruct (getitem (sorted le_len (split_runs first rest [first] [])) (-1))
    as [run|e],
    (getitem (sorted le_len (split_runs first' rest' [first'] [])) (-1))
    as [run'|e']; simpl in G; try discriminate G; cbn [bind].
  - injection G as G. apply (f_equal (slice_last 5)) in G.
    rewrite <- !PyFacts.slice_last_map in G.
    destruct (slice_last 5 run) as [|x r], (slice_last 5 run') as [|x' r'];
      try discriminate G; simpl; [exact I|].
    simpl in G. congruence.
  - simpl. congruence.
Qed.

End ValueFacts.

(** ** Five cards: the suits count only through being all the same *)

Module FiveCards.
Import Py.

Lemma occurrences_le_length (l : list Z) (k : Z) :
  occurrences l k <= Z.of_nat (length l).
Proof.
  unfold occurrences. induction l as [|x l IH]; simpl; [lia|].
  destruct (Z.eq_dec x k); lia.
Qed.

Lemma occurrences_full (l : list Z) (a : Z) :
  occurrences l a = Z.of_nat (length l) -> forall x, In x l -> x = a.
Proof.
  induction l as [|y l IH]; [intros _ x []|].
  intros H x Hx. pose proof (occurrences_le_length l a) as Hle.
  unfold occurrences in *. simpl in H.
  destruct (Z.eq_dec y a) as [->|Hne]; [|simpl in H; lia].
  destruct Hx as [<-|Hx]; [reflexivity|]. apply IH; [|assumption]. lia.
Qed.

Lemma suit_count_perm (l l' : list Z) (s : Z) :
  Permutation l l' -> suit_count l s = suit_count l' s.
Proof.
  intros H. unfold suit_count, occurrences. f_equal.
  apply Permutation_count_occ. now apply Permutation_map.
Qed.

Lemma flush_suite_five (l : list Z) :
  length l = 5%nat ->
  exists o, flush_suite l = Ok o /\
            (is_not_None o = true <-> exists s, suit_count l s = 5) /\
            (forall s, o = Some s -> suit_count l s = 5).
Proof.
  intros Hlen.
  assert (Hl : l <> []) by (destruct l; [discriminate|discriminate]).
  destruct (flush_suite_spec l Hl) as (k & Hmax & ->).
  eexists. split; [reflexivity|].
  destruct (Z.eqb_spec (suit_count l k) 5) as [E|E]; simpl.
  - split; [split; eauto|]. now intros s [= <-].
  - split; [|discriminate]. split; [discriminate|].
    intros (s & Hs). exfalso. apply E.
    pose proof (Hmax s) as Hs'. pose proof (occurrences_le_length (map card_suit l) k) as Hk.
    rewrite length_map, Hlen in Hk. unfold suit_count in *. lia.
Qed.

Lemma same_suit_five (h : list Z) :
  length h = 5%nat ->
  (same_suit h = true <-> exists s, suit_count h s = 5).
Proof.
  intros Hlen. destruct h as [|c t]; [discriminate|]. unfold same_suit.
  rewrite forallb_forall. split.
  - intros Hall. exists (c / 13). unfold suit_count.
    rewrite <- (occurrences_all_same (map card_suit (c :: t)) (c / 13)).
    + now rewrite length_map, Hlen.
    + intros s Hs. apply in_map_iff in Hs. destruct Hs as (c' & <- & Hc').
      apply Z.eqb_eq, Hall, Hc'.
  - intros (s & Hs) c' Hc'. unfold suit_count in Hs.
    assert (Hfull : forall x, In x (map card_suit (c :: t)) -> x = s).
    { apply occurrences_full. now rewrite length_map, Hlen. }
    apply Z.eqb_eq. change (card_suit c' = card_suit c).
    rewrite (Hfull (card_suit c') (in_map _ _ _ Hc')).
    rewrite (Hfull (card_suit c) (in_map card_suit (c :: t) c (or_introl eq_refl))).
    reflexivity.
Qed.

Lemma consecutive_In (a : Z) (n : nat) (v : Z) :
  In v (consecutive a n) -> a <= v < a + Z.of_nat n.
Proof.
  revert a. induction n as [|n IH]; intros a; [intros []|].
  simpl consecutive. intros [<-|H]; [lia|]. specialize (IH _ H). lia.
Qed.

Lemma consecutive_NoDup (a : Z) (n : nat) : NoDup (consecutive a n).
Proof.
  revert a. induction n as [|n IH]; intros a; simpl; constructor; [|apply IH].
  intros H. apply consecutive_In in H. lia.
Qed.

Lemma NoDup_map_by {A B C : Type} (f : A -> B) (g : A -> C) (l : list A) :
  NoDup (map f l) ->
  (forall x y, In x l -> In y l -> g x = g y -> f x = f y) ->
  NoDup (map g l).
Proof.
  induction l as [|x l IH]; simpl; intros Hnd Hfg; [constructor|].
  inversion Hnd as [|? ? Hx Hnd']; subst. constructor.
  - intros Hin. apply Hx. apply in_map_iff in Hin.
    destruct Hin as (y & Hy & Hin). apply in_map_iff. exists y.
    split; [|assumption]. apply Hfg; auto.
  - apply IH; [assumption|]. intros y z Hy Hz. apply Hfg; auto.
Qed.

(** On five cards a run of five holds every card once. *)
Lemma straight_cards (h sv ids : list Z) :
  length h = 5%nat -> find_max_sequence h = Ok [sv; ids] ->
  length sv = 5%nat -> Permutation ids h.
Proof.
  intros Hlen Hfind Hsv.
  assert (Hh : h <> []) by (destruct h; [discriminate|discriminate]).
  assert (Hdict : length (card_dict_of h) <> 1%nat).
  { intros E. rewrite SequenceFacts.find_max_sequence_unfold, E in Hfind.
    discriminate Hfind. }
  destruct (SequenceFacts.find_max_sequence_run h Hh Hdict)
    as (a & r & _ & _ & _ & Hrun & Hentry & E).
  rewrite E in Hfind. injection Hfind as <- <-.
  rewrite length_map in Hsv. rewrite Hsv in Hrun.
  apply NoDup_Permutation_bis.
  - apply (NoDup_map_by fst snd).
    + rewrite Hrun. apply consecutive_NoDup.
    + intros x y Hx Hy Hxy.
      pose proof (consecutive_In a 5 (fst x)) as Bx.
      pose proof (consecutive_In a 5 (fst y)) as By.
      rewrite <- Hrun in Bx, By.
      specialize (Bx (in_map fst _ _ Hx)). specialize (By (in_map fst _ _ Hy)).
      destruct (Hentry x Hx) as [_ Ex], (Hentry y Hy) as [_ Ey].
      rewrite Hxy in Ex. lia.
  - rewrite length_map. lia.
  - intros c Hc. apply in_map_iff in Hc. destruct Hc as (x & <- & Hx).
    apply (Hentry x Hx).
Qed.

Lemma straight_flush_test (h sv ids : list Z) :
  length h = 5%nat -> find_max_sequence h = Ok [sv; ids] ->
  length sv = 5%nat ->
  exists o, flush_suite ids = Ok o /\ is_not_None o = same_suit h.
Proof.
  intros Hlen Hfind Hsv.
  pose proof (straight_cards h sv ids Hlen Hfind Hsv) as Hperm.
  assert (Hids : length ids = 5%nat)
    by (now rewrite (Permutation_length Hperm)).
  destruct (flush_suite_five ids Hids) as (o & Ho & Hflush & _).
  exists o. split; [assumption|].
  apply eq_true_iff_eq. rewrite Hflush, (same_suit_five h Hlen).
  split; intros (s & Hs); exists s;
    [rewrite <- (suit_count_perm _ _ s Hperm)|rewrite (suit_count_perm _ _ s Hperm)];
    assumption.
Qed.

Lemma flush_test (h : list Z) :
  length h = 5%nat ->
  exists o, flush_suite h = Ok o /\ is_not_None o = same_suit h /\
            forall s r t, o = Some s ->
                          sort_cards h (Some s) r t = sort_cards h None r t.
Proof.
  intros Hlen. destruct (flush_suite_five h Hlen) as (o & Ho & Hflush & Hsome).
  exists o. split; [assumption|]. split.
  - apply eq_true_iff_eq. now rewrite Hflush, (same_suit_five h Hlen).
  - intros s r t E. specialize (Hsome s E). unfold sort_cards.
    replace (filter (fun c => c / 13 =? s) h) with h; [reflexivity|].
    symmetry. apply forallb_filter_id, forallb_forall. intros c Hc.
    apply Z.eqb_eq. change (card_suit c = s).
    apply (occurrences_full (map card_suit h) s); [|now apply in_map].
    rewrite length_map, Hlen. exact Hsome.
Qed.

(** Two hands of five cards with the same rank values, card by card,
    and both or neither of one suit, have the same descriptor. *)
Lemma assess_hand_five (h h' : list Z) :
  length h = 5%nat -> length h' = 5%nat ->
  map card_value h = map card_value h' ->
  same_suit h = same_suit h' ->
  assess_hand h = assess_hand h'.
Proof.
  intros Hlen Hlen' Hv Hsuit.
  pose proof (ValueFacts.find_max_sequence_values h h' Hv) as Hrows.
  assert (Hg : group_duplicates h' = group_duplicates h)
    by (unfold group_duplicates; now rewrite Hv).
  assert (Hside : forall x, select_side_cards h' x = select_side_cards h x)
    by (intros x; unfold select_side_cards; now rewrite Hv).
  assert (Hsort : sort_cards h' None true true = sort_cards h None true true)
    by (unfold sort_cards; now rewrite Hv).
  destruct (flush_test h Hlen) as (o & Ho & Hflag & Hfl).
  destruct (flush_test h' Hlen') as (o' & Ho' & Hflag' & Hfl').
  unfold assess_hand.
  rewrite Hg, Ho, Ho', !Hside, Hsort.
  destruct (find_max_sequence h) as [[|sv [|ids [|? ?]]]|] eqn:F,
    (find_max_sequence h') as [[|sv' [|ids' [|? ?]]]|] eqn:F';
    simpl in Hrows; try contradiction; try (subst; reflexivity).
  subst sv'. cbn [bind unpack2 fst snd].
  assert (Htest :
            (if (length sv =? 5)%nat
             then s <- flush_suite ids ;; Ok (is_not_None s) else Ok false)
            = (if (length sv =? 5)%nat
               then s <- flush_suite ids' ;; Ok (is_not_None s) else Ok false)).
  { destruct (Nat.eqb_spec (length sv) 5) as [Hsv|_]; [|reflexivity].
    destruct (straight_flush_test h sv ids Hlen F Hsv) as (q & -> & Hq).
    destruct (straight_flush_test h' sv ids' Hlen' F' Hsv) as (q' & -> & Hq').
    cbn [bind]. congruence. }
  rewrite <- Htest.
  destruct (if (length sv =? 5)%nat
            then s <- flush_suite ids ;; Ok (is_not_None s) else Ok false)
    as [[|]|]; cbn [bind]; try reflexivity.
  destruct (truthy (dd_get (group_duplicates h) 4)); [reflexivity|].
  destruct (truthy (dd_get (group_duplicates h) 3) &&
            truthy (dd_get (group_duplicates h) 2)); [reflexivity|].
  assert (Hoo : is_not_None o = is_not_None o') by congruence.
  destruct o as [s|], o' as [s'|]; try discriminate Hoo; cbn [is_not_None].
  - now rewrite (Hfl s true true eq_refl), (Hfl' s' true true eq_refl), Hsort.
  - reflexivity.
Qed.

End FiveCards.

(** ** The exhaustive rank count *)

Lemma card_value_tab_eq : card_value_tab = card_value.
Proof.
  apply functional_extensionality. intros c. unfold card_value_tab.
  destruct c as [|p|p]; try reflexivity.
  do 6 (try destruct p as [p|p|]); reflexivity.
Qed.

Lemma div_tab_eq : div_tab = Z.div.
Proof.
  apply functional_extensionality. intros c.
  apply functional_extensionality. intros d. unfold div_tab.
  destruct d as [|q|q]; try reflexivity.
  do 4 (try destruct q as [q|q|]); try reflexivity.
  all: destruct c as [|p|p]; try reflexivity.
  all: do 6 (try destruct p as [p|p|]); reflexivity.
Qed.

Lemma assess_hand_tab_eq (hand : list Z) : assess_hand_tab hand = assess_hand hand.
Proof.
  unfold assess_hand_tab. rewrite card_value_tab_eq, div_tab_eq. reflexivity.
Qed.

(** *** Combinations *)

Lemma subseq_combinations (c l : list Z) :
  subseq c l = true -> In c (combinations (length c) l).
Proof.
  revert c. induction l as [|y l IH]; intros c.
  - destruct c; [simpl; auto|discriminate].
  - destruct c as [|x c]; [simpl; auto|].
    simpl. intros H. apply in_or_app.
    destruct (Z.eqb_spec x y) as [->|Hne].
    + left. apply in_map, IH, H.
    + right. apply (IH (x :: c)), H.
Qed.

Lemma combinations_length (k : nat) (l : list Z) :
  Z.of_nat (length (combinations k l)) = choose (length l) k.
Proof.
  revert k. induction l as [|x l IH]; intros k.
  - now destruct k.
  - destruct k as [|k]; [reflexivity|].
    cbn [combinations length choose].
    rewrite length_app, length_map, Nat2Z.inj_add, !IH. reflexivity.
Qed.

Lemma combinations_In (k : nat) (l c : list Z) :
  In c (combinations k l) ->
  length c = k /\ incl c l /\ (NoDup l -> NoDup c).
Proof.
  revert k c. induction l as [|x l IH]; intros k c.
  - destruct k; simpl; [|intros []].
    intros [<-|[]]. repeat split; [intros ? []|constructor].
  - destruct k as [|k]; simpl.
    + intros [<-|[]]. repeat split; [intros ? []|constructor].
    + rewrite in_app_iff, in_map_iff. intros [(c' & <- & Hc')|Hc].
      * destruct (IH _ _ Hc') as (Hlen & Hincl & Hnd). simpl.
        split; [now rewrite Hlen|]. split.
        -- intros y [<-|Hy]; [now left|right; now apply Hincl].
        -- intros Hl. inversion Hl as [|? ? Hx Hl']; subst.
           constructor; [|auto]. intros Hin. apply Hx, Hincl, Hin.
      * destruct (IH _ _ Hc) as (Hlen & Hincl & Hnd).
        split; [assumption|]. split.
        -- intros y Hy. right. now apply Hincl.
        -- intros Hl. inversion Hl; subst. auto.
Qed.

Lemma all_tuples_spec (p : list Z -> bool) (n : nat) (l suffix : list Z) :
  all_tuples p n l suffix = true ->
  forall t, length t = n -> (forall x, In x t -> In x l) ->
            p (rev t ++ suffix) = true.
Proof.
  revert suffix. induction n as [|n IH]; intros suffix Hall t Hlen Hin.
  - destruct t; [exact Hall|discriminate].
  - destruct t as [|x t]; [discriminate|].
    simpl in Hall. rewrite forallb_forall in Hall.
    simpl rev. rewrite <- app_assoc. simpl.
    apply IH; [|simpl in Hlen; lia|].
    + apply Hall, Hin. now left.
    + intros y Hy. apply Hin. now right.
Qed.

(** *** Descriptors and the table *)

Lemma tuple_eqb_eq (x y : list Z) : tuple_eqb x y = true -> x = y.
Proof.
  revert y. induction x as [|a x IH]; intros [|b y]; simpl; try discriminate; auto.
  intros H. apply andb_prop in H. destruct H as [Hab Hxy].
  apply Z.eqb_eq in Hab. f_equal; auto.
Qed.

Lemma record_eqb_eq (r1 r2 : record) : record_eqb r1 r2 = true -> r1 = r2.
Proof.
  intros H. apply tuple_eqb_eq in H.
  destruct r1 as [c1 t1], r2 as [c2 t2]. unfold record_tuple in H. simpl in H.
  injection H as Hc ->. f_equal. destruct c1, c2; simpl in Hc; congruence.
Qed.

Lemma distinct_true (l : list Z) : distinct l = true -> NoDup l.
Proof.
  induction l as [|x l IH]; simpl; [constructor|].
  intros H. apply andb_prop in H. destruct H as [Hx Hl].
  constructor; [|auto]. intros Hin.
  apply negb_true_iff, not_true_iff_false in Hx. apply Hx.
  apply existsb_exists. exists x. split; [assumption|apply Z.eqb_refl].
Qed.

Lemma realised_spec (cards : list Z) (e : positive * (record * list Z)) :
  realised cards e = true ->
  fst e = Z.to_pos (record_code (fst (snd e))) /\
  In (snd (snd e)) (combinations 5 cards) /\
  assess_hand (snd (snd e)) = Ok (fst (snd e)).
Proof.
  unfold realised. rewrite assess_hand_tab_eq. intros H.
  apply andb_prop in H. destruct H as [H Hrank].
  apply andb_prop in H. destruct H as [H Hlen].
  apply andb_prop in H. destruct H as [Hkey Hsub].
  split; [now apply Pos.eqb_eq|]. split.
  - apply Nat.eqb_eq in Hlen. rewrite <- Hlen. now apply subseq_combinations.
  - revert Hrank. destruct (assess_hand (snd (snd e))) as [r|]; [|discriminate].
    intros Hrank. apply record_eqb_eq in Hrank. now rewrite Hrank.
Qed.

Lemma elements_keys_NoDup {A : Type} (m : PositiveMap.t A) :
  NoDup (map fst (PositiveMap.elements m)).
Proof.
  pose proof (PositiveMap.elements_3w m) as H.
  induction H as [|x l Hx _ IH]; simpl; constructor; [|assumption].
  intros Hin. apply Hx. apply in_map_iff in Hin.
  destruct Hin as (y & Hy & Hin). apply SetoidList.InA_alt.
  exists y. split; [|assumption]. unfold PositiveMap.eq_key. now symmetry.
Qed.

Lemma every_entry_realised :
  forallb (realised deck) (PositiveMap.elements rank_table) = true.
Proof. vm_cast_no_check (eq_refl true). Qed.

Lemma every_value_list_in_table :
  all_tuples values_in_table 5 values13 [] = true.
Proof. vm_cast_no_check (eq_refl true). Qed.

Lemma descriptors_length : Z.of_nat (length descriptors) = 7462.
Proof. vm_cast_no_check (eq_refl 7462). Qed.

Lemma deck_hands : choose (length deck) 5 = 2598960.
Proof. vm_cast_no_check (eq_refl 2598960). Qed.

Lemma deck_cards : NoDup deck /\ Forall (fun c => 0 <= c <= 51) deck.
Proof.
  split.
  - apply distinct_true. vm_compute. reflexivity.
  - apply Forall_forall. intros c Hc.
    assert (H : forallb (fun c => (0 <=? c) && (c <=? 51)) deck = true)
      by (vm_compute; reflexivity).
    rewrite forallb_forall in H. specialize (H c Hc). lia.
Qed.

Lemma NoDup_by_code {A : Type} (entries : list (positive * (record * A))) :
  NoDup (map fst entries) ->
  (forall e, In e entries -> fst e = Z.to_pos (record_code (fst (snd e)))) ->
  NoDup (map (fun e => fst (snd e)) entries).
Proof.
  intros Hnd Hkey.
  apply (NoDup_map_inv (fun r => Z.to_pos (record_code r))).
  rewrite map_map. rewrite <- (map_ext_in fst _ entries); assumption.
Qed.

Lemma descriptors_NoDup : NoDup descriptors.
Proof.
  pose proof every_entry_realised as Hall. rewrite forallb_forall in Hall.
  exact (NoDup_by_code (PositiveMap.elements rank_table)
           (elements_keys_NoDup rank_table)
           (fun e He => proj1 (realised_spec deck e (Hall e He)))).
Qed.

Lemma descriptors_realised (r : record) :
  In r descriptors ->
  exists hand, In hand (combinations 5 deck) /\ assess_hand hand = Ok r.
Proof.
  intros Hr. unfold descriptors in Hr. apply in_map_iff in Hr.
  destruct Hr as (e & <- & He).
  pose proof every_entry_realised as Hall.
  rewrite forallb_forall in Hall.
  exists (snd (snd e)). exact (proj2 (realised_spec deck e (Hall e He))).
Qed.

Lemma in_table_spec (hand : list Z) :
  in_table hand = true ->
  exists r, assess_hand hand = Ok r /\ In r descriptors.
Proof.
  unfold in_table. rewrite assess_hand_tab_eq.
  destruct (assess_hand hand) as [r|]; [|discriminate].
  destruct (PositiveMap.find _ rank_table) as [e|] eqn:Hfind; [|discriminate].
  intros H. apply record_eqb_eq in H. subst r.
  exists (fst e). split; [reflexivity|].
  apply PositiveMap.elements_correct in Hfind.
  unfold descriptors. apply in_map_iff.
  exists (Z.to_pos (record_code (fst e)), e). split; [reflexivity|assumption].
Qed.

(** *** From the cards to their rank values *)

Lemma card_of_value (v : Z) :
  1 <= v <= 13 ->
  card_value (v mod 13) = v /\ card_value (13 + v mod 13) = v /\
  (v mod 13) / 13 = 0 /\ (13 + v mod 13) / 13 = 1.
Proof.
  intros Hv.
  assert (H : In v values13) by (unfold values13; simpl; lia).
  unfold values13 in H. simpl in H.
  repeat (destruct H as [<-|H]; [repeat split; reflexivity|]). destruct H.
Qed.

Lemma canonical_values (values : list Z) (flush : bool) :
  Forall (fun v => 1 <= v <= 13) values ->
  map card_value (canonical values flush) = values.
Proof.
  intros H. destruct H as [|v vs Hv Hvs]; [reflexivity|].
  simpl. f_equal.
  - destruct flush; apply (card_of_value v Hv).
  - rewrite map_map. rewrite <- (map_id vs) at 2.
    apply map_ext_in. intros x Hx. rewrite Forall_forall in Hvs.
    apply (card_of_value x (Hvs x Hx)).
Qed.

Lemma canonical_length (values : list Z) (flush : bool) :
  length (canonical values flush) = length values.
Proof. destruct values; simpl; [reflexivity|now rewrite length_map]. Qed.

Lemma canonical_same_suit (values : list Z) (flush : bool) :
  length values = 5%nat -> Forall (fun v => 1 <= v <= 13) values ->
  same_suit (canonical values flush) = flush.
Proof.
  intros Hlen H. destruct H as [|v1 vs Hv1 Hvs]; [discriminate|].
  destruct Hvs as [|v2 vs Hv2 Hvs]; [discriminate|].
  destruct (card_of_value v1 Hv1) as (_ & _ & E1 & E1').
  destruct (card_of_value v2 Hv2) as (_ & _ & E2 & _).
  destruct flush; cbn [canonical same_suit map forallb].
  - rewrite E1, E2. simpl. apply forallb_forall.
    intros c Hc. apply in_map_iff in Hc. destruct Hc as (v & <- & Hin).
    rewrite Forall_forall in Hvs.
    destruct (card_of_value v (Hvs v Hin)) as (_ & _ & -> & _). reflexivity.
  - rewrite E1', E2. reflexivity.
Qed.

Lemma alike_spec (values : list Z) (v : Z) :
  alike (v :: values) = true -> forall x, In x (v :: values) -> x = v.
Proof.
  simpl. rewrite forallb_forall. intros H x [<-|Hx]; [reflexivity|].
  symmetry. apply Z.eqb_eq, H, Hx.
Qed.

Lemma same_suit_spec (c : Z) (hand : list Z) :
  same_suit (c :: hand) = true ->
  forall c', In c' (c :: hand) -> c' / 13 = c / 13.
Proof.
  unfold same_suit. rewrite forallb_forall. intros H c' Hc'.
  apply Z.eqb_eq, H, Hc'.
Qed.

(** Different cards of one suit have different rank values. *)
Lemma same_suit_values (hand : list Z) :
  NoDup hand -> same_suit hand = true -> NoDup (map card_value hand).
Proof.
  intros Hnd Hsuit. destruct hand as [|c0 hand]; [constructor|].
  pose proof (same_suit_spec c0 hand Hsuit) as H.
  apply NoDup_map_NoDup_ForallPairs; [|assumption].
  intros c c' Hc Hc' Hv. apply card_value_mod in Hv.
  rewrite (Z.div_mod c 13), (Z.div_mod c' 13) by lia.
  rewrite (H c Hc), (H c' Hc'). congruence.
Qed.

(** Every hand of five different cards of the deck, in any order, has
    its descriptor in the table. *)
Lemma five_cards_in_table (hand : list Z) :
  length hand = 5%nat -> NoDup hand -> Forall (fun c => 0 <= c <= 51) hand ->
  exists r, assess_hand hand = Ok r /\ In r descriptors.
Proof.
  intros Hlen Hnd Hrange.
  set (values := map card_value hand).
  assert (Hvalues : Forall (fun v => 1 <= v <= 13) values).
  { apply Forall_forall. intros v Hv. apply in_map_iff in Hv.
    destruct Hv as (c & <- & _). apply card_value_range. }
  assert (Hvlen : length values = 5%nat) by (unfold values; now rewrite length_map).
  assert (Hcheck : values_in_table values = true).
  { pose proof (all_tuples_spec _ _ _ _ every_value_list_in_table (rev values))
      as H.
    rewrite rev_involutive, app_nil_r in H. apply H.
    - now rewrite length_rev.
    - intros v Hv. apply in_rev in Hv. rewrite Forall_forall in Hvalues.
      specialize (Hvalues v Hv). unfold values13. simpl. lia. }
  unfold values_in_table in Hcheck.
  apply andb_prop in Hcheck. destruct Hcheck as [Hmixed Hflush].
  assert (Hcanon : forall flush,
             same_suit hand = flush ->
             assess_hand hand = assess_hand (canonical values flush)).
  { intros flush Hsuit. apply FiveCards.assess_hand_five.
    - assumption.
    - now rewrite canonical_length.
    - now rewrite canonical_values.
    - now rewrite canonical_same_suit. }
  destruct (same_suit hand) eqn:Hsuit.
  - rewrite (Hcanon true eq_refl). apply in_table_spec.
    rewrite (distinct_NoDup values (same_suit_values hand Hnd Hsuit)) in Hflush.
    exact Hflush.
  - rewrite (Hcanon false eq_refl). apply in_table_spec.
    destruct (alike values) eqn:Halike; [|exact Hmixed].
    exfalso. destruct values as [|v vs] eqn:E; [discriminate|].
    pose proof (alike_spec vs v Halike) as Hsame.
    assert (Hfour : (length hand <= 4)%nat).
    { apply (same_value_at_most_four hand v Hnd Hrange).
      intros c Hc. apply Hsame. rewrite <- E. unfold values. now apply in_map. }
    lia.
Qed.

(** C5: the deck has 2,598,960 five-card hands, and [assess_hand] gives
    them exactly 7462 different descriptors: a duplicate-free list of
    7462 descriptors holds the descriptor of every hand, and each of its
    descriptors is that of some hand.  (The descriptor of a five-card
    hand depends on the rank values of its cards, in their order, and on
    whether they share a suit; the lists of five rank values are gone
    through one by one.) *)
Theorem exhaustive_rank_count :
  Z.of_nat (length (combinations 5 deck)) = 2598960 /\
  exists L : list record,
    NoDup L /\ Z.of_nat (length L) = 7462 /\
    (forall hand, In hand (combinations 5 deck) ->
                  exists r, assess_hand hand = Ok r /\ In r L) /\
    (forall r, In r L ->
               exists hand, In hand (combinations 5 deck) /\ assess_hand hand = Ok r).
Proof.
  split.
  - rewrite combinations_length. exact deck_hands.
  - exists descriptors.
    split; [exact descriptors_NoDup|]. split; [exact descriptors_length|].
    split; [|exact descriptors_realised].
    intros hand Hin. destruct deck_cards as [Hnd Hrange].
    destruct (combinations_In 5 deck hand Hin) as (Hlen & Hincl & Hnodup).
    apply five_cards_in_table; [assumption|auto|].
    rewrite Forall_forall in Hrange |- *. auto.
Qed.

Lemma exhaustive_rank_count_witness :
  exists r, assess_hand [0; 1; 2; 3; 4] = Ok r.
Proof.
  destruct exhaustive_rank_count as (_ & L & _ & _ & Hcover & _).
  destruct (Hcover [0; 1; 2; 3; 4]) as (r & Hr & _).
  - apply (subseq_combinations [0; 1; 2; 3; 4] deck). vm_compute. reflexivity.
  - exists r. exact Hr.
Defined.

(** * Further properties of the module *)

(** ** Sorting, the card encoding and the card selectors *)

Module SortFacts.
Import Py.

Section Order.
Context {A : Type} (le : A -> A -> bool).
Hypothesis le_total : forall x y, le x y = true \/ le y x = true.
Hypothesis le_trans : forall x y z, le x y = true -> le y z = true -> le x z = true.

Lemma insert_sorted (x : A) (l : list A) :
  StronglySorted (fun a b => le a b = true) l ->
  StronglySorted (fun a b => le a b = true) (insert le x l).
Proof.
  induction 1 as [|y l Hl IH Hy]; simpl.
  - repeat constructor.
  - destruct (le x y) eqn:Hxy.
    + constructor; [now constructor|].
      constructor; [assumption|].
      rewrite Forall_forall in Hy |- *. intros z Hz.
      apply (le_trans _ y); auto.
    + constructor; [assumption|].
      rewrite Forall_forall in Hy |- *. intros z Hz.
      apply (Permutation_in _ (PyFacts.insert_perm le x l)) in Hz.
      destruct Hz as [<-|Hz]; [|auto].
      destruct (le_total x y); congruence.
Qed.

Lemma sorted_sorted (l : list A) :
  StronglySorted (fun a b => le a b = true) (sorted le l).
Proof.
  induction l as [|x l IH]; simpl; [constructor|].
  now apply insert_sorted.
Qed.
End Order.

Lemma StronglySorted_weaken {A : Type} (R R' : A -> A -> Prop) (l : list A) :
  (forall x y, In x l -> In y l -> R x y -> R' x y) ->
  StronglySorted R l -> StronglySorted R' l.
Proof.
  intros HR H. induction H as [|x l Hl IH Hx]; constructor.
  - apply IH. intros a b Ha Hb. apply HR; now right.
  - rewrite Forall_forall in Hx |- *. intros y Hy.
    apply HR; [now left|now right|auto].
Qed.

Lemma StronglySorted_map {A B : Type} (f : A -> B) (R : B -> B -> Prop)
    (l : list A) :
  StronglySorted (fun x y => R (f x) (f y)) l <-> StronglySorted R (map f l).
Proof.
  induction l as [|x l IH]; simpl.
  - split; constructor.
  - split; intros H; inversion H as [|? ? Hl Hx]; subst; constructor.
    + now apply IH.
    + rewrite Forall_forall in Hx |- *. intros y Hy.
      apply in_map_iff in Hy. destruct Hy as (z & <- & Hz). auto.
    + now apply IH.
    + rewrite Forall_forall in Hx |- *. intros y Hy. apply Hx, in_map, Hy.
Qed.

(** The last element of a sorted list stands after every other one. *)
Lemma StronglySorted_last {A : Type} (R : A -> A -> Prop) (l : list A) (x : A) :
  StronglySorted R (l ++ [x]) -> forall y, In y l -> R y x.
Proof.
  induction l as [|z l IH]; simpl; intros H y Hy; [destruct Hy|].
  inversion H as [|? ? Hl Hz]; subst.
  destruct Hy as [<-|Hy]; [|auto].
  rewrite Forall_forall in Hz. apply Hz, in_or_app. right. now left.
Qed.

Lemma sorted_by_key {A : Type} (key : A -> Z) (r : bool) (l : list A) :
  StronglySorted (fun x y => ordered r (key x) (key y)) (sorted (by_key key r) l).
Proof.
  eapply StronglySorted_weaken;
    [|apply (sorted_sorted _ (PyFacts.by_key_total key r) (PyFacts.by_key_trans key r))].
  intros x y _ _. unfold by_key, ordered. destruct r; apply Z.leb_le.
Qed.

Lemma StronglySorted_app_l {A : Type} (R : A -> A -> Prop) (l1 l2 : list A) :
  StronglySorted R (l1 ++ l2) -> StronglySorted R l1.
Proof.
  induction l1 as [|x l1 IH]; simpl; intros H; [constructor|].
  inversion H as [|? ? Hl Hx]; subst. constructor; [auto|].
  rewrite Forall_forall in Hx |- *. intros y Hy. apply Hx, in_or_app. now left.
Qed.

(** A sorted list without repetition is strictly sorted. *)
Lemma sorted_NoDup_strict (r : bool) (l : list Z) :
  StronglySorted (ordered r) l -> NoDup l ->
  StronglySorted (fun x y => ordered r x y /\ x <> y) l.
Proof.
  induction 1 as [|x l Hl IH Hx]; intros Hnd; constructor;
    inversion Hnd as [|? ? Hnot Hnd']; subst.
  - auto.
  - rewrite Forall_forall in Hx |- *. intros y Hy. split; [auto|].
    intros ->. contradiction.
Qed.

End SortFacts.

Lemma of_suit_filter (cards : list Z) (suit : option Z) :
  of_suit cards suit =
  match suit with
  | Some s => filter (fun c => c / 13 =? s) cards
  | None => cards
  end.
Proof. reflexivity. Qed.

(** X1: a card id encodes a suit and a rank value.  [card_value] lies
    between 1 and 13 for every integer and has period 13; the suit
    [c / 13] goes up by one every 13 ids; the id is recovered from the
    two, a rank value of 13 standing for the remainder 0; and two ids
    with the same suit and the same rank value are equal. *)
Theorem card_encoding (c : Z) :
  1 <= card_value c <= 13 /\
  card_value (c + 13) = card_value c /\
  card_suit (c + 13) = card_suit c + 1 /\
  c = 13 * card_suit c + card_value c mod 13 /\
  forall c', card_suit c' = card_suit c -> card_value c' = card_value c -> c' = c.
Proof.
  split; [apply card_value_range|]. split; [|split; [|split]].
  - unfold card_value.
    replace (c + 13) with (c + 1 * 13) by lia. now rewrite Z.mod_add by lia.
  - unfold card_suit.
    replace (c + 13) with (c + 1 * 13) by lia. now rewrite Z.div_add by lia.
  - unfold card_suit, card_value.
    pose proof (Z.div_mod c 13 ltac:(lia)).
    destruct (Z.eqb_spec (c mod 13) 0) as [E|E].
    + rewrite E in H. change (13 mod 13) with 0. lia.
    + rewrite Z.mod_mod by lia. assumption.
  - intros c' Hs Hv. apply card_value_mod in Hv. unfold card_suit in Hs.
    rewrite (Z.div_mod c 13), (Z.div_mod c' 13) by lia. congruence.
Qed.

Lemma card_encoding_witness :
  card_suit 38 = card_suit 38 /\ card_value 38 = card_value 38 /\ 38 = 38.
Proof.
  split; [reflexivity|]. split; [reflexivity|].
  exact (proj2 (proj2 (proj2 (proj2 (card_encoding 38)))) 38 eq_refl eq_refl).
Defined.

Lemma sort_cards_facts (cards : list Z) (suit : option Z) (reverse : bool) :
  Permutation (sort_cards cards suit reverse true)
              (map card_value (of_suit cards suit)) /\
  StronglySorted (ordered reverse) (sort_cards cards suit reverse true) /\
  Permutation (sort_cards cards suit reverse false) (of_suit cards suit) /\
  StronglySorted (fun c c' => ordered reverse (card_value c) (card_value c'))
                 (sort_cards cards suit reverse false).
Proof.
  unfold sort_cards. rewrite <- of_suit_filter.
  split; [apply PyFacts.sorted_perm|]. split; [|split].
  - apply (SortFacts.sorted_by_key id).
  - apply PyFacts.sorted_perm.
  - apply SortFacts.sorted_by_key.
Qed.

(** X2: [sort_cards] returns the rank values of the cards of the suit
    (of all the cards without a suit), each as often as it occurs, in
    ascending order, or in descending order with [reverse]; with
    [transform_cards=False] it returns these cards themselves, ordered
    by rank value. *)
Theorem sort_cards_sorted (cards : list Z) (suit : option Z) (reverse : bool) :
  Permutation (sort_cards cards suit reverse true)
              (map card_value (of_suit cards suit)) /\
  StronglySorted (ordered reverse) (sort_cards cards suit reverse true) /\
  Permutation (sort_cards cards suit reverse false) (of_suit cards suit) /\
  StronglySorted (fun c c' => ordered reverse (card_value c) (card_value c'))
                 (sort_cards cards suit reverse false).
Proof. apply sort_cards_facts. Qed.

Lemma max_card_spec (cards : list Z) (suit : option Z) :
  of_suit cards suit <> [] ->
  exists m, max_card cards suit true = Ok m /\
            In m (map card_value (of_suit cards suit)) /\
            forall c, In c (of_suit cards suit) -> card_value c <= m.
Proof.
  unfold max_card, sort_cards. rewrite <- of_suit_filter. intros Hne.
  set (values := map card_value (of_suit cards suit)).
  assert (Hv : values <> []) by (unfold values; now destruct (of_suit cards suit)).
  pose proof (SortFacts.sorted_by_key id false values) as Hs.
  pose proof (PyFacts.sorted_In (Py.by_key id false) values) as Hin.
  pose proof (PyFacts.sorted_nonempty (Py.by_key id false) values Hv) as Hsne.
  destruct (exists_last Hsne) as (l & m & E). rewrite E in *.
  exists m. rewrite PyFacts.getitem_last. split; [reflexivity|]. split.
  - apply Hin, in_or_app. right. now left.
  - intros c Hc.
    assert (Hc' : In (card_value c) (l ++ [m])) by (apply Hin, in_map, Hc).
    apply in_app_or in Hc'. destruct Hc' as [Hc'|[<-|[]]]; [|lia].
    apply (SortFacts.StronglySorted_last _ _ _ Hs _ Hc').
Qed.

Lemma min_card_spec (cards : list Z) :
  cards <> [] ->
  exists m, min_card cards true = Ok m /\
            In m (map card_value cards) /\
            forall c, In c cards -> m <= card_value c.
Proof.
  unfold min_card, sort_cards. intros Hne.
  set (values := map card_value cards).
  assert (Hv : values <> []) by (unfold values; now destruct cards).
  pose proof (SortFacts.sorted_by_key id false values) as Hs.
  pose proof (PyFacts.sorted_In (Py.by_key id false) values) as Hin.
  pose proof (PyFacts.sorted_nonempty (Py.by_key id false) values Hv) as Hsne.
  destruct (Py.sorted (Py.by_key id false) values) as [|m l]; [congruence|].
  exists m. rewrite PyFacts.getitem_first. split; [reflexivity|]. split.
  - apply Hin. now left.
  - intros c Hc.
    assert (Hc' : In (card_value c) (m :: l)) by (apply Hin, in_map, Hc).
    inversion Hs as [|? ? _ Hm]; subst. rewrite Forall_forall in Hm.
    destruct Hc' as [<-|Hc']; [lia|]. apply (Hm _ Hc').
Qed.

(** X3: [max_card] returns the highest rank value among the cards of
    the suit, [min_card] the lowest rank value of the cards; each raises
    [IndexError] exactly when there is no such card. *)
Theorem max_card_min_card (cards : list Z) (suit : option Z) :
  (of_suit cards suit = [] -> max_card cards suit true = Raise IndexError) /\
  (of_suit cards suit <> [] ->
   exists m, max_card cards suit true = Ok m /\
             In m (map card_value (of_suit cards suit)) /\
             forall c, In c (of_suit cards suit) -> card_value c <= m) /\
  (cards = [] -> min_card cards true = Raise IndexError) /\
  (cards <> [] ->
   exists m, min_card cards true = Ok m /\
             In m (map card_value cards) /\
             forall c, In c cards -> m <= card_value c).
Proof.
  split; [|split; [apply max_card_spec|split; [|apply min_card_spec]]].
  - unfold max_card, sort_cards. rewrite <- of_suit_filter. intros ->. reflexivity.
  - intros ->. reflexivity.
Qed.

Lemma max_card_min_card_witness :
  exists m, max_card [39; 40; 41; 17] (Some 3) true = Ok m /\
            In m (map card_value (of_suit [39; 40; 41; 17] (Some 3))) /\
            forall c, In c (of_suit [39; 40; 41; 17] (Some 3)) -> card_value c <= m.
Proof.
  apply (proj1 (proj2 (max_card_min_card [39; 40; 41; 17] (Some 3)))).
  vm_compute. discriminate.
Defined.

Lemma side_cards_In (cards cards_to_exclude : list Z) (v : Z) :
  In v (select_side_cards cards cards_to_exclude) <->
  In v (map card_value cards) /\ ~ In v (map card_value cards_to_exclude).
Proof.
  unfold select_side_cards.
  rewrite PyFacts.sorted_In. unfold Py.difference, Py.set_of.
  rewrite filter_In, nodup_In, negb_true_iff, <- not_true_iff_false,
    existsb_exists.
  split; intros [H1 H2]; (split; [assumption|]).
  - intros H. apply H2. exists v. split; [assumption|apply Z.eqb_refl].
  - intros (x & Hx & E). apply Z.eqb_eq in E. congruence.
Qed.

Lemma side_cards_sorted (cards cards_to_exclude : list Z) :
  StronglySorted Z.gt (select_side_cards cards cards_to_exclude).
Proof.
  unfold select_side_cards.
  set (side := Py.difference _ _).
  assert (Hnd : NoDup (Py.sorted (Py.by_key id true) side)).
  { eapply Permutation_NoDup; [symmetry; apply PyFacts.sorted_perm|].
    unfold side, Py.difference. apply NoDup_filter, NoDup_nodup. }
  pose proof (SortFacts.sorted_NoDup_strict true _
                (SortFacts.sorted_by_key id true side) Hnd) as Hs.
  eapply SortFacts.StronglySorted_weaken; [|exact Hs].
  intros x y _ _. unfold ordered. lia.
Qed.

(** X4: the kickers [select_side_cards] returns are exactly the rank
    values of [cards] that are not rank values of the excluded cards,
    in strictly descending order, so each of them once. *)
Theorem select_side_cards_spec (cards cards_to_exclude : list Z) :
  (forall v, In v (select_side_cards cards cards_to_exclude) <->
             In v (map card_value cards) /\
             ~ In v (map card_value cards_to_exclude)) /\
  StronglySorted Z.gt (select_side_cards cards cards_to_exclude).
Proof.
  split; [intros v; apply side_cards_In|apply side_cards_sorted].
Qed.

(** ** The runs of the sequence finder *)

Module RunFacts.
Import Py.

Lemma pair_le_total (x y : Z * Z) : pair_le x y = true \/ pair_le y x = true.
Proof.
  unfold pair_le.
  destruct (Z.ltb_spec (fst x) (fst y)), (Z.ltb_spec (fst y) (fst x)),
    (Z.eqb_spec (fst x) (fst y)), (Z.eqb_spec (fst y) (fst x)),
    (Z.leb_spec (snd x) (snd y)), (Z.leb_spec (snd y) (snd x));
    simpl; auto; lia.
Qed.

Lemma pair_le_trans (x y z : Z * Z) :
  pair_le x y = true -> pair_le y z = true -> pair_le x z = true.
Proof.
  unfold pair_le.
  destruct (Z.ltb_spec (fst x) (fst y)), (Z.ltb_spec (fst y) (fst z)),
    (Z.ltb_spec (fst x) (fst z)),
    (Z.eqb_spec (fst x) (fst y)), (Z.eqb_spec (fst y) (fst z)),
    (Z.eqb_spec (fst x) (fst z)),
    (Z.leb_spec (snd x) (snd y)), (Z.leb_spec (snd y) (snd z)),
    (Z.leb_spec (snd x) (snd z));
    simpl; auto; lia.
Qed.

Lemma pair_le_fst (x y : Z * Z) : pair_le x y = true -> fst x <= fst y.
Proof.
  unfold pair_le.
  destruct (Z.ltb_spec (fst x) (fst y)), (Z.eqb_spec (fst x) (fst y));
    simpl; intros; try discriminate; lia.
Qed.

(** Every entry is filed under its own first field. *)
Lemma low_ace_keys (h : list Z) :
  map fst (dict_values (with_low_ace (card_dict_of h)))
  = map fst (with_low_ace (card_dict_of h)).
Proof.
  unfold dict_values. rewrite map_map. apply map_ext_in.
  intros [k x] Hin.
  now destruct (SequenceFacts.with_low_ace_entry _ _ _ Hin) as [-> _].
Qed.

Lemma low_ace_has_value (h : list Z) (v : Z) :
  In v (map fst (with_low_ace (card_dict_of h))) <-> has_value h v.
Proof.
  unfold with_low_ace, has_value.
  destruct (dict_get (card_dict_of h) 13) as [ace|] eqn:Hace.
  - rewrite DictFacts.dict_set_keys, SequenceFacts.card_dict_keys.
    assert (H13 : In 13 (map card_value h)).
    { apply SequenceFacts.card_dict_keys.
      destruct (in_dec Z.eq_dec 13 (map fst (card_dict_of h))) as [|Hn];
        [assumption|].
      apply DictFacts.dict_get_None in Hn. congruence. }
    tauto.
  - rewrite SequenceFacts.card_dict_keys.
    assert (H13 : ~ In 13 (map card_value h)).
    { rewrite <- SequenceFacts.card_dict_keys.
      now apply DictFacts.dict_get_None. }
    tauto.
Qed.

Lemma sorted_entries_has_value (h : list Z) (v : Z) :
  In v (map fst (sorted_entries h)) <-> has_value h v.
Proof.
  rewrite <- low_ace_has_value, <- low_ace_keys. unfold sorted_entries.
  split; apply Permutation_in; [|symmetry];
    apply Permutation_map, PyFacts.sorted_perm.
Qed.

Lemma sorted_entries_NoDup (h : list Z) : NoDup (map fst (sorted_entries h)).
Proof.
  eapply Permutation_NoDup.
  - symmetry. apply Permutation_map, PyFacts.sorted_perm.
  - rewrite low_ace_keys.
    apply SequenceFacts.with_low_ace_NoDup, SequenceFacts.card_dict_NoDup.
Qed.

(** The sorted entries are in strictly increasing order of value. *)
Lemma sorted_entries_strict (h : list Z) :
  StronglySorted Z.lt (map fst (sorted_entries h)).
Proof.
  pose proof (SortFacts.sorted_sorted pair_le pair_le_total pair_le_trans
                (dict_values (with_low_ace (card_dict_of h)))) as Hs.
  fold (sorted_entries h) in Hs.
  apply (SortFacts.StronglySorted_weaken _
           (fun x y => ordered false (fst x) (fst y))) in Hs;
    [|intros x y _ _; apply pair_le_fst].
  apply (SortFacts.StronglySorted_map fst (ordered false)) in Hs.
  apply (SortFacts.sorted_NoDup_strict false) in Hs;
    [|apply sorted_entries_NoDup].
  eapply SortFacts.StronglySorted_weaken; [|exact Hs].
  intros x y _ _. unfold ordered. lia.
Qed.

(** Lists in a strict order with the same elements are equal. *)
Lemma strict_sorted_unique {A : Type} (R : A -> A -> Prop) (l l' : list A) :
  (forall x y, R x y -> R y x -> False) ->
  StronglySorted R l -> StronglySorted R l' ->
  (forall v, In v l <-> In v l') -> l = l'.
Proof.
  intros Hasym Hl. revert l'. induction Hl as [|x l Hl IH Hx]; intros l' Hl' Hin.
  - destruct l' as [|y l']; [reflexivity|].
    destruct (proj2 (Hin y) (or_introl eq_refl)).
  - destruct Hl' as [|y l' Hl' Hy].
    + destruct (proj1 (Hin x) (or_introl eq_refl)).
    + rewrite Forall_forall in Hx, Hy.
      assert (Hxy : x = y).
      { destruct (proj1 (Hin x) (or_introl eq_refl)) as [E|Hx'];
          [now symmetry|].
        destruct (proj2 (Hin y) (or_introl eq_refl)) as [E|Hy'];
          [assumption|].
        destruct (Hasym x y); auto. }
      subst y. f_equal. apply IH; [assumption|].
      intros v. split; intros Hv.
      * destruct (proj1 (Hin v) (or_intror Hv)) as [E|]; [|assumption].
        subst v. destruct (Hasym x x); auto.
      * destruct (proj2 (Hin v) (or_intror Hv)) as [E|]; [|assumption].
        subst v. destruct (Hasym x x); auto.
Qed.

Lemma consecutive_In_iff (a : Z) (n : nat) (v : Z) :
  In v (consecutive a n) <-> a <= v < a + Z.of_nat n.
Proof.
  split; [apply FiveCards.consecutive_In|].
  revert a. induction n as [|n IH]; intros a H; [lia|].
  simpl consecutive. destruct (Z.eq_dec a v) as [|Hne]; [now left|].
  right. apply IH. lia.
Qed.

(** The loop closes a run only where the next value is not present. *)
Lemma split_runs_maximal (present : list Z) prev rest sequence sequences :
  (forall v, In v present <->
             In v (map fst (concat sequences ++ sequence)) \/ In v (map fst rest)) ->
  (forall v, In v (map fst (concat sequences ++ sequence)) -> v <= fst prev) ->
  StronglySorted Z.lt (fst prev :: map fst rest) ->
  (exists a n, map fst sequence = consecutive a (S n) /\
               fst prev = a + Z.of_nat n /\ ~ In (a - 1) present) ->
  Forall (maximal_run present) sequences ->
  Forall (maximal_run present) (split_runs prev rest sequence sequences).
Proof.
  revert prev sequence sequences.
  induction rest as [|next rest IH];
    intros prev sequence sequences Hin Hlow Hsorted (a & n & Ha & Hprev & Hbefore) Hdone.
  - simpl. apply Forall_app. split; [assumption|]. constructor; [|constructor].
    exists a, n. split; [assumption|]. split; [assumption|].
    intros H. apply Hin in H. destruct H as [H|[]].
    specialize (Hlow _ H). lia.
  - simpl. inversion Hsorted as [|? ? Hsorted' Hprev_lt]; subst.
    rewrite Forall_forall in Hprev_lt.
    assert (Hnext : fst prev < fst next) by (apply Hprev_lt; now left).
    assert (Hafter : forall v, In v (map fst rest) -> fst next < v).
    { simpl in Hsorted'. inversion Hsorted' as [|? ? _ H]; subst.
      now rewrite Forall_forall in H. }
    destruct (Z.eqb_spec (fst next) (fst prev + 1)) as [E|E].
    + apply IH.
      * intros v. rewrite Hin, app_assoc, !map_app, !in_app_iff. simpl. tauto.
      * intros v. rewrite app_assoc, map_app, in_app_iff. simpl.
        intros [H|[<-|[]]]; [|lia]. specialize (Hlow _ H). lia.
      * assumption.
      * exists a, (S n). split; [|split; [lia|assumption]].
        rewrite map_app, Ha. simpl map.
        rewrite <- (SequenceFacts.consecutive_snoc a (S n)). do 2 f_equal. lia.
      * assumption.
    + apply IH.
      * intros v. rewrite Hin, concat_app, !map_app, !in_app_iff. simpl.
        rewrite app_nil_r. tauto.
      * intros v. rewrite concat_app, !map_app, !in_app_iff. simpl.
        rewrite app_nil_r.
        intros [[H|H]|[<-|[]]]; [| |lia];
          (assert (Hv : v <= fst prev);
           [apply Hlow; rewrite map_app, in_app_iff; tauto|lia]).
      * assumption.
      * exists (fst next), O. split; [reflexivity|]. split; [lia|].
        intros H. apply Hin in H. simpl in H.
        destruct H as [H|[H|H]]; [specialize (Hlow _ H)|
                                  |specialize (Hafter _ H)]; lia.
      * apply Forall_app. split; [assumption|]. constructor; [|constructor].
        exists a, n. split; [assumption|]. split; [assumption|].
        intros H. apply Hin in H. simpl in H.
        destruct H as [H|[H|H]]; [specialize (Hlow _ H)|
                                  |specialize (Hafter _ H)]; lia.
Qed.

Lemma runs_of_maximal (entries : list (Z * Z)) :
  StronglySorted Z.lt (map fst entries) ->
  Forall (maximal_run (map fst entries)) (runs_of entries).
Proof.
  destruct entries as [|first rest]; [constructor|]. intros Hs.
  assert (Hafter : forall v, In v (map fst rest) -> fst first < v).
  { simpl in Hs. inversion Hs as [|? ? _ H]; subst.
    now rewrite Forall_forall in H. }
  apply split_runs_maximal.
  - intros v. simpl. tauto.
  - simpl. intros v [<-|[]]. lia.
  - exact Hs.
  - exists (fst first), O. split; [reflexivity|]. split; [lia|].
    simpl. intros [H|H]; [lia|]. specialize (Hafter _ H). lia.
  - constructor.
Qed.

Lemma runs_of_concat (entries : list (Z * Z)) : concat (runs_of entries) = entries.
Proof.
  destruct entries as [|first rest]; [reflexivity|].
  simpl. now rewrite SequenceFacts.split_runs_concat.
Qed.

(** Consecutive present values that meet a maximal run lie in it. *)
Lemma block_in_run (present : list Z) (r : list (Z * Z)) (a : Z) (n : nat) :
  maximal_run present r ->
  (forall v, In v (consecutive a n) -> In v present) ->
  In a (map fst r) ->
  (n <= length r)%nat.
Proof.
  intros (b & m & Hr & _ & Hafter) Hblock Ha.
  rewrite Hr in Ha. apply consecutive_In_iff in Ha.
  assert (Hlen : length r = S m).
  { rewrite <- (length_map fst), Hr. apply SequenceFacts.consecutive_length. }
  assert (Htop : forall j, (j < n)%nat -> a + Z.of_nat j < b + Z.of_nat (S m)).
  { induction j as [|j IHj]; intros Hj; [lia|].
    specialize (IHj ltac:(lia)).
    destruct (Z.eq_dec (a + Z.of_nat (S j)) (b + Z.of_nat (S m))) as [E|E]; [|lia].
    exfalso. apply Hafter. rewrite <- E. apply Hblock, consecutive_In_iff. lia. }
  destruct n as [|n]; [lia|]. specialize (Htop n ltac:(lia)). lia.
Qed.

Lemma find_max_sequence_stages (cards : list Z) :
  find_max_sequence cards =
  if (length (card_dict_of cards) =? 1)%nat then Ok []
  else
    first <- getitem (sorted_entries cards) 0 ;;
    max_sequence <-
      getitem (sorted (by_key (fun s => Z.of_nat (length s)) false)
                      (runs_of (sorted_entries cards))) (-1) ;;
    Ok (zip_star (slice_last 5 max_sequence)).
Proof.
  rewrite SequenceFacts.find_max_sequence_unfold. cbv zeta.
  fold (sorted_entries cards).
  destruct (sorted_entries cards) as [|first rest]; [|reflexivity].
  now rewrite PyFacts.getitem_nil.
Qed.

(** One entry in the dictionary: some cards, all of one rank value. *)
Lemma card_dict_single (cards : list Z) :
  length (card_dict_of cards) = 1%nat <->
  cards <> [] /\
  forall c c', In c cards -> In c' cards -> card_value c = card_value c'.
Proof.
  split.
  - intros Hone.
    destruct (card_dict_of cards) as [|[k x] [|? ?]] eqn:Hd; try discriminate.
    assert (Hk : forall c, In c cards -> card_value c = k).
    { intros c Hc.
      assert (Hin : In (card_value c) (map fst (card_dict_of cards)))
        by (apply SequenceFacts.card_dict_keys, in_map, Hc).
      rewrite Hd in Hin. simpl in Hin. intuition. }
    split; [intros ->; discriminate|].
    intros c c' Hc Hc'. now rewrite (Hk c), (Hk c').
  - intros [Hne Hsame]. destruct cards as [|c0 cards]; [congruence|].
    pose proof (SequenceFacts.card_dict_NoDup (c0 :: cards)) as Hnd.
    pose proof (SequenceFacts.card_dict_keys (c0 :: cards)) as Hkeys.
    assert (Hincl : incl (map fst (card_dict_of (c0 :: cards))) [card_value c0]).
    { intros k Hk. apply Hkeys, in_map_iff in Hk. destruct Hk as (c & <- & Hc).
      left. apply Hsame; [now left|assumption]. }
    pose proof (NoDup_incl_length Hnd Hincl) as Hle.
    rewrite length_map in Hle. simpl in Hle.
    assert (Hin : In (card_value c0) (map fst (card_dict_of (c0 :: cards))))
      by (apply Hkeys; now left).
    destruct (card_dict_of (c0 :: cards)); [destruct Hin|simpl in *; lia].
Qed.

(** The run [find_max_sequence] selects: one of the runs, and as long as
    any of them. *)
Lemma find_max_sequence_selected (cards : list Z) :
  cards <> [] -> length (card_dict_of cards) <> 1%nat ->
  exists run,
    In run (runs_of (sorted_entries cards)) /\
    (forall r, In r (runs_of (sorted_entries cards)) ->
               (length r <= length run)%nat) /\
    slice_last 5 run <> [] /\
    find_max_sequence cards = Ok [map fst (slice_last 5 run);
                                  map snd (slice_last 5 run)].
Proof.
  intros Hcards Hlen. rewrite find_max_sequence_stages.
  apply Nat.eqb_neq in Hlen. rewrite Hlen.
  assert (Hne : sorted_entries cards <> []).
  { destruct cards as [|c cards]; [congruence|].
    assert (Hin : In (card_value c) (map fst (sorted_entries (c :: cards)))).
    { apply sorted_entries_has_value. left. now left. }
    intros E. rewrite E in Hin. destruct Hin. }
  destruct (getitem_first_ex _ Hne) as (first & ->). cbn [bind].
  set (runs := runs_of (sorted_entries cards)).
  assert (Hruns : runs <> []).
  { unfold runs, runs_of. destruct (sorted_entries cards); [congruence|].
    apply SequenceFacts.split_runs_nonempty. }
  set (le_len := by_key (fun s : list (Z * Z) => Z.of_nat (length s)) false).
  pose proof (SortFacts.sorted_by_key (fun s : list (Z * Z) => Z.of_nat (length s))
                false runs) as Hs.
  fold le_len in Hs.
  pose proof (PyFacts.sorted_In le_len runs) as Hin.
  destruct (exists_last (PyFacts.sorted_nonempty le_len runs Hruns))
    as (l & run & E).
  rewrite E in *. rewrite PyFacts.getitem_last. cbn [bind].
  assert (Hrun : In run runs) by (apply Hin, in_or_app; right; now left).
  assert (Hrunne : slice_last 5 run <> []).
  { pose proof (runs_of_maximal _ (sorted_entries_strict cards)) as Hmax.
    rewrite Forall_forall in Hmax. destruct (Hmax run Hrun) as (a & n & Ha & _).
    assert (Hl : length run = S n).
    { rewrite <- (length_map fst), Ha. apply SequenceFacts.consecutive_length. }
    intros E0. apply (f_equal (@length _)) in E0.
    unfold slice_last in E0. rewrite length_skipn in E0. simpl in E0. lia. }
  exists run. split; [assumption|]. split; [|split; [assumption|]].
  - intros r Hr. apply Hin, in_app_or in Hr. destruct Hr as [Hr|[<-|[]]]; [|lia].
    pose proof (SortFacts.StronglySorted_last _ _ _ Hs _ Hr) as H.
    unfold ordered in H. lia.
  - now rewrite SequenceFacts.zip_star_rows.
Qed.

End RunFacts.

(** X5: [find_max_sequence] raises only [IndexError], and only on the
    empty list; it returns the empty list exactly when the cards, at
    least one, all have one rank value; it returns two rows exactly
    when two of the cards differ in rank value. *)
Theorem find_max_sequence_cases (cards : list Z) :
  (forall e, find_max_sequence cards = Raise e <-> cards = [] /\ e = IndexError) /\
  (find_max_sequence cards = Ok [] <->
   cards <> [] /\
   forall c c', In c cards -> In c' cards -> card_value c = card_value c') /\
  ((exists c c', In c cards /\ In c' cards /\ card_value c <> card_value c') <->
   exists values ids, find_max_sequence cards = Ok [values; ids]).
Proof.
  destruct cards as [|c0 cards].
  - split; [|split].
    + intros e. split; [intros [= <-]; auto|intros [_ ->]; reflexivity].
    + split; [discriminate|intros [H _]; congruence].
    + split; [intros (c & _ & [] & _)|intros (v & i & H); discriminate].
  - assert (Hne : c0 :: cards <> []) by discriminate.
    destruct (Nat.eq_dec (length (card_dict_of (c0 :: cards))) 1) as [Hone|Hmany].
    + assert (E : find_max_sequence (c0 :: cards) = Ok []).
      { rewrite SequenceFacts.find_max_sequence_unfold.
        apply Nat.eqb_eq in Hone. now rewrite Hone. }
      rewrite E. apply RunFacts.card_dict_single in Hone.
      split; [|split].
      * intros e. split; [discriminate|intros [H _]; discriminate].
      * tauto.
      * split; [|intros (v & i & H); discriminate].
        intros (c & c' & Hc & Hc' & Hv). destruct Hone as [_ Hsame].
        destruct Hv. now apply Hsame.
    + destruct (SequenceFacts.find_max_sequence_spec _ Hne Hmany)
        as (a & m & ids & _ & _ & _ & _ & E).
      rewrite E. split; [|split].
      * intros e. split; [discriminate|intros [H _]; discriminate].
      * split; [discriminate|]. intros H. apply RunFacts.card_dict_single in H.
        contradiction.
      * split; [eauto|]. intros _.
        destruct (in_dec Z.eq_dec (card_value c0) (map card_value cards)) as [Hin|Hin].
        -- destruct (Forall_Exists_dec (fun c => card_value c = card_value c0)
                       (fun c => Z.eq_dec (card_value c) (card_value c0)) cards)
             as [Hall|Hex].
           ++ exfalso. apply Hmany, RunFacts.card_dict_single.
              split; [assumption|]. rewrite Forall_forall in Hall.
              intros c c' [<-|Hc] [<-|Hc']; auto.
              ** symmetry. auto.
              ** rewrite (Hall c), (Hall c'); auto.
           ++ apply Exists_exists in Hex. destruct Hex as (c & Hc & Hv).
              exists c, c0. split; [now right|]. split; [now left|assumption].
        -- destruct cards as [|c1 cards].
           ++ exfalso. apply Hmany. reflexivity.
           ++ exists c0, c1. split; [now left|]. split; [right; now left|].
              intros E'. apply Hin. left. now symmetry.
Qed.

Lemma find_max_sequence_two_rows (cards values ids : list Z) :
  find_max_sequence cards = Ok [values; ids] ->
  cards <> [] /\ length (card_dict_of cards) <> 1%nat.
Proof.
  intros H. split.
  - intros ->. discriminate.
  - intros Hone. rewrite SequenceFacts.find_max_sequence_unfold in H.
    apply Nat.eqb_eq in Hone. rewrite Hone in H. discriminate.
Qed.

Lemma rows_spec (cards values ids : list Z) :
  find_max_sequence cards = Ok [values; ids] ->
  (1 <= length values <= 5)%nat /\
  (exists a, 0 <= a /\ a + Z.of_nat (length values) <= 14 /\
             values = consecutive a (length values)) /\
  Forall2 (stands_for cards) values ids.
Proof.
  intros H. destruct (find_max_sequence_two_rows _ _ _ H) as [Hne Hmany].
  destruct (SequenceFacts.find_max_sequence_run cards Hne Hmany)
    as (a & r & Ha & Hlen & _ & Hrun & Hentry & E).
  rewrite E in H. injection H as <- <-. rewrite length_map.
  split; [assumption|]. split.
  - exists a. split; [assumption|]. split; [|assumption].
    destruct (exists_last (l := r)) as (r' & x & Hr);
      [destruct r; [simpl in Hlen; lia|discriminate]|].
    assert (Hx : In x r) by (rewrite Hr; apply in_or_app; right; now left).
    assert (Hfst : fst x = a + Z.of_nat (length r) - 1).
    { rewrite Hr in Hrun. rewrite map_app, length_app, Nat.add_comm in Hrun.
      change (length [x] + length r')%nat with (S (length r')) in Hrun.
      simpl map in Hrun. rewrite <- SequenceFacts.consecutive_snoc in Hrun.
      apply app_inj_tail in Hrun. destruct Hrun as [_ Hx'].
      rewrite Hr, length_app, Nat.add_comm. simpl length. lia. }
    destruct (Hentry x Hx) as [_ [Hv|[Hv _]]];
      [pose proof (card_value_range (snd x))|]; lia.
  - clear Hrun Hlen E. induction r as [|x r IH]; simpl; constructor.
    + exact (Hentry x (or_introl eq_refl)).
    + apply IH. intros y Hy. apply Hentry. now right.
Qed.

(** X6: the two rows [find_max_sequence] returns have the same length,
    between one and five; the values are consecutive integers from
    some [a >= 0] on, up to 13 at most, and never hold both 0 and 13;
    each id is a card of the hand that has the value above it, or is
    an ace under the value 0. *)
Theorem find_max_sequence_rows (cards values ids : list Z) :
  find_max_sequence cards = Ok [values; ids] ->
  (1 <= length values <= 5)%nat /\
  (exists a, 0 <= a /\ a + Z.of_nat (length values) <= 14 /\
             values = consecutive a (length values)) /\
  ~ (In 0 values /\ In 13 values) /\
  Forall2 (stands_for cards) values ids.
Proof.
  intros H. destruct (rows_spec _ _ _ H) as (Hlen & (a & Ha & Htop & E) & Hentries).
  split; [assumption|]. split; [eauto|]. split; [|assumption].
  rewrite E. intros [H0 H13].
  apply FiveCards.consecutive_In in H0, H13. lia.
Qed.

Lemma find_max_sequence_rows_witness :
  (1 <= length [0; 1; 2] <= 5)%nat.
Proof.
  exact (proj1 (find_max_sequence_rows [0; 10; 14; 23; 28] [0; 1; 2] [0; 14; 28]
                  eq_refl)).
Defined.

Lemma longest_run (cards values ids : list Z) (a : Z) (n : nat) :
  find_max_sequence cards = Ok [values; ids] ->
  (forall v, In v (consecutive a n) -> has_value cards v) ->
  (Nat.min n 5 <= length values)%nat.
Proof.
  intros H Hblock. destruct (find_max_sequence_two_rows _ _ _ H) as [Hne Hmany].
  destruct (RunFacts.find_max_sequence_selected cards Hne Hmany)
    as (run & Hrun & Hlongest & _ & E).
  rewrite E in H. injection H as <- _.
  rewrite length_map. unfold Py.slice_last. rewrite length_skipn.
  enough (n <= length run)%nat by lia.
  destruct n as [|n]; [lia|].
  assert (Ha : In a (map fst (sorted_entries cards))).
  { apply RunFacts.sorted_entries_has_value, Hblock. now left. }
  rewrite <- (RunFacts.runs_of_concat (sorted_entries cards)) in Ha.
  apply in_map_iff in Ha. destruct Ha as (x & Hx & Hin).
  apply in_concat in Hin. destruct Hin as (r & Hr & Hxr).
  pose proof (RunFacts.runs_of_maximal _ (RunFacts.sorted_entries_strict cards)) as Hmax.
  rewrite Forall_forall in Hmax.
  pose proof (RunFacts.block_in_run _ r a (S n) (Hmax r Hr)) as Hb.
  specialize (Hlongest r Hr).
  enough (S n <= length r)%nat by lia.
  apply Hb.
  - intros v Hv. apply RunFacts.sorted_entries_has_value, Hblock, Hv.
  - rewrite <- Hx. apply in_map, Hxr.
Qed.

(** X7: no run is missed.  When the rank values of the hand, with 0
    for an ace, include [n] consecutive integers, the row of values
    returned has at least [min n 5] entries; so five consecutive values
    always give a row of five. *)
Theorem find_max_sequence_longest (cards values ids : list Z) (a : Z) (n : nat) :
  find_max_sequence cards = Ok [values; ids] ->
  (forall v, In v (consecutive a n) -> has_value cards v) ->
  (Nat.min n 5 <= length values)%nat.
Proof. apply longest_run. Qed.

Lemma find_max_sequence_longest_witness :
  (Nat.min 5 5 <= length [9; 10; 11; 12; 13])%nat.
Proof.
  apply (find_max_sequence_longest [38; 24; 10; 9; 0] [9; 10; 11; 12; 13]
           [9; 10; 24; 38; 0] 9 5 eq_refl).
  intros v Hv. left. simpl in Hv |- *. intuition.
Defined.

Lemma same_values_same_rows (h h' : list Z) :
  (forall v, In v (map card_value h) <-> In v (map card_value h')) ->
  same_rows (find_max_sequence h) (find_max_sequence h').
Proof.
  intros Hv.
  assert (Hlen : length (card_dict_of h) = length (card_dict_of h')).
  { rewrite <- !(length_map fst). apply Permutation_length.
    apply NoDup_Permutation; try apply SequenceFacts.card_dict_NoDup.
    intros k. now rewrite !SequenceFacts.card_dict_keys. }
  assert (Hfst : map fst (sorted_entries h) = map fst (sorted_entries h')).
  { apply (RunFacts.strict_sorted_unique Z.lt); [lia| | |];
      try apply RunFacts.sorted_entries_strict.
    intros v. rewrite !RunFacts.sorted_entries_has_value. unfold has_value.
    now rewrite !Hv. }
  rewrite !RunFacts.find_max_sequence_stages, <- Hlen.
  destruct (length (card_dict_of h) =? 1)%nat; [exact I|].
  destruct (sorted_entries h) as [|first rest],
    (sorted_entries h') as [|first' rest']; try discriminate Hfst.
  { rewrite !PyFacts.getitem_nil. reflexivity. }
  rewrite !PyFacts.getitem_first. cbn [bind runs_of].
  injection Hfst as Hfirst Hrest.
  set (le_len := Py.by_key (fun s : list (Z * Z) => Z.of_nat (length s)) false).
  set (le_len' := Py.by_key (fun s : list Z => Z.of_nat (length s)) false).
  assert (Hle : forall x y : list (Z * Z),
             le_len' (map fst x) (map fst y) = le_len x y).
  { intros x y. unfold le_len, le_len', Py.by_key. now rewrite !length_map. }
  pose proof (ValueFacts.split_runs_values first first' rest rest' [first] [first'] [] []
                Hfirst Hrest ltac:(simpl; now rewrite Hfirst) eq_refl) as Hruns.
  pose proof (PyFacts.getitem_map (map fst)
                (Py.sorted le_len (split_runs first rest [first] [])) (-1)) as G.
  pose proof (PyFacts.getitem_map (map fst)
                (Py.sorted le_len (split_runs first' rest' [first'] [])) (-1)) as G'.
  rewrite (PyFacts.sorted_map (map fst) le_len le_len' _ Hle) in G.
  rewrite (PyFacts.sorted_map (map fst) le_len le_len' _ Hle) in G'.
  rewrite Hruns, G' in G.
  destruct (Py.getitem (Py.sorted le_len (split_runs first rest [first] [])) (-1))
    as [run|e],
    (Py.getitem (Py.sorted le_len (split_runs first' rest' [first'] [])) (-1))
    as [run'|e']; simpl in G; try discriminate G; cbn [bind].
  - injection G as G. apply (f_equal (Py.slice_last 5)) in G.
    rewrite <- !PyFacts.slice_last_map in G.
    destruct (Py.slice_last 5 run) as [|x r], (Py.slice_last 5 run') as [|x' r'];
      try discriminate G; simpl; [exact I|].
    simpl in G. congruence.
  - simpl. congruence.
Qed.

(** X8: the row of values [find_max_sequence] returns depends only on
    which rank values occur in the hand: not on the order of the cards,
    on their number or on their suits. *)
Theorem find_max_sequence_by_values (h h' : list Z) :
  (forall v, In v (map card_value h) <-> In v (map card_value h')) ->
  same_rows (find_max_sequence h) (find_max_sequence h').
Proof. apply same_values_same_rows. Qed.

Lemma find_max_sequence_by_values_witness :
  same_rows (find_max_sequence [0; 1; 2; 3; 4; 17]) (find_max_sequence [17; 0; 1; 2; 3; 4]).
Proof.
  apply find_max_sequence_by_values. intros v. simpl. intuition.
Defined.

(** ** The two most common values *)

Module TopTwo.
Import Py.

Lemma StronglySorted_app_cross {A : Type} (R : A -> A -> Prop) (l1 l2 : list A) :
  StronglySorted R (l1 ++ l2) ->
  forall x y, In x l1 -> In y l2 -> R x y.
Proof.
  induction l1 as [|z l1 IH]; simpl; intros H x y Hx Hy; [destruct Hx|].
  inversion H as [|? ? Hl Hz]; subst. destruct Hx as [<-|Hx]; [|eauto].
  rewrite Forall_forall in Hz. apply Hz, in_or_app. now right.
Qed.

Lemma Counter_keys (l : list Z) (k : Z) : In k (map fst (Counter l)) <-> In k l.
Proof.
  rewrite in_map_iff. split.
  - intros ([k' n] & <- & H). now apply DictFacts.Counter_In in H.
  - intros H. exists (k, occurrences l k). split; [reflexivity|].
    now apply DictFacts.Counter_In.
Qed.

Lemma Counter_length (l : list Z) :
  length (Counter l) = length (nodup Z.eq_dec l).
Proof.
  rewrite <- (length_map fst). apply Permutation_length, NoDup_Permutation.
  - apply DictFacts.Counter_NoDup.
  - apply NoDup_nodup.
  - intros k. now rewrite Counter_keys, nodup_In.
Qed.

Lemma top_two_length (hand : list Z) :
  length (top_two hand)
  = Nat.min 2 (length (nodup Z.eq_dec (map card_value hand))).
Proof.
  unfold top_two, most_common.
  now rewrite length_firstn, PyFacts.sorted_length, Counter_length.
Qed.

(** A value left out of the two most common ones occurs no more often
    than either of them. *)
Lemma top_two_dominates (hand : list Z) (k n v : Z) :
  In (k, n) (top_two hand) ->
  In v (map card_value hand) -> ~ In v (map fst (top_two hand)) ->
  occurrences (map card_value hand) v <= n.
Proof.
  unfold top_two, most_common. intros Hk Hv Hnot.
  set (c := Counter (map card_value hand)) in *.
  pose proof (SortFacts.sorted_by_key snd true c) as Hs.
  rewrite <- (firstn_skipn 2 (sorted (by_key snd true) c)) in Hs.
  assert (Hin : In (v, occurrences (map card_value hand) v)
                   (sorted (by_key snd true) c)).
  { apply PyFacts.sorted_In. now apply DictFacts.Counter_In. }
  rewrite <- (firstn_skipn 2 (sorted (by_key snd true) c)) in Hin.
  apply in_app_or in Hin. destruct Hin as [Hin|Hin].
  - exfalso. apply Hnot. apply in_map_iff. now exists (v, occurrences (map card_value hand) v).
  - apply (StronglySorted_app_cross _ _ _ Hs _ _ Hk Hin).
Qed.

Lemma group_duplicates_In (hand : list Z) (n k : Z) :
  In k (dd_get (group_duplicates hand) n) <->
  In k (map fst (top_two hand)) /\ occurrences (map card_value hand) k = n.
Proof.
  rewrite GroupFacts.group_duplicates_get.
  destruct (GroupFacts.top_two_facts hand) as (_ & _ & Hfacts).
  rewrite !in_map_iff. split.
  - intros ([k' c] & <- & H). apply filter_In in H. destruct H as [H Hc].
    simpl in *. apply Z.eqb_eq in Hc. split; [now exists (k', c)|].
    destruct (Hfacts _ _ H) as [_ E]. congruence.
  - intros [([k' c] & <- & H) Hn]. exists (k', c). split; [reflexivity|].
    apply filter_In. split; [assumption|]. simpl in *.
    destruct (Hfacts _ _ H) as [_ E]. apply Z.eqb_eq. congruence.
Qed.

Lemma occurrences_three (l : list Z) (a b c : Z) :
  a <> b -> a <> c -> b <> c ->
  occurrences l a + occurrences l b + occurrences l c <= Z.of_nat (length l).
Proof.
  intros Hab Hac Hbc. unfold occurrences.
  induction l as [|x l IH]; simpl; [lia|].
  destruct (Z.eq_dec x a), (Z.eq_dec x b), (Z.eq_dec x c); subst;
    try congruence; lia.
Qed.

(** A value on more than a third of the cards is among the two most
    common ones: three values occurring that often do not fit in the
    hand. *)
Lemma top_two_complete (hand : list Z) (k : Z) :
  In k (map card_value hand) ->
  Z.of_nat (length hand) < 3 * occurrences (map card_value hand) k ->
  In k (map fst (top_two hand)).
Proof.
  intros Hk Hocc.
  destruct (in_dec Z.eq_dec k (map fst (top_two hand))) as [|Hnot]; [assumption|].
  exfalso.
  destruct (GroupFacts.top_two_facts hand) as (Hnd & _ & Hfacts).
  pose proof (top_two_length hand) as Hlen.
  assert (Hnk : In k (nodup Z.eq_dec (map card_value hand))) by now apply nodup_In.
  destruct (top_two hand) as [|[a na] [|[b nb] rest]] eqn:Htop.
  - destruct (nodup Z.eq_dec (map card_value hand)); [destruct Hnk|discriminate].
  - destruct (nodup Z.eq_dec (map card_value hand)) as [|x [|y ?]] eqn:E;
      try discriminate.
    destruct Hnk as [<-|[]].
    destruct (Hfacts a na (or_introl eq_refl)) as [Ha _].
    apply (nodup_In Z.eq_dec) in Ha. rewrite E in Ha. destruct Ha as [<-|[]].
    apply Hnot. now left.
  - destruct (Hfacts a na (or_introl eq_refl)) as [_ Ea].
    destruct (Hfacts b nb (or_intror (or_introl eq_refl))) as [_ Eb].
    pose proof (top_two_dominates hand a na k) as Da.
    pose proof (top_two_dominates hand b nb k) as Db.
    rewrite Htop in Da, Db.
    specialize (Da (or_introl eq_refl) Hk Hnot).
    specialize (Db (or_intror (or_introl eq_refl)) Hk Hnot).
    assert (Hab : a <> b).
    { inversion Hnd as [|? ? Hx _]; subst. simpl in Hx. intuition. }
    assert (Hak : a <> k) by (intros ->; apply Hnot; now left).
    assert (Hbk : b <> k) by (intros ->; apply Hnot; right; now left).
    pose proof (occurrences_three (map card_value hand) a b k Hab Hak Hbk) as H3.
    rewrite length_map in H3. lia.
Qed.

End TopTwo.

(** X9: [group_duplicates] files at most two rank values, the ones
    [most_common(2)] keeps: two when the hand has two different values,
    and no value left out occurs more often than one that is kept;
    [groups[n]] lists, without repetition, those of the two that occur
    exactly [n] times. *)
Theorem group_duplicates_spec (hand : list Z) :
  exists top,
    NoDup top /\
    length top = Nat.min 2 (length (nodup Z.eq_dec (map card_value hand))) /\
    (forall k, In k top -> In k (map card_value hand)) /\
    (forall k v, In k top -> In v (map card_value hand) -> ~ In v top ->
                 occurrences (map card_value hand) v
                 <= occurrences (map card_value hand) k) /\
    (forall n k, In k (Py.dd_get (group_duplicates hand) n) <->
                 In k top /\ occurrences (map card_value hand) k = n) /\
    (forall n, NoDup (Py.dd_get (group_duplicates hand) n)).
Proof.
  exists (map fst (top_two hand)).
  destruct (GroupFacts.top_two_facts hand) as (Hnd & _ & Hfacts).
  split; [assumption|]. split; [|split; [|split; [|split]]].
  - rewrite length_map. apply TopTwo.top_two_length.
  - intros k Hk. apply in_map_iff in Hk. destruct Hk as ([k' n] & <- & H).
    apply (Hfacts _ _ H).
  - intros k v Hk Hv Hnot. apply in_map_iff in Hk.
    destruct Hk as ([k' n] & <- & H). simpl.
    rewrite <- (proj2 (Hfacts _ _ H)).
    now apply (TopTwo.top_two_dominates hand k' n v).
  - intros n k. apply TopTwo.group_duplicates_In.
  - intros n. apply (GroupFacts.group_facts hand n).
Qed.

Lemma group_duplicates_spec_witness :
  exists top,
    top = [13; 12] /\
    forall n k, In k (Py.dd_get (group_duplicates [0; 13; 26; 12; 51]) n) <->
                In k top /\ occurrences (map card_value [0; 13; 26; 12; 51]) k = n.
Proof.
  destruct (group_duplicates_spec [0; 13; 26; 12; 51])
    as (top & Hnd & Hlen & Hin & Hdom & Hget & _).
  exists [13; 12]. split; [reflexivity|]. intros n k. rewrite Hget.
  assert (H13 : In 13 top).
  { apply (Hget 3 13). simpl. auto. }
  assert (H12 : In 12 top).
  { apply (Hget 2 12). simpl. auto. }
  split; intros [Hk Hn]; (split; [|assumption]).
  - specialize (Hin k Hk). simpl in Hin |- *. intuition.
  - destruct Hk as [<-|[<-|[]]]; assumption.
Defined.

(** X10: a rank value that is on more than a third of the cards is
    always filed, in the group of its count.  With seven cards this
    covers every three and four of a kind, with five cards every pair
    as well. *)
Theorem group_duplicates_detects (hand : list Z) (k : Z) :
  In k (map card_value hand) ->
  Z.of_nat (length hand) < 3 * occurrences (map card_value hand) k ->
  In k (Py.dd_get (group_duplicates hand) (occurrences (map card_value hand) k)).
Proof.
  intros Hk Hocc. apply TopTwo.group_duplicates_In.
  split; [|reflexivity]. now apply TopTwo.top_two_complete.
Qed.

Lemma group_duplicates_detects_witness :
  In 13 (Py.dd_get (group_duplicates [0; 13; 26; 12; 51; 1; 2])
                   (occurrences (map card_value [0; 13; 26; 12; 51; 1; 2]) 13)).
Proof.
  apply group_duplicates_detects; [simpl; auto|vm_compute; reflexivity].
Defined.

(** ** The paths through the hand ranker *)

(** Every descriptor comes with the path that led to it. *)
Lemma assess_hand_inv (cards : list Z) (cat : Hand) (tb : list Z) :
  assess_hand cards = Ok (cat, tb) ->
  exists sv ids,
    find_max_sequence cards = Ok [sv; ids] /\ assess_hand_path cards sv ids cat tb.
Proof.
  unfold assess_hand. intros H.
  destruct (find_max_sequence cards) as [[|sv [|ids [|? ?]]]|]; try discriminate.
  cbn [bind Py.unpack2 fst snd] in H.
  exists sv, ids. split; [reflexivity|].
  destruct (Nat.eqb_spec (length sv) 5) as [Hsv|Hsv].
  - destruct (flush_suite ids) as [[s|]|] eqn:Hids; cbn [bind is_not_None] in H;
      try discriminate;
      walk H; try discriminate; injection H as <- <-; tidy;
      cbv beta zeta delta [assess_hand_path]; cbv match;
      repeat match goal with
             | |- _ /\ _ => split
             | |- exists _, _ => eexists
             end; try eassumption; try reflexivity; try congruence.
  - cbn [bind] in H.
    walk H; try discriminate; injection H as <- <-; tidy;
      cbv beta zeta delta [assess_hand_path]; cbv match;
      repeat match goal with
             | |- _ /\ _ => split
             | |- exists _, _ => eexists
             end; try eassumption; try reflexivity; try congruence;
      try (apply Nat.eqb_neq; assumption).
Qed.

Module PathFacts.
Import Py.

Lemma truthy_false {A : Type} (l : list A) : truthy l = false -> l = [].
Proof. now destruct l. Qed.

Lemma getitem_first_inv {A : Type} (l : list A) (x : A) :
  getitem l 0 = Ok x -> exists l', l = x :: l'.
Proof.
  destruct l as [|y l]; [rewrite PyFacts.getitem_nil; discriminate|].
  rewrite PyFacts.getitem_first. intros [= ->]. eauto.
Qed.

Lemma getitem_last_inv {A : Type} (l : list A) (x : A) :
  getitem l (-1) = Ok x -> exists l', l = l' ++ [x].
Proof.
  destruct l as [|y l] using rev_ind; [rewrite PyFacts.getitem_nil; discriminate|].
  rewrite PyFacts.getitem_last. intros [= ->]. eauto.
Qed.

Lemma occurrences_filter (f : Z -> Z) (l : list Z) (k : Z) :
  occurrences (map f l) k = Z.of_nat (length (filter (fun c => f c =? k) l)).
Proof.
  unfold occurrences. induction l as [|c l IH]; simpl; [reflexivity|].
  destruct (Z.eq_dec (f c) k), (Z.eqb_spec (f c) k); try congruence; simpl; lia.
Qed.

Lemma suit_count_of_suit (cards : list Z) (s : Z) :
  suit_count cards s = Z.of_nat (length (of_suit cards (Some s))).
Proof. apply occurrences_filter. Qed.

Lemma flush_suite_Some (cards : list Z) (s : Z) :
  flush_suite cards = Ok (Some s) ->
  suit_count cards s = 5 /\ forall t, suit_count cards t <= 5.
Proof.
  intros H.
  assert (Hne : cards <> []) by (intros ->; discriminate).
  destruct (flush_suite_spec cards Hne) as (k & Hmax & E).
  rewrite E in H.
  destruct (Z.eqb_spec (suit_count cards k) 5) as [E5|E5]; [|discriminate].
  injection H as <-. split; [assumption|]. intros t. rewrite <- E5. apply Hmax.
Qed.

Lemma flush_suite_None (cards : list Z) :
  flush_suite cards = Ok None -> (length cards < 11)%nat ->
  forall s, suit_count cards s <> 5.
Proof.
  intros H Hlen s Hs.
  assert (Hne : cards <> []) by (intros ->; discriminate).
  destruct (flush_suite_spec cards Hne) as (k & Hmax & E).
  rewrite E in H.
  destruct (Z.eqb_spec (suit_count cards k) 5) as [E5|E5]; [discriminate|].
  pose proof (Hmax s) as Hk.
  assert (Hsk : s <> k) by congruence.
  pose proof (occurrences_two (map card_suit cards) s k Hsk) as H2.
  rewrite length_map in H2. unfold suit_count in *. lia.
Qed.

Lemma Forall2_In_l {A B : Type} (P : A -> B -> Prop) (l : list A) (l' : list B) (x : A) :
  Forall2 P l l' -> In x l -> exists y, In y l' /\ P x y.
Proof.
  induction 1 as [|a b l l' Hab _ IH]; intros Hx; [destruct Hx|].
  destruct Hx as [<-|Hx].
  - exists b. split; [now left|assumption].
  - destruct (IH Hx) as (y & Hy & Hp). exists y. split; [now right|assumption].
Qed.

(** The values in a group are not kickers. *)
Lemma side_cards_of_group (cards : list Z) (n : Z) :
  let group := dd_get (group_duplicates cards) n in
  StronglySorted Z.gt (select_side_cards cards group) /\
  forall v, In v (select_side_cards cards group) <->
            In v (map card_value cards) /\ ~ In v group.
Proof.
  intros group. split; [apply side_cards_sorted|].
  intros v. rewrite side_cards_In. unfold group.
  now rewrite GroupFacts.group_values.
Qed.

Lemma group_single (cards : list Z) (n x : Z) (l : list Z) :
  dd_get (group_duplicates cards) n = x :: l ->
  In x (map card_value cards) /\ occurrences (map card_value cards) x = n.
Proof.
  intros E. destruct (GroupFacts.group_facts cards n) as (_ & _ & H).
  apply H. rewrite E. now left.
Qed.

(** The top value of a run of five. *)
Lemma run_of_five_top (a h : Z) :
  getitem (consecutive a 5) (-1) = Ok h -> h = a + 4.
Proof.
  rewrite <- (SequenceFacts.consecutive_snoc a 4), PyFacts.getitem_last.
  intros [= <-]. reflexivity.
Qed.

(** No value of a well-formed hand is on more than four cards. *)
Lemma well_formed_occurrences (cards : list Z) (k : Z) :
  well_formed cards -> occurrences (map card_value cards) k <= 4.
Proof.
  intros (_ & Hnd & Hrange). rewrite occurrences_filter.
  enough (length (filter (fun c => (card_value c =? k)%Z) cards) <= 4)%nat by lia.
  apply (same_value_at_most_four _ k).
  - now apply NoDup_filter.
  - rewrite Forall_forall in Hrange |- *. intros c Hc.
    apply filter_In in Hc. now apply Hrange.
  - intros c Hc. apply filter_In in Hc. now apply Z.eqb_eq.
Qed.

(** With every group empty, no value is repeated, unless one occurs five
    times or more. *)
Lemma no_group_no_repetition (cards : list Z) :
  cards <> [] ->
  (forall n, 2 <= n <= 4 -> dd_get (group_duplicates cards) n = []) ->
  (forall k, occurrences (map card_value cards) k <= 4) ->
  NoDup (map card_value cards).
Proof.
  intros Hne Hgroups Hfour.
  apply (NoDup_count_occ Z.eq_dec). intros k.
  enough (occurrences (map card_value cards) k <= 1) by (unfold occurrences in *; lia).
  destruct (Z_le_gt_dec (occurrences (map card_value cards) k) 1) as [|Hk];
    [assumption|exfalso].
  assert (Hin : In k (map card_value cards))
    by (apply DictFacts.occurrences_pos; lia).
  destruct (in_dec Z.eq_dec k (map fst (top_two cards))) as [Htop|Htop].
  - assert (H : In k (dd_get (group_duplicates cards)
                        (occurrences (map card_value cards) k)))
      by (apply TopTwo.group_duplicates_In; auto).
    rewrite Hgroups in H; [destruct H|]. specialize (Hfour k). lia.
  - pose proof (TopTwo.top_two_length cards) as Hlen.
    destruct (top_two cards) as [|[t n] rest] eqn:E.
    + destruct (nodup Z.eq_dec (map card_value cards)) eqn:E'; [|discriminate].
      apply (nodup_In Z.eq_dec) in Hin. rewrite E' in Hin. destruct Hin.
    + pose proof (TopTwo.top_two_dominates cards t n k) as Hdom.
      rewrite E in Hdom. specialize (Hdom (or_introl eq_refl) Hin Htop).
      destruct (GroupFacts.top_two_facts cards) as (_ & _ & Hfacts).
      rewrite E in Hfacts. destruct (Hfacts t n (or_introl eq_refl)) as [Ht Hn].
      assert (H : In t (dd_get (group_duplicates cards) n)).
      { apply TopTwo.group_duplicates_In. rewrite E. split; [now left|auto]. }
      rewrite Hgroups in H; [destruct H|]. specialize (Hfour t). lia.
Qed.

End PathFacts.

(** X11: the descriptors of the n-of-a-kind categories name values
    that occur that often: [FOUR] a value on four cards, [FULL_HOUSE] a
    value on three and a value on two, [THREE] a value on three,
    [TWO_PAIR] two values on two cards each, the higher one first,
    [PAIR] a value on two.  The kickers that follow are the highest
    rank values of the hand outside the group, the highest first: one
    for [FOUR] and [TWO_PAIR], up to two for [THREE], up to three for
    [PAIR]. *)
Theorem assess_hand_of_a_kind (cards : list Z) (cat : Hand) (tb : list Z) :
  assess_hand cards = Ok (cat, tb) ->
  let occ := occurrences (map card_value cards) in
  let group := Py.dd_get (group_duplicates cards) in
  match cat with
  | FOUR =>
      exists q k, tb = [q; k] /\ occ q = 4 /\ kickers_of cards (group 4) 1 [k]
  | FULL_HOUSE =>
      exists t p, tb = [t; p] /\ occ t = 3 /\ occ p = 2
  | THREE =>
      exists t ks, tb = t :: ks /\ occ t = 3 /\ kickers_of cards (group 3) 2 ks
  | TWO_PAIR =>
      exists high low k,
        tb = [high; low; k] /\ occ high = 2 /\ occ low = 2 /\ low < high /\
        kickers_of cards [high; low] 1 [k]
  | PAIR =>
      exists p ks, tb = p :: ks /\ occ p = 2 /\ kickers_of cards [p] 3 ks
  | _ => True
  end.
Proof.
  intros H occ group.
  destruct (assess_hand_inv _ _ _ H) as (sv & ids & _ & Hpath).
  unfold assess_hand_path in Hpath. fold group in Hpath.
  destruct cat; try exact I.
  - (* PAIR *)
    destruct Hpath as (_ & _ & _ & _ & Hlen & p & Hp & ->).
    apply PathFacts.getitem_first_inv in Hp. destruct Hp as (l & E).
    rewrite E in Hlen. destruct l; [|discriminate].
    destruct (PathFacts.group_single _ _ _ _ E) as [_ Hocc].
    exists p, (firstn 3 (select_side_cards cards (group 2))).
    split; [reflexivity|]. split; [assumption|].
    exists (select_side_cards cards (group 2)). split; [reflexivity|].
    destruct (PathFacts.side_cards_of_group cards 2) as [Hs Hin].
    split; [assumption|]. intros v. fold group in Hin. now rewrite Hin, E.
  - (* TWO_PAIR *)
    destruct Hpath as (_ & _ & _ & _ & Hlen & high & low & k & Hhigh & Hlow & Hk & ->).
    destruct (group 2) as [|x [|y [|? ?]]] eqn:E; try discriminate.
    destruct (GroupFacts.group_facts cards 2) as (Hnd & _ & Hocc).
    fold group in Hnd, Hocc. rewrite E in Hnd, Hocc.
    pose proof (GroupFacts.group_values cards 2) as Hval.
    fold group in Hval. rewrite E in Hval. simpl in Hval.
    injection Hval as Hx Hy.
    assert (Hxy : x <> y).
    { inversion Hnd as [|? ? Hnot _]; subst. simpl in Hnot. intuition. }
    destruct (max_card_spec [x; y] None ltac:(discriminate)) as (m & Em & Hm & Hmax).
    destruct (min_card_spec [x; y] ltac:(discriminate)) as (m' & Em' & Hm' & Hmin).
    rewrite Em in Hhigh. rewrite Em' in Hlow.
    injection Hhigh as ->. injection Hlow as ->.
    simpl in Hm, Hm', Hmax, Hmin. rewrite Hx, Hy in Hm, Hm'.
    pose proof (Hmax x (or_introl eq_refl)) as M1.
    pose proof (Hmax y (or_intror (or_introl eq_refl))) as M2.
    pose proof (Hmin x (or_introl eq_refl)) as M3.
    pose proof (Hmin y (or_intror (or_introl eq_refl))) as M4.
    rewrite Hx in M1, M3. rewrite Hy in M2, M4.
    apply PathFacts.getitem_first_inv in Hk. destruct Hk as (l & Eside).
    exists high, low, k. split; [reflexivity|].
    assert (Hh : In high [x; y]) by (simpl; tauto).
    assert (Hl : In low [x; y]) by (simpl; tauto).
    split; [apply (Hocc _ Hh)|]. split; [apply (Hocc _ Hl)|].
    split; [destruct Hm as [<-|[<-|[]]], Hm' as [<-|[<-|[]]]; lia|].
    exists (select_side_cards cards [x; y]). split; [now rewrite Eside|].
    destruct (PathFacts.side_cards_of_group cards 2) as [Hs Hin].
    fold group in Hs, Hin. rewrite E in Hs, Hin.
    split; [assumption|]. intros v. rewrite Hin.
    assert (In v [x; y] <-> In v [high; low]); [|tauto].
    simpl. destruct Hm as [<-|[<-|[]]], Hm' as [<-|[<-|[]]]; intuition lia.
  - (* THREE *)
    destruct Hpath as (_ & _ & _ & _ & _ & t & Ht & ->).
    apply PathFacts.getitem_first_inv in Ht. destruct Ht as (l & E).
    destruct (PathFacts.group_single _ _ _ _ E) as [_ Hocc].
    exists t, (firstn 2 (select_side_cards cards (group 3))).
    split; [reflexivity|]. split; [assumption|].
    exists (select_side_cards cards (group 3)). split; [reflexivity|].
    apply (PathFacts.side_cards_of_group cards 3).
  - (* FULL_HOUSE *)
    destruct Hpath as (_ & _ & t & p & Ht & Hp & ->).
    apply PathFacts.getitem_first_inv in Ht, Hp.
    destruct Ht as (l & E), Hp as (l' & E').
    exists t, p. split; [reflexivity|].
    split; [apply (PathFacts.group_single _ _ _ _ E)
           |apply (PathFacts.group_single _ _ _ _ E')].
  - (* FOUR *)
    destruct Hpath as (_ & q & k & Hq & Hk & ->).
    apply PathFacts.getitem_first_inv in Hq, Hk.
    destruct Hq as (l & E), Hk as (l' & E').
    exists q, k. split; [reflexivity|].
    split; [apply (PathFacts.group_single _ _ _ _ E)|].
    exists (select_side_cards cards (group 4)). split; [now rewrite E'|].
    apply (PathFacts.side_cards_of_group cards 4).
Qed.

Lemma assess_hand_of_a_kind_witness :
  exists high low k,
    [13; 11; 7] = [high; low; k] /\
    occurrences (map card_value [0; 13; 11; 37; 7; 18; 28]) high = 2 /\
    occurrences (map card_value [0; 13; 11; 37; 7; 18; 28]) low = 2 /\
    low < high /\ kickers_of [0; 13; 11; 37; 7; 18; 28] [high; low] 1 [k].
Proof.
  exact (assess_hand_of_a_kind [0; 13; 11; 37; 7; 18; 28] TWO_PAIR [13; 11; 7] eq_refl).
Defined.

(** X12: a [FLUSH] descriptor comes from a suit that is on exactly
    five cards, no suit being on more; its tie-breaks are the rank
    values of these five cards in descending order. *)
Theorem flush_sound (cards tb : list Z) :
  assess_hand cards = Ok (FLUSH, tb) ->
  exists s,
    suit_count cards s = 5 /\ (forall t, suit_count cards t <= 5) /\
    Permutation tb (map card_value (of_suit cards (Some s))) /\
    StronglySorted Z.ge tb.
Proof.
  intros H. destruct (assess_hand_inv _ _ _ H) as (sv & ids & _ & Hpath).
  destruct Hpath as (_ & _ & s & Hs & ->).
  destruct (PathFacts.flush_suite_Some _ _ Hs) as [H5 Hmax].
  exists s. split; [assumption|]. split; [assumption|].
  destruct (sort_cards_facts cards (Some s) true) as (Hperm & Hsorted & _).
  unfold Py.slice_to. rewrite firstn_all2.
  - split; [assumption|].
    eapply SortFacts.StronglySorted_weaken; [|exact Hsorted].
    intros x y _ _. unfold ordered. lia.
  - rewrite (Permutation_length Hperm), length_map.
    rewrite PathFacts.suit_count_of_suit in H5. lia.
Qed.

Lemma flush_sound_witness :
  exists s,
    suit_count [0; 8; 12; 11; 10; 14; 28] s = 5 /\
    (forall t, suit_count [0; 8; 12; 11; 10; 14; 28] t <= 5) /\
    Permutation [13; 12; 11; 10; 8]
                (map card_value (of_suit [0; 8; 12; 11; 10; 14; 28] (Some s))) /\
    StronglySorted Z.ge [13; 12; 11; 10; 8].
Proof.
  exact (flush_sound [0; 8; 12; 11; 10; 14; 28] [13; 12; 11; 10; 8] eq_refl).
Defined.

(** X13: a [STRAIGHT] or [STRAIGHT_FLUSH] descriptor holds one value,
    the top of a run, between 4 and 13; five cards of the hand stand
    for the five values up to it, an ace for the 0 when the top is 4.
    For a [STRAIGHT_FLUSH] these five cards are of one suit; for a
    [STRAIGHT], [flush_suite] finds no flush in the hand. *)
Theorem straight_sound (cards : list Z) (cat : Hand) (tb : list Z) :
  assess_hand cards = Ok (cat, tb) ->
  cat = STRAIGHT \/ cat = STRAIGHT_FLUSH ->
  exists high ids,
    tb = [high] /\ 4 <= high <= 13 /\
    Forall2 (stands_for cards) (consecutive (high - 4) 5) ids /\
    (cat = STRAIGHT_FLUSH ->
     exists s, forall id, In id ids -> card_suit id = s) /\
    (cat = STRAIGHT -> flush_suite cards = Ok None).
Proof.
  intros H Hcat. destruct (assess_hand_inv _ _ _ H) as (sv & ids & Hfind & Hpath).
  destruct (rows_spec _ _ _ Hfind) as (_ & (a & Ha & Htop & Esv) & Hrows).
  assert (Hcommon : length sv = 5%nat ->
                    forall h, Py.getitem sv (-1) = Ok h ->
                    4 <= h <= 13 /\
                    Forall2 (stands_for cards) (consecutive (h - 4) 5) ids).
  { intros Hlen h Hh. rewrite Hlen in Esv, Htop. rewrite Esv in Hh.
    apply PathFacts.run_of_five_top in Hh. subst h.
    replace (a + 4 - 4) with a by lia. rewrite <- Esv.
    split; [lia|exact Hrows]. }
  destruct Hcat as [-> | ->].
  - destruct Hpath as (_ & _ & Hnone & Hlen & h & Hh & ->).
    destruct (Hcommon Hlen h Hh) as [Hrange Hall].
    exists h, ids. split; [reflexivity|]. split; [assumption|].
    split; [assumption|]. split; [discriminate|auto].
  - destruct Hpath as (Hlen & s & h & Hs & Hh & ->).
    destruct (Hcommon Hlen h Hh) as [Hrange Hall].
    exists h, ids. split; [reflexivity|]. split; [assumption|].
    split; [assumption|]. split; [|discriminate].
    intros _. exists s.
    assert (Hids : length ids = 5%nat).
    { rewrite <- (Forall2_length Hrows). exact Hlen. }
    destruct (FiveCards.flush_suite_five ids Hids) as (o & Ho & _ & Hsuit).
    rewrite Hs in Ho. injection Ho as <-. specialize (Hsuit s eq_refl).
    intros id Hid.
    apply (FiveCards.occurrences_full (map card_suit ids) s).
    + rewrite length_map, Hids. exact Hsuit.
    + now apply in_map.
Qed.

Lemma straight_sound_witness :
  exists high ids,
    [13] = [high] /\ 4 <= high <= 13 /\
    Forall2 (stands_for [0; 9; 12; 11; 10; 27; 28]) (consecutive (high - 4) 5) ids /\
    (STRAIGHT_FLUSH = STRAIGHT_FLUSH ->
     exists s, forall id, In id ids -> card_suit id = s) /\
    (STRAIGHT_FLUSH = STRAIGHT -> flush_suite [0; 9; 12; 11; 10; 27; 28] = Ok None).
Proof.
  exact (straight_sound [0; 9; 12; 11; 10; 27; 28] STRAIGHT_FLUSH [13] eq_refl
           (or_intror eq_refl)).
Defined.

(** X14: a hand whose rank values, with 0 for an ace, include five
    consecutive integers is never ranked below [STRAIGHT]. *)
Theorem straight_complete (cards : list Z) (cat : Hand) (tb : list Z) (a : Z) :
  assess_hand cards = Ok (cat, tb) ->
  (forall v, In v (consecutive a 5) -> has_value cards v) ->
  5 <= Hand_value cat.
Proof.
  intros H Hrun. destruct (assess_hand_inv _ _ _ H) as (sv & ids & Hfind & Hpath).
  pose proof (longest_run cards sv ids a 5 Hfind Hrun) as Hlong.
  destruct (rows_spec _ _ _ Hfind) as (Hlen & _).
  assert (Hfive : (length sv =? 5)%nat = true) by (apply Nat.eqb_eq; simpl in Hlong; lia).
  destruct cat; simpl; try lia;
    cbv beta iota zeta delta [assess_hand_path] in Hpath;
    decompose [and] Hpath; congruence.
Qed.

Lemma straight_complete_witness :
  5 <= Hand_value STRAIGHT.
Proof.
  apply (straight_complete [0; 22; 12; 11; 10; 14; 28] STRAIGHT [13] 9 eq_refl).
  intros v Hv. left. simpl in Hv |- *. intuition.
Defined.

(** X15: on five to seven different cards of the deck a [HIGH_CARD]
    descriptor means what it says: no two cards have the same rank
    value, no suit is on exactly five cards, no five rank values are
    consecutive; its tie-breaks are the five highest rank values, in
    strictly descending order. *)
Theorem high_card_sound (cards tb : list Z) :
  well_formed cards ->
  assess_hand cards = Ok (HIGH_CARD, tb) ->
  NoDup (map card_value cards) /\
  (forall s, suit_count cards s <> 5) /\
  (forall a, ~ forall v, In v (consecutive a 5) -> has_value cards v) /\
  length tb = 5%nat /\ StronglySorted Z.gt tb /\
  (forall k, In k tb -> In k (map card_value cards)) /\
  (forall k v, In k tb -> In v (map card_value cards) -> ~ In v tb -> v < k).
Proof.
  intros Hwf H.
  destruct (assess_hand_inv _ _ _ H) as (sv & ids & Hfind & Hpath).
  destruct Hpath as (H4 & Hflush & Hstraight & H3 & H22 & H21 & ->).
  pose proof Hwf as (Hlen & Hnd & Hrange).
  assert (Hne : cards <> []) by (intros ->; simpl in Hlen; lia).
  assert (Hvalues : NoDup (map card_value cards)).
  { apply PathFacts.no_group_no_repetition; [assumption| |].
    - intros n Hn.
      assert (Hcases : n = 2 \/ n = 3 \/ n = 4) by lia.
      destruct Hcases as [-> |[-> | ->]].
      + destruct (GroupFacts.group_facts cards 2) as (_ & Hle & _).
        destruct (Py.dd_get (group_duplicates cards) 2) as [|? [|? [|? ?]]];
          simpl in *; try reflexivity; try congruence; lia.
      + now apply PathFacts.truthy_false.
      + now apply PathFacts.truthy_false.
    - intros k. now apply PathFacts.well_formed_occurrences. }
  split; [assumption|]. split.
  { apply PathFacts.flush_suite_None; [assumption|lia]. }
  split.
  { intros a Hrun.
    pose proof (longest_run cards sv ids a 5 Hfind Hrun) as Hlong.
    destruct (rows_spec _ _ _ Hfind) as (Hsv & _).
    apply Nat.eqb_neq in Hstraight. simpl in Hlong. lia. }
  destruct (sort_cards_facts cards None true) as (Hperm & Hsorted & _).
  simpl of_suit in Hperm.
  set (s := sort_cards cards None true true) in *.
  assert (Hs : NoDup s) by (apply (Permutation_NoDup (Permutation_sym Hperm) Hvalues)).
  pose proof (SortFacts.sorted_NoDup_strict true s Hsorted Hs) as Hstrict.
  apply (SortFacts.StronglySorted_weaken _ Z.gt) in Hstrict;
    [|intros x y _ _; unfold ordered; lia].
  unfold Py.slice_to. rewrite <- (firstn_skipn 5 s) in Hstrict.
  split; [|split; [|split]].
  - rewrite length_firstn, (Permutation_length Hperm), length_map. lia.
  - apply (SortFacts.StronglySorted_app_l _ _ _ Hstrict).
  - intros k Hk. apply (Permutation_in _ Hperm).
    rewrite <- (firstn_skipn 5 s). apply in_or_app. now left.
  - intros k v Hk Hv Hnot.
    apply (Permutation_in _ (Permutation_sym Hperm)) in Hv.
    rewrite <- (firstn_skipn 5 s) in Hv. apply in_app_or in Hv.
    destruct Hv as [Hv|Hv]; [contradiction|].
    pose proof (TopTwo.StronglySorted_app_cross _ _ _ Hstrict k v Hk Hv). lia.
Qed.

Lemma high_card_sound_witness :
  well_formed [0; 12; 11; 10; 8; 1] /\ NoDup (map card_value [0; 12; 11; 10; 8; 1]).
Proof.
  assert (Hwf : well_formed [0; 12; 11; 10; 8; 1]).
  { unfold well_formed. split; [simpl; lia|]. split.
    - repeat constructor; simpl; intuition lia.
    - repeat constructor; lia. }
  split; [exact Hwf|].
  exact (proj1 (high_card_sound [0; 12; 11; 10; 8; 1] [13; 12; 11; 10; 8] Hwf eq_refl)).
Defined.

(** ** The errors of the hand ranker *)

Module ErrorFacts.
Import Py.

Lemma flush_suite_raises (hand : list Z) (e : exn) :
  flush_suite hand = Raise e <-> hand = [] /\ e = IndexError.
Proof.
  destruct hand as [|c hand].
  - split; [intros [= <-]; auto|intros [_ ->]; reflexivity].
  - destruct (flush_suite_returns (c :: hand) ltac:(discriminate)) as (s & ->).
    split; [discriminate|intros [H _]; discriminate].
Qed.

Lemma flush_suite_perm (hand hand' : list Z) :
  Permutation hand hand' -> (length hand < 10)%nat ->
  flush_suite hand = flush_suite hand'.
Proof.
  intros Hperm Hlen. destruct hand as [|c hand].
  - apply Permutation_nil in Hperm. now subst.
  - assert (Hne : c :: hand <> []) by discriminate.
    assert (Hne' : hand' <> []).
    { intros ->. apply Permutation_sym, Permutation_nil in Hperm. discriminate. }
    destruct (flush_suite_spec _ Hne) as (k & Hmax & ->).
    destruct (flush_suite_spec _ Hne') as (k' & Hmax' & ->).
    pose proof (fun s => FiveCards.suit_count_perm _ _ s Hperm) as Hcount.
    pose proof (Hmax k') as M. pose proof (Hmax' k) as M'.
    rewrite <- !Hcount in M'. rewrite <- Hcount.
    assert (Heq : suit_count (c :: hand) k = suit_count (c :: hand) k') by lia.
    rewrite <- Heq.
    destruct (Z.eqb_spec (suit_count (c :: hand) k) 5) as [E|E]; [|reflexivity].
    destruct (Z.eq_dec k k') as [->|Hkk]; [reflexivity|].
    pose proof (occurrences_two (map card_suit (c :: hand)) k k' Hkk) as H2.
    rewrite length_map in H2. unfold suit_count in *. lia.
Qed.

(** The only failures, once the run is found: a kicker list indexed
    while empty. *)
Lemma assess_hand_raises (cards : list Z) (e : exn) :
  cards <> [] -> length (card_dict_of cards) <> 1%nat ->
  assess_hand cards = Raise e ->
  e = IndexError /\
  ((dd_get (group_duplicates cards) 4 <> [] /\
    select_side_cards cards (dd_get (group_duplicates cards) 4) = []) \/
   (length (dd_get (group_duplicates cards) 2) = 2%nat /\
    select_side_cards cards (dd_get (group_duplicates cards) 2) = [])).
Proof.
  intros Hcards Hdict. unfold assess_hand.
  destruct (SequenceFacts.find_max_sequence_spec cards Hcards Hdict)
    as (a & m & ids & Ha & Hm & _ & Hids & ->).
  cbn [bind Py.unpack2 fst snd].
  assert (Hvals : consecutive a m <> [])
    by (destruct m; [lia|discriminate]).
  assert (Hidsne : ids <> []) by (destruct ids; [simpl in Hids; lia|discriminate]).
  destruct (PyFacts.getitem_last_ex _ Hvals) as (high & Hhigh & _).
  destruct (flush_suite_returns ids Hidsne) as (s & Hs).
  destruct (flush_suite_returns cards Hcards) as (s' & Hs').
  rewrite Hs, Hs', Hhigh. cbn [bind].
  set (d4 := Py.dd_get (group_duplicates cards) 4) in *.
  set (d3 := Py.dd_get (group_duplicates cards) 3) in *.
  set (d2 := Py.dd_get (group_duplicates cards) 2) in *.
  assert (Hsf : forall b : bool,
             (if b then Ok (is_not_None s) else Ok false)
             = Ok (if b then is_not_None s else false))
    by (now intros []).
  rewrite Hsf. cbn [bind].
  destruct (if (length (consecutive a m) =? 5)%nat then is_not_None s else false);
    [discriminate|].
  destruct (Py.truthy d4) eqn:H4.
  { apply truthy_nonempty in H4.
    destruct (getitem_first_ex _ H4) as (x & ->). cbn [bind].
    destruct (select_side_cards cards d4) as [|k side] eqn:Eside.
    - rewrite PyFacts.getitem_nil. cbn [bind]. intros [= <-]. auto.
    - rewrite PyFacts.getitem_first. discriminate. }
  destruct (Py.truthy d3 && Py.truthy d2) eqn:H32.
  { apply andb_prop in H32. destruct H32 as [H3 H2].
    destruct (getitem_first_ex _ (truthy_nonempty _ H3)) as (x & ->).
    destruct (getitem_first_ex _ (truthy_nonempty _ H2)) as (y & ->).
    discriminate. }
  destruct (is_not_None s'); [discriminate|].
  destruct (length (consecutive a m) =? 5)%nat; [discriminate|].
  destruct (Py.truthy d3) eqn:H3.
  { destruct (getitem_first_ex _ (truthy_nonempty _ H3)) as (x & ->).
    discriminate. }
  destruct (Nat.eqb_spec (length d2) 2) as [H2|H2].
  { assert (Hsorted : sort_cards d2 None false true <> []).
    { unfold sort_cards. apply PyFacts.sorted_nonempty.
      destruct d2; [discriminate|discriminate]. }
    unfold max_card, min_card.
    destruct (PyFacts.getitem_last_ex _ Hsorted) as (x & -> & _).
    destruct (getitem_first_ex _ Hsorted) as (y & ->). cbn [bind].
    destruct (select_side_cards cards d2) as [|k side] eqn:Eside.
    - rewrite PyFacts.getitem_nil. cbn [bind]. intros [= <-]. auto.
    - rewrite PyFacts.getitem_first. discriminate. }
  destruct (Nat.eqb_spec (length d2) 1) as [H1|H1]; [|discriminate].
  assert (Hd2 : d2 <> []) by (destruct d2; [discriminate|discriminate]).
  destruct (getitem_first_ex _ Hd2) as (x & ->). discriminate.
Qed.

(** A group of two values that leaves no kicker: the hand has these two
    values only. *)
Lemma group_of_two_covers (cards : list Z) (n : Z) :
  length (card_dict_of cards) <> 1%nat -> cards <> [] ->
  dd_get (group_duplicates cards) n <> [] ->
  select_side_cards cards (dd_get (group_duplicates cards) n) = [] ->
  two_values_evenly cards n.
Proof.
  intros Hdict Hcards Hne Hside.
  pose proof (side_cards_empty _ _ Hside) as Hcover.
  rewrite GroupFacts.group_values in Hcover.
  destruct (GroupFacts.group_facts cards n) as (Hnd & Hlen & Hocc).
  destruct (dd_get (group_duplicates cards) n) as [|a [|b [|? ?]]];
    [congruence| | |simpl in Hlen; lia].
  - exfalso. apply Hdict, RunFacts.card_dict_single. split; [assumption|].
    intros c c' Hc Hc'.
    destruct (Hcover c Hc) as [<-|[]]. destruct (Hcover c' Hc') as [<-|[]].
    reflexivity.
  - exists a, b.
    split; [inversion Hnd as [|? ? Hnot _]; subst; simpl in Hnot; intuition|].
    split; [apply Hocc; simpl; auto|]. split; [apply Hocc; simpl; auto|].
    intros c Hc. destruct (Hcover c Hc) as [<-|[<-|[]]]; auto.
Qed.

(** Both values of such a hand are in the group of their count. *)
Lemma two_values_group (cards : list Z) (n : Z) :
  0 < n -> two_values_evenly cards n ->
  length (card_dict_of cards) = 2%nat /\
  Z.of_nat (length cards) = 2 * n /\
  length (dd_get (group_duplicates cards) n) = 2%nat /\
  (forall m, m <> n -> dd_get (group_duplicates cards) m = []) /\
  (forall v, In v (map card_value cards) -> In v (dd_get (group_duplicates cards) n)).
Proof.
  intros Hn (a & b & Hab & Ha & Hb & Hall).
  set (values := map card_value cards) in *.
  assert (Hina : In a values) by (apply DictFacts.occurrences_pos; lia).
  assert (Hinb : In b values) by (apply DictFacts.occurrences_pos; lia).
  assert (Hvals : forall v, In v values -> v = a \/ v = b).
  { intros v Hv. apply in_map_iff in Hv. destruct Hv as (c & <- & Hc). auto. }
  assert (Hlen : Z.of_nat (length cards) = 2 * n).
  { rewrite <- (length_map card_value). fold values.
    rewrite (occurrences_two_values values a b Hab Hvals). lia. }
  assert (Hdistinct : forall l : list Z,
             NoDup l -> (forall v, In v l <-> In v values) -> length l = 2%nat).
  { intros l Hnd Hl.
    assert (Hperm : Permutation l [a; b]).
    { apply NoDup_Permutation; [assumption| |].
      - repeat constructor; simpl; intuition.
      - intros v. rewrite Hl. simpl. split; [intros H; apply Hvals in H; destruct H as [-> | ->]; auto|].
        intros [<-|[<-|[]]]; assumption. }
    apply (Permutation_length Hperm). }
  assert (Hdict : length (card_dict_of cards) = 2%nat).
  { rewrite <- (length_map fst). apply Hdistinct.
    - apply SequenceFacts.card_dict_NoDup.
    - intros v. apply SequenceFacts.card_dict_keys. }
  assert (Htop : forall v, In v values -> In v (map fst (top_two cards))).
  { assert (Hl : length (map fst (top_two cards)) = 2%nat).
    { rewrite length_map, TopTwo.top_two_length.
      pose proof (Hdistinct (nodup Z.eq_dec values) (NoDup_nodup _ _)
                    (fun v => nodup_In Z.eq_dec values v)) as Hd.
      unfold values in Hd. now rewrite Hd. }
    destruct (GroupFacts.top_two_facts cards) as (Hnd & _ & Hfacts).
    assert (Hincl : incl (map fst (top_two cards)) [a; b]).
    { intros v Hv. apply in_map_iff in Hv. destruct Hv as ([k c] & <- & Hk).
      destruct (Hfacts _ _ Hk) as [Hin _]. apply Hvals in Hin. simpl.
      destruct Hin as [-> | ->]; auto. }
    assert (Hincl' : incl [a; b] (map fst (top_two cards))).
    { apply NoDup_length_incl; [assumption|rewrite Hl; simpl; lia|assumption]. }
    intros v Hv. apply Hincl'. apply Hvals in Hv. simpl.
    destruct Hv as [-> | ->]; auto. }
  assert (Hgroup : forall v, In v values -> In v (dd_get (group_duplicates cards) n)).
  { intros v Hv. apply TopTwo.group_duplicates_In. split; [auto|].
    destruct (Hvals v Hv) as [-> | ->]; assumption. }
  split; [assumption|]. split; [assumption|]. split; [|split; [|assumption]].
  - destruct (GroupFacts.group_facts cards n) as (Hnd & Hle & _).
    pose proof (NoDup_incl_length (l := [a; b])
                  (l' := dd_get (group_duplicates cards) n)) as H.
    simpl in H. enough (2 <= length (dd_get (group_duplicates cards) n))%nat by lia.
    apply H; [repeat constructor; simpl; intuition|].
    intros v [<-|[<-|[]]]; auto.
  - intros m Hm.
    destruct (dd_get (group_duplicates cards) m) as [|x l] eqn:E; [reflexivity|].
    exfalso. destruct (PathFacts.group_single _ _ _ _ E) as [Hx Hocc].
    fold values in Hx, Hocc. destruct (Hvals x Hx) as [-> | ->]; congruence.
Qed.

(** Such a hand gets no descriptor. *)
Lemma two_values_no_descriptor (cards : list Z) (n : Z) (r : record) :
  n = 2 \/ n = 4 -> two_values_evenly cards n -> assess_hand cards <> Ok r.
Proof.
  intros Hn Htwo H. destruct r as [cat tb].
  destruct (two_values_group cards n ltac:(lia) Htwo)
    as (Hdict & Hlen & Hgroup & Hother & Hcover).
  destruct (assess_hand_inv _ _ _ H) as (sv & ids & Hfind & Hpath).
  assert (Hcards : cards <> []) by (intros ->; simpl length in Hlen; lia).
  assert (Hsv : length sv <> 5%nat).
  { destruct (SequenceFacts.find_max_sequence_spec cards Hcards ltac:(lia))
      as (a & m & ids' & _ & _ & Hm & _ & E).
    rewrite E in Hfind. injection Hfind as <- _.
    rewrite SequenceFacts.consecutive_length. lia. }
  assert (Hside : forall k, getitem (select_side_cards cards
                                       (dd_get (group_duplicates cards) n)) 0
                            <> Ok k).
  { intros k Hk. apply PathFacts.getitem_first_inv in Hk. destruct Hk as (l & E).
    destruct (PathFacts.side_cards_of_group cards n) as [_ Hin].
    assert (Hk : In k (select_side_cards cards (dd_get (group_duplicates cards) n)))
      by (rewrite E; now left).
    apply Hin in Hk. destruct Hk as [Hk Hnot]. auto. }
  assert (Hnonempty : dd_get (group_duplicates cards) n <> [])
    by (intros E; rewrite E in Hgroup; discriminate).
  assert (Hflush : forall s, flush_suite cards <> Ok (Some s) \/ n = 4).
  { intros s. destruct Hn as [-> | ->]; [left|now right].
    intros Hs. apply PathFacts.flush_suite_Some in Hs. destruct Hs as [Hs _].
    pose proof (FiveCards.occurrences_le_length (map card_suit cards) s) as Hle.
    rewrite length_map in Hle. unfold suit_count in Hs. lia. }
  cbv beta zeta delta [assess_hand_path] in Hpath.
  destruct Hn as [-> | ->].
  - pose proof (Hother 3 ltac:(lia)) as H3. pose proof (Hother 4 ltac:(lia)) as H4.
    rewrite H3, H4 in Hpath.
    destruct cat; cbv iota in Hpath; cbn [truthy andb] in Hpath.
    + destruct Hpath as (_ & _ & _ & _ & Hl & _). congruence.
    + destruct Hpath as (_ & _ & _ & _ & Hl & _). congruence.
    + destruct Hpath as (_ & _ & _ & _ & _ & h & l & k & _ & _ & Hk & _).
      now apply Hside in Hk.
    + destruct Hpath as (_ & _ & _ & _ & Hl & _). discriminate.
    + destruct Hpath as (_ & _ & _ & Hl & _). congruence.
    + destruct Hpath as (_ & _ & s & Hs & _).
      destruct (Hflush s); [contradiction|lia].
    + destruct Hpath as (_ & Hl & _). discriminate.
    + destruct Hpath as (Hl & _). discriminate.
    + destruct Hpath as (Hl & _). congruence.
  - assert (Ht : truthy (dd_get (group_duplicates cards) 4) = true)
      by (destruct (dd_get (group_duplicates cards) 4); [congruence|reflexivity]).
    destruct cat; cbv iota in Hpath;
      try (destruct Hpath as [Hl _]; congruence).
    destruct Hpath as (_ & q & k & _ & Hk & _). now apply Hside in Hk.
Qed.

End ErrorFacts.

(** X16: on fewer than ten cards [flush_suite] does not depend on the
    order of the cards; on ten cards it does (five spades before five
    hearts, and after them); it raises only [IndexError], and only on
    the empty list. *)
Theorem flush_suite_any_order :
  (forall hand hand',
      Permutation hand hand' -> (length hand < 10)%nat ->
      flush_suite hand = flush_suite hand') /\
  flush_suite [0; 1; 2; 3; 4; 13; 14; 15; 16; 17] = Ok (Some 0) /\
  flush_suite [13; 14; 15; 16; 17; 0; 1; 2; 3; 4] = Ok (Some 1) /\
  (forall hand e, flush_suite hand = Raise e <-> hand = [] /\ e = IndexError).
Proof.
  split; [exact ErrorFacts.flush_suite_perm|].
  split; [reflexivity|]. split; [reflexivity|].
  exact ErrorFacts.flush_suite_raises.
Qed.

Lemma flush_suite_any_order_witness :
  flush_suite [0; 1; 15; 3; 4] = flush_suite [1; 0; 15; 3; 4].
Proof.
  apply (proj1 flush_suite_any_order); [apply perm_swap|simpl; lia].
Defined.

(** X17: the lists on which [assess_hand] raises, and what it raises:
    [IndexError] on the empty list; [ValueError] when the cards all
    have one rank value; [IndexError] when they have two rank values,
    each on two cards or each on four, so that no kicker is left.  On
    every other list it returns a descriptor. *)
Theorem assess_hand_errors (cards : list Z) (e : exn) :
  assess_hand cards = Raise e <->
  (e = IndexError /\ cards = []) \/
  (e = ValueError /\ cards <> [] /\
   forall c c', In c cards -> In c' cards -> card_value c = card_value c') \/
  (e = IndexError /\ (two_values_evenly cards 2 \/ two_values_evenly cards 4)).
Proof.
  split.
  - intros H. destruct cards as [|c0 cards].
    + left. injection H as <-. auto.
    + right. assert (Hne : c0 :: cards <> []) by discriminate.
      destruct (Nat.eq_dec (length (card_dict_of (c0 :: cards))) 1) as [Hone|Hmany].
      * left. unfold assess_hand in H.
        rewrite SequenceFacts.find_max_sequence_unfold in H.
        rewrite (proj2 (Nat.eqb_eq _ _) Hone) in H. injection H as <-.
        split; [reflexivity|]. now apply RunFacts.card_dict_single.
      * right. destruct (ErrorFacts.assess_hand_raises _ _ Hne Hmany H)
          as [-> [[H4 Hside]|[H2 Hside]]]; (split; [reflexivity|]).
        -- right. now apply ErrorFacts.group_of_two_covers.
        -- left. apply ErrorFacts.group_of_two_covers; try assumption.
           intros E. rewrite E in H2. discriminate.
  - intros [[-> ->]|[(-> & Hne & Hsame)|[-> Htwo]]].
    + reflexivity.
    + unfold assess_hand. rewrite SequenceFacts.find_max_sequence_unfold.
      rewrite (proj2 (Nat.eqb_eq _ _)
                 (proj2 (RunFacts.card_dict_single cards) (conj Hne Hsame))).
      reflexivity.
    + assert (H : exists n, (n = 2 \/ n = 4) /\ two_values_evenly cards n)
        by (destruct Htwo; eauto).
      destruct H as (n & Hn & Hn').
      destruct (ErrorFacts.two_values_group cards n ltac:(lia) Hn')
        as (Hdict & Hlen & _).
      destruct (assess_hand cards) as [r|e'] eqn:E.
      * destruct (ErrorFacts.two_values_no_descriptor cards n r Hn Hn' E).
      * f_equal.
        apply (ErrorFacts.assess_hand_raises cards e'); try assumption; try lia.
        intros ->. simpl length in Hlen. lia.
Qed.

(** ** The order of the cards *)

Module OrderFacts.
Import Py.

Lemma Permutation_filter {A : Type} (p : A -> bool) (l l' : list A) :
  Permutation l l' -> Permutation (filter p l) (filter p l').
Proof.
  induction 1 as [|x l l' _ IH|x y l|l l' l'' _ IH1 _ IH2]; simpl.
  - constructor.
  - destruct (p x); [now constructor|assumption].
  - destruct (p x), (p y); try reflexivity. apply perm_swap.
  - now transitivity (filter p l').
Qed.

(** Sorted lists with the same elements, each as often, are equal. *)
Lemma sorted_unique (r : bool) (l l' : list Z) :
  StronglySorted (ordered r) l -> StronglySorted (ordered r) l' ->
  Permutation l l' -> l = l'.
Proof.
  intros Hl. revert l'. induction Hl as [|x l Hl IH Hx]; intros l' Hl' Hperm.
  - apply Permutation_nil in Hperm. now subst.
  - destruct Hl' as [|y l' Hl' Hy].
    + apply Permutation_sym, Permutation_nil in Hperm. discriminate.
    + rewrite Forall_forall in Hx, Hy.
      assert (Hxy : x = y).
      { assert (H1 : In x (y :: l')) by (apply (Permutation_in _ Hperm); now left).
        assert (H2 : In y (x :: l))
          by (apply (Permutation_in _ (Permutation_sym Hperm)); now left).
        destruct H1 as [E|H1]; [now symmetry|].
        destruct H2 as [E|H2]; [assumption|].
        specialize (Hx _ H2). specialize (Hy _ H1).
        unfold ordered in *. destruct r; lia. }
      subst y. f_equal. apply IH; [assumption|].
      now apply Permutation_cons_inv in Hperm.
Qed.

Lemma sorted_perm_eq (r : bool) (l l' : list Z) :
  Permutation l l' -> sorted (by_key id r) l = sorted (by_key id r) l'.
Proof.
  intros Hperm. apply (sorted_unique r); try apply (SortFacts.sorted_by_key id).
  rewrite !PyFacts.sorted_perm. exact Hperm.
Qed.

Lemma sort_cards_perm (h h' : list Z) (suit : option Z) (r : bool) :
  Permutation h h' -> sort_cards h suit r true = sort_cards h' suit r true.
Proof.
  intros Hperm. unfold sort_cards. apply sorted_perm_eq, Permutation_map.
  destruct suit; [now apply Permutation_filter|assumption].
Qed.

Lemma side_cards_same (cards cards' excl excl' : list Z) :
  (forall v, In v (map card_value cards) <-> In v (map card_value cards')) ->
  (forall v, In v (map card_value excl) <-> In v (map card_value excl')) ->
  select_side_cards cards excl = select_side_cards cards' excl'.
Proof.
  intros Hc He. apply (RunFacts.strict_sorted_unique Z.gt); [lia| | |].
  - apply side_cards_sorted.
  - apply side_cards_sorted.
  - intros v. now rewrite !side_cards_In, Hc, He.
Qed.

Lemma occurrences_perm (l l' : list Z) (k : Z) :
  Permutation l l' -> occurrences l k = occurrences l' k.
Proof.
  intros H. unfold occurrences. f_equal. now apply Permutation_count_occ.
Qed.

(** In a small hand a group holds every value of its count. *)
Lemma group_In_small (hand : list Z) (n k : Z) :
  Z.of_nat (length hand) < 3 * n ->
  (In k (dd_get (group_duplicates hand) n) <->
   In k (map card_value hand) /\ occurrences (map card_value hand) k = n).
Proof.
  intros Hlen. split.
  - apply (GroupFacts.group_facts hand n).
  - intros [Hk Hocc]. rewrite <- Hocc. apply TopTwo.group_duplicates_In.
    split; [|reflexivity]. apply TopTwo.top_two_complete; [assumption|lia].
Qed.

Lemma group_perm (h h' : list Z) (n : Z) :
  Permutation h h' -> Z.of_nat (length h) < 3 * n ->
  Permutation (dd_get (group_duplicates h) n) (dd_get (group_duplicates h') n).
Proof.
  intros Hperm Hlen.
  pose proof (Permutation_map card_value Hperm) as Hvalues.
  apply NoDup_Permutation; try apply GroupFacts.group_facts.
  intros k. rewrite !group_In_small;
    [|now rewrite <- (Permutation_length Hperm)|assumption].
  rewrite (occurrences_perm _ _ k Hvalues).
  split; intros [H1 H2]; (split; [|assumption]).
  - apply (Permutation_in _ Hvalues H1).
  - apply (Permutation_in _ (Permutation_sym Hvalues) H1).
Qed.

Lemma group_at_most_one (h : list Z) (n : Z) :
  Z.of_nat (length h) < 2 * n ->
  (length (dd_get (group_duplicates h) n) <= 1)%nat.
Proof.
  intros Hlen.
  destruct (GroupFacts.group_facts h n) as (Hnd & _ & Hocc).
  destruct (dd_get (group_duplicates h) n) as [|x [|y l]]; simpl; try lia.
  exfalso.
  assert (Hxy : x <> y).
  { inversion Hnd as [|? ? Hnot _]; subst. simpl in Hnot. intuition. }
  pose proof (occurrences_two (map card_value h) x y Hxy) as H2.
  rewrite length_map in H2.
  rewrite (proj2 (Hocc x ltac:(simpl; auto))),
          (proj2 (Hocc y ltac:(simpl; auto))) in H2. lia.
Qed.

Lemma short_perm_eq {A : Type} (l l' : list A) :
  Permutation l l' -> (length l <= 1)%nat -> l = l'.
Proof.
  intros Hperm Hlen. destruct l as [|x [|? ?]]; [| |simpl in Hlen; lia].
  - apply Permutation_nil in Hperm. now subst.
  - apply Permutation_length_1_inv in Hperm. now subst.
Qed.

Lemma group_small_eq (h h' : list Z) (n : Z) :
  Permutation h h' -> Z.of_nat (length h) < 2 * n -> 0 < n ->
  dd_get (group_duplicates h) n = dd_get (group_duplicates h') n.
Proof.
  intros Hperm Hlen Hn. apply short_perm_eq.
  - apply group_perm; [assumption|lia].
  - now apply group_at_most_one.
Qed.

(** Five cards with two pairs have no three of a kind. *)
Lemma two_pairs_no_three (h : list Z) :
  length h = 5%nat -> length (dd_get (group_duplicates h) 2) = 2%nat ->
  dd_get (group_duplicates h) 3 = [].
Proof.
  intros Hlen H2.
  destruct (GroupFacts.group_facts h 2) as (Hnd & _ & Hocc).
  destruct (dd_get (group_duplicates h) 2) as [|x [|y [|? ?]]]; try discriminate.
  destruct (dd_get (group_duplicates h) 3) as [|t l] eqn:E; [reflexivity|].
  exfalso. destruct (PathFacts.group_single _ _ _ _ E) as [_ Ht].
  pose proof (proj2 (Hocc x ltac:(simpl; auto))) as Hx.
  pose proof (proj2 (Hocc y ltac:(simpl; auto))) as Hy.
  assert (Hxy : x <> y).
  { inversion Hnd as [|? ? Hnot _]; subst. simpl in Hnot. intuition. }
  assert (Hxt : x <> t) by (intros ->; lia).
  assert (Hyt : y <> t) by (intros ->; lia).
  pose proof (TopTwo.occurrences_three (map card_value h) x y t Hxy Hxt Hyt) as H3.
  rewrite length_map, Hlen in H3. simpl in H3. lia.
Qed.

Lemma same_suit_perm (h h' : list Z) :
  length h = 5%nat -> Permutation h h' -> same_suit h = same_suit h'.
Proof.
  intros Hlen Hperm. apply eq_true_iff_eq.
  rewrite (FiveCards.same_suit_five h Hlen).
  rewrite (FiveCards.same_suit_five h')
    by (now rewrite <- (Permutation_length Hperm)).
  split; intros (s & Hs); exists s;
    [rewrite <- (FiveCards.suit_count_perm _ _ s Hperm)
    |rewrite (FiveCards.suit_count_perm _ _ s Hperm)]; assumption.
Qed.

End OrderFacts.

(** X18: the descriptor of five cards does not depend on their order,
    whatever the five integers are. *)
Theorem assess_hand_five_any_order (h h' : list Z) :
  length h = 5%nat -> Permutation h h' -> assess_hand h = assess_hand h'.
Proof.
  intros Hlen Hperm.
  assert (Hlen' : length h' = 5%nat) by (now rewrite <- (Permutation_length Hperm)).
  pose proof (Permutation_map card_value Hperm) as Hvalues.
  assert (Hin : forall v, In v (map card_value h) <-> In v (map card_value h')).
  { intros v. split; apply Permutation_in; [|symmetry]; assumption. }
  pose proof (same_values_same_rows h h' Hin) as Hrows.
  assert (Hside : forall x x', (forall v, In v x <-> In v x') ->
                               select_side_cards h' x' = select_side_cards h x).
  { intros x x' Hx. symmetry. apply OrderFacts.side_cards_same; [assumption|].
    intros v. rewrite !in_map_iff. split; intros (c & <- & Hc); exists c;
      (split; [reflexivity|]); now apply Hx. }
  assert (Hsort : forall s, sort_cards h' s true true = sort_cards h s true true)
    by (intros s; symmetry; now apply OrderFacts.sort_cards_perm).
  assert (Hflush : flush_suite h' = flush_suite h)
    by (symmetry; apply ErrorFacts.flush_suite_perm; [assumption|lia]).
  assert (H4 : Py.dd_get (group_duplicates h') 4 = Py.dd_get (group_duplicates h) 4)
    by (symmetry; apply OrderFacts.group_small_eq; [assumption|lia|lia]).
  assert (H3 : Py.dd_get (group_duplicates h') 3 = Py.dd_get (group_duplicates h) 3)
    by (symmetry; apply OrderFacts.group_small_eq; [assumption|lia|lia]).
  pose proof (OrderFacts.group_perm h h' 2 Hperm ltac:(lia)) as H2.
  unfold assess_hand.
  rewrite Hflush, H4, H3, !Hsort, !(Hside _ _ (fun v => iff_refl _)).
  destruct (find_max_sequence h) as [[|sv [|ids [|? ?]]]|] eqn:F,
    (find_max_sequence h') as [[|sv' [|ids' [|? ?]]]|] eqn:F';
    simpl in Hrows; try contradiction; try (subst; reflexivity).
  subst sv'. cbn [bind Py.unpack2 fst snd].
  assert (Htest :
            (if (length sv =? 5)%nat
             then s <- flush_suite ids ;; Ok (is_not_None s) else Ok false)
            = (if (length sv =? 5)%nat
               then s <- flush_suite ids' ;; Ok (is_not_None s) else Ok false)).
  { destruct (Nat.eqb_spec (length sv) 5) as [Hsv|_]; [|reflexivity].
    destruct (FiveCards.straight_flush_test h sv ids Hlen F Hsv) as (q & -> & Hq).
    destruct (FiveCards.straight_flush_test h' sv ids' Hlen' F' Hsv) as (q' & -> & Hq').
    cbn [bind]. rewrite Hq, Hq'. now rewrite (OrderFacts.same_suit_perm h h'). }
  rewrite <- Htest.
  destruct (if (length sv =? 5)%nat
            then s <- flush_suite ids ;; Ok (is_not_None s) else Ok false)
    as [[|]|]; cbn [bind]; try reflexivity.
  destruct (Py.truthy (Py.dd_get (group_duplicates h) 4)); [reflexivity|].
  assert (Hside2 : select_side_cards h (Py.dd_get (group_duplicates h') 2)
                   = select_side_cards h (Py.dd_get (group_duplicates h) 2)).
  { apply OrderFacts.side_cards_same; [tauto|]. intros v. rewrite !in_map_iff.
    split; intros (c & <- & Hc); exists c; (split; [reflexivity|]);
      [apply (Permutation_in _ (Permutation_sym H2))|apply (Permutation_in _ H2)];
      assumption. }
  rewrite Hside2.
  destruct (flush_suite h) as [[s|]|]; cbn [bind is_not_None]; rewrite ?Hsort.
  all: destruct (Nat.eq_dec (length (Py.dd_get (group_duplicates h) 2)) 2) as [Htwo|Htwo].
  all: try (rewrite (OrderFacts.two_pairs_no_three h Hlen Htwo); cbn [Py.truthy andb];
            rewrite <- ?(Permutation_length H2), ?Htwo; cbn [Nat.eqb];
            unfold max_card, min_card;
            rewrite <- ?(OrderFacts.sort_cards_perm _ _ None false H2);
            reflexivity).
  all: rewrite <- (OrderFacts.short_perm_eq _ _ H2); [reflexivity|];
    destruct (GroupFacts.group_facts h 2) as (_ & Hle & _); lia.
Qed.


Lemma assess_hand_five_any_order_witness :
  assess_hand [0; 13; 12; 11; 9] = assess_hand [13; 0; 12; 11; 9].
Proof.
  apply assess_hand_five_any_order; [reflexivity|apply perm_swap].
Defined.

(** ** The descriptors of the five-card hands, by category *)

Lemma descriptors_well_shaped : forallb well_shaped descriptors = true.
Proof. vm_compute. reflexivity. Qed.

Lemma descriptors_by_category :
  forallb (fun cat => category_count cat descriptors =? distinct_descriptors cat)
          [HIGH_CARD; PAIR; TWO_PAIR; THREE; STRAIGHT; FLUSH; FULL_HOUSE; FOUR;
           STRAIGHT_FLUSH] = true.
Proof. vm_compute. reflexivity. Qed.

(** X19: the descriptors of the five-card hands of the deck, category
    by category: 10 for straight flushes, 156 for four of a kind, 156
    for full houses, 1277 for flushes, 10 for straights, 858 for three
    of a kind, 858 for two pairs, 2860 for pairs and 1277 for high
    cards.  Every hand of five different cards of the deck, in any
    order, gets one of them; each is the descriptor of a hand, and has
    as many tie-breaks as its category asks for, between 1 and 13, the
    kickers descending and different from the values they go with. *)
Theorem five_card_descriptors :
  exists L : list record,
    NoDup L /\
    (forall hand,
        length hand = 5%nat -> NoDup hand -> Forall (fun c => 0 <= c <= 51) hand ->
        exists r, assess_hand hand = Ok r /\ In r L) /\
    (forall r, In r L ->
               well_shaped r = true /\
               exists hand, In hand (combinations 5 deck) /\ assess_hand hand = Ok r) /\
    (forall cat, category_count cat L = distinct_descriptors cat).
Proof.
  exists descriptors. split; [exact descriptors_NoDup|].
  split; [exact five_cards_in_table|]. split.
  - intros r Hr. split; [|now apply descriptors_realised].
    pose proof descriptors_well_shaped as H. rewrite forallb_forall in H. auto.
  - intros cat. pose proof descriptors_by_category as H.
    rewrite forallb_forall in H. apply Z.eqb_eq, H.
    destruct cat; simpl; auto 10.
Qed.

Lemma five_card_descriptors_witness :
  exists r, assess_hand [4; 3; 2; 1; 0] = Ok r /\ well_shaped r = true.
Proof.
  destruct five_card_descriptors as (L & _ & Hcover & Hshape & _).
  destruct (Hcover [4; 3; 2; 1; 0]) as (r & Hr & Hin).
  - reflexivity.
  - repeat constructor; simpl; intuition lia.
  - repeat constructor; lia.
  - exists r. split; [exact Hr|]. exact (proj1 (Hshape r Hin)).
Defined.

(** ** Lower bounds on the category *)

Module LowerBounds.
Import Py.

(** A value that is on more than a third of the cards fills its group. *)
Lemma group_filled (cards : list Z) (k n : Z) :
  occurrences (map card_value cards) k = n -> 0 < n ->
  Z.of_nat (length cards) < 3 * n ->
  truthy (dd_get (group_duplicates cards) n) = true.
Proof.
  intros Hk Hn Hlen.
  assert (Hin : In k (dd_get (group_duplicates cards) n)).
  { apply OrderFacts.group_In_small; [assumption|]. split; [|assumption].
    apply DictFacts.occurrences_pos. lia. }
  now destruct (dd_get (group_duplicates cards) n).
Qed.

(** With three of a kind and a pair among at most seven cards, the
    group of the pairs is not empty. *)
Lemma pair_beside_three (cards : list Z) (k p : Z) :
  occurrences (map card_value cards) k = 3 ->
  occurrences (map card_value cards) p = 2 ->
  (length cards < 8)%nat ->
  truthy (dd_get (group_duplicates cards) 2) = true.
Proof.
  intros Hk Hp Hlen.
  destruct (dd_get (group_duplicates cards) 2) as [|x l] eqn:E2;
    [exfalso|reflexivity].
  assert (Hpin : In p (map card_value cards))
    by (apply DictFacts.occurrences_pos ; lia).
  assert (Hptop : ~ In p (map fst (top_two cards))).
  { intros Hin.
    assert (Hg : In p (dd_get (group_duplicates cards) 2))
      by (apply TopTwo.group_duplicates_In; auto).
    rewrite E2 in Hg. destruct Hg. }
  destruct (GroupFacts.top_two_facts cards) as (Hnd & _ & Hfacts).
  pose proof (TopTwo.top_two_length cards) as Hlen2.
  assert (Hkp : k <> p) by (intros ->; lia).
  assert (Hdistinct : (2 <= length (nodup Z.eq_dec (map card_value cards)))%nat).
  { pose proof (NoDup_incl_length (l := [k; p])
                  (l' := nodup Z.eq_dec (map card_value cards))) as Hi.
    simpl in Hi. apply Hi.
    - repeat constructor; simpl; intuition congruence.
    - intros v [<-|[<-|[]]]; apply nodup_In; [|assumption].
      apply DictFacts.occurrences_pos. lia. }
  rewrite Nat.min_l in Hlen2 by exact Hdistinct.
  destruct (top_two cards) as [|[a na] [|[b nb] [|? ?]]] eqn:Etop;
    try discriminate Hlen2.
  assert (Hother : exists x n, In (x, n) [(a, na); (b, nb)] /\ x <> k).
  { inversion Hnd as [|? ? Hnot _]; subst. simpl in Hnot.
    destruct (Z.eq_dec a k) as [->|Ha].
    - exists b, nb. split; [simpl; auto|]. intros ->. tauto.
    - exists a, na. split; [simpl; auto|assumption]. }
  destruct Hother as (x' & n' & Hin' & Hx').
  destruct (Hfacts _ _ Hin') as [Hxin Hn'].
  pose proof (TopTwo.top_two_dominates cards x' n' p) as Hdom.
  rewrite Etop in Hdom. specialize (Hdom Hin' Hpin Hptop).
  rewrite Hp in Hdom.
  assert (Hxp : x' <> p).
  { intros ->. apply Hptop. apply in_map_iff. now exists (p, n'). }
  pose proof (TopTwo.occurrences_three (map card_value cards) k x' p
                ltac:(congruence) Hkp Hxp) as H3.
  rewrite length_map in H3.
  assert (Hg : In x' (dd_get (group_duplicates cards) 2)).
  { apply TopTwo.group_duplicates_In. split; [|lia].
    rewrite Etop. apply in_map_iff. now exists (x', n'). }
  rewrite E2 in Hg. destruct Hg.
Qed.

(** With two pairs among at most seven cards and nothing in the groups
    of three and four, the group of the pairs holds two values. *)
Lemma two_pairs_filed (cards : list Z) (k p : Z) :
  k <> p ->
  occurrences (map card_value cards) k = 2 ->
  occurrences (map card_value cards) p = 2 ->
  (length cards < 8)%nat ->
  dd_get (group_duplicates cards) 3 = [] ->
  dd_get (group_duplicates cards) 4 = [] ->
  length (dd_get (group_duplicates cards) 2) = 2%nat.
Proof.
  intros Hkp Hk Hp Hlen H3 H4.
  assert (Hkin : In k (map card_value cards))
    by (apply DictFacts.occurrences_pos; lia).
  assert (Hpin : In p (map card_value cards))
    by (apply DictFacts.occurrences_pos; lia).
  destruct (GroupFacts.top_two_facts cards) as (Hnd & _ & Hfacts).
  pose proof (TopTwo.top_two_length cards) as Hlen2.
  assert (Hdistinct : (2 <= length (nodup Z.eq_dec (map card_value cards)))%nat).
  { pose proof (NoDup_incl_length (l := [k; p])
                  (l' := nodup Z.eq_dec (map card_value cards))) as Hi.
    simpl in Hi. apply Hi.
    - repeat constructor; simpl; intuition congruence.
    - intros v [<-|[<-|[]]]; now apply nodup_In. }
  rewrite Nat.min_l in Hlen2 by exact Hdistinct.
  assert (Hpair : forall t n, In (t, n) (top_two cards) ->
                              In t (dd_get (group_duplicates cards) 2)).
  { intros t n Ht. destruct (Hfacts t n Ht) as [Htin Hn].
    assert (Htop : In t (map fst (top_two cards)))
      by (apply in_map_iff; now exists (t, n)).
    apply TopTwo.group_duplicates_In. split; [assumption|].
    assert (Hnot34 : forall m, m = 3 \/ m = 4 ->
                               occurrences (map card_value cards) t <> m).
    { intros m Hm E.
      assert (Hg : In t (dd_get (group_duplicates cards) m))
        by (apply TopTwo.group_duplicates_In; auto).
      destruct Hm as [-> | ->]; [rewrite H3 in Hg|rewrite H4 in Hg]; destruct Hg. }
    pose proof (Hnot34 3 (or_introl eq_refl)).
    pose proof (Hnot34 4 (or_intror eq_refl)).
    destruct (Z.eq_dec t k) as [->|Htk]; [assumption|].
    destruct (Z.eq_dec t p) as [->|Htp]; [assumption|].
    pose proof (TopTwo.occurrences_three (map card_value cards) t k p Htk Htp Hkp) as Hsum.
    rewrite length_map in Hsum.
    assert (Hout : exists x, (x = k \/ x = p) /\ ~ In x (map fst (top_two cards))).
    { destruct (in_dec Z.eq_dec k (map fst (top_two cards))) as [Hk'|Hk'];
        [|exists k; auto].
      destruct (in_dec Z.eq_dec p (map fst (top_two cards))) as [Hp'|Hp'];
        [|exists p; auto].
      exfalso.
      pose proof (NoDup_incl_length (l := [t; k; p])
                    (l' := map fst (top_two cards))) as Hi.
      rewrite length_map, Hlen2 in Hi. simpl in Hi.
      enough (3 <= 2)%nat by lia. apply Hi.
      - repeat constructor; simpl; intuition congruence.
      - intros v [<-|[<-|[<-|[]]]]; assumption. }
    destruct Hout as (x & Hx & Hxout).
    pose proof (TopTwo.top_two_dominates cards t n x Ht) as Hdom.
    destruct Hx as [-> | ->]; specialize (Hdom ltac:(assumption) Hxout); lia. }
  destruct (GroupFacts.group_facts cards 2) as (Hnd2 & Hle & _).
  destruct (top_two cards) as [|[a na] [|[b nb] [|? ?]]] eqn:Etop;
    try discriminate Hlen2.
  pose proof (NoDup_incl_length (l := [a; b])
                (l' := dd_get (group_duplicates cards) 2)) as Hi.
  simpl in Hi. enough (2 <= length (dd_get (group_duplicates cards) 2))%nat by lia.
  apply Hi.
  - exact Hnd.
  - intros v [<-|[<-|[]]]; [apply (Hpair a na)|apply (Hpair b nb)]; simpl; auto.
Qed.

End LowerBounds.

(** X20: what a hand holds bounds its category from below.  A value on
    four cards, among fewer than twelve, gives [FOUR] or better; a
    value on three cards and one on two, among at most seven,
    [FULL_HOUSE] or better; a suit on exactly five cards, among at most
    ten, [FLUSH] or better; a value on three cards, among at most
    eight, [THREE] or better; two values on two cards each, among at
    most seven, [TWO_PAIR] or better; a value on two cards, among at
    most five, [PAIR] or better. *)
Theorem category_at_least (cards : list Z) (cat : Hand) (tb : list Z) :
  assess_hand cards = Ok (cat, tb) ->
  let occ := occurrences (map card_value cards) in
  (forall k, occ k = 4 -> (length cards < 12)%nat -> 8 <= Hand_value cat) /\
  (forall k p, occ k = 3 -> occ p = 2 -> (length cards < 8)%nat ->
               7 <= Hand_value cat) /\
  (forall s, suit_count cards s = 5 -> (length cards < 11)%nat ->
             6 <= Hand_value cat) /\
  (forall k, occ k = 3 -> (length cards < 9)%nat -> 4 <= Hand_value cat) /\
  (forall k p, k <> p -> occ k = 2 -> occ p = 2 -> (length cards < 8)%nat ->
               3 <= Hand_value cat) /\
  (forall k, occ k = 2 -> (length cards < 6)%nat -> 2 <= Hand_value cat).
Proof.
  intros H occ.
  destruct (assess_hand_inv _ _ _ H) as (sv & ids & _ & Hpath).
  cbv beta zeta delta [assess_hand_path] in Hpath.
  split; [|split; [|split; [|split; [|split]]]].
  - intros k Hk Hlen.
    pose proof (LowerBounds.group_filled cards k 4 Hk ltac:(lia) ltac:(lia)) as Ht.
    destruct cat; simpl; try lia; decompose [and] Hpath; congruence.
  - intros k p Hk Hp Hlen.
    pose proof (LowerBounds.group_filled cards k 3 Hk ltac:(lia) ltac:(lia)) as Ht.
    pose proof (LowerBounds.pair_beside_three cards k p Hk Hp Hlen) as Ht2.
    destruct cat; simpl; try lia; decompose [and] Hpath;
      try congruence;
      match goal with
      | E : Py.truthy _ && Py.truthy _ = false |- _ =>
          rewrite Ht, Ht2 in E; discriminate
      end.
  - intros s Hs Hlen.
    destruct cat; simpl; try lia; decompose [and] Hpath;
      match goal with
      | E : flush_suite cards = Ok None |- _ =>
          destruct (PathFacts.flush_suite_None cards E Hlen s Hs)
      end.
  - intros k Hk Hlen.
    pose proof (LowerBounds.group_filled cards k 3 Hk ltac:(lia) ltac:(lia)) as Ht.
    destruct cat; simpl; try lia; decompose [and] Hpath; congruence.
  - intros k p Hkp Hk Hp Hlen.
    pose proof (LowerBounds.two_pairs_filed cards k p Hkp Hk Hp Hlen) as Hfiled.
    destruct cat; simpl; try lia; decompose [and] Hpath;
      repeat match goal with
             | E : Py.truthy _ = false |- _ => apply PathFacts.truthy_false in E
             end;
      specialize (Hfiled ltac:(assumption) ltac:(assumption)); congruence.
  - intros k Hk Hlen.
    pose proof (LowerBounds.group_filled cards k 2 Hk ltac:(lia) ltac:(lia)) as Ht.
    destruct (GroupFacts.group_facts cards 2) as (_ & Hle & _).
    destruct cat; simpl; try lia. decompose [and] Hpath.
    destruct (Py.dd_get (group_duplicates cards) 2) as [|? [|? [|? ?]]];
      simpl in *; try discriminate; try congruence; lia.
Qed.

Lemma category_at_least_witness :
  7 <= Hand_value FULL_HOUSE.
Proof.
  refine (proj1 (proj2 (category_at_least [0; 13; 26; 12; 51; 1; 2] FULL_HOUSE
                          [13; 12] eq_refl)) 13 12 _ _ _).
  - reflexivity.
  - reflexivity.
  - simpl. lia.
Defined.

(** ** Hands without a repeated rank value, and the highest straight *)

Module DistinctFacts.
Import Py.

Lemma NoDup_map_inj {A B : Type} (f : A -> B) (l : list A) (a b : A) :
  NoDup (map f l) -> In a l -> In b l -> f a = f b -> a = b.
Proof.
  induction l as [|x l IH]; simpl; intros Hnd Ha Hb Hf; [destruct Ha|].
  inversion Hnd as [|? ? Hnot Hnd']; subst.
  destruct Ha as [<-|Ha], Hb as [<-|Hb]; auto.
  - exfalso. apply Hnot. rewrite Hf. now apply in_map.
  - exfalso. apply Hnot. rewrite <- Hf. now apply in_map.
Qed.

(** With no rank value repeated, a value of a run stands for one card. *)
Lemma stands_for_unique (cards : list Z) (v id id' : Z) :
  NoDup (map card_value cards) ->
  stands_for cards v id -> stands_for cards v id' -> id = id'.
Proof.
  intros Hnd [Hin H] [Hin' H'].
  apply (NoDup_map_inj card_value cards); try assumption.
  pose proof (card_value_range id). pose proof (card_value_range id').
  destruct H as [->|[-> E]], H' as [E'|[E0 E']]; lia.
Qed.

Lemma Forall2_unique {A B : Type} (P : A -> B -> Prop) (l : list A) (l1 l2 : list B) :
  (forall a b b', In a l -> P a b -> P a b' -> b = b') ->
  Forall2 P l l1 -> Forall2 P l l2 -> l1 = l2.
Proof.
  intros Huniq H1. revert l2.
  induction H1 as [|a b l l1 Hab _ IH]; intros l2 H2; inversion H2; subst;
    [reflexivity|].
  f_equal.
  - apply (Huniq a); [now left|assumption|assumption].
  - apply IH; [|assumption]. intros a' b1 b2 Ha'. apply Huniq. now right.
Qed.

Lemma distinct_no_group (cards : list Z) (n : Z) :
  NoDup (map card_value cards) -> 2 <= n ->
  dd_get (group_duplicates cards) n = [].
Proof.
  intros Hnd Hn.
  destruct (dd_get (group_duplicates cards) n) as [|x l] eqn:E; [reflexivity|].
  exfalso. destruct (PathFacts.group_single _ _ _ _ E) as [_ Hocc].
  pose proof (proj1 (NoDup_count_occ Z.eq_dec _) Hnd x) as H1.
  unfold occurrences in Hocc. lia.
Qed.

Lemma find_max_sequence_distinct (h h' : list Z) :
  Permutation h h' -> NoDup (map card_value h) ->
  find_max_sequence h = find_max_sequence h'.
Proof.
  intros Hperm Hnd.
  assert (Hin : forall v, In v (map card_value h) <-> In v (map card_value h')).
  { intros v. split; apply Permutation_in; [|symmetry];
      now apply Permutation_map. }
  pose proof (same_values_same_rows h h' Hin) as Hrows.
  destruct (find_max_sequence h) as [[|sv [|ids [|? ?]]]|] eqn:F,
    (find_max_sequence h') as [[|sv' [|ids' [|? ?]]]|] eqn:F';
    simpl in Hrows; try contradiction; try (subst; reflexivity).
  subst sv'. do 3 f_equal.
  destruct (rows_spec _ _ _ F) as (_ & _ & Hids).
  destruct (rows_spec _ _ _ F') as (_ & _ & Hids').
  apply (Forall2_unique (stands_for h) sv); [|assumption|].
  - intros v id id' _. now apply stands_for_unique.
  - eapply Forall2_impl; [|exact Hids'].
    intros v id [Hid Hv]. split; [|assumption].
    apply (Permutation_in _ (Permutation_sym Hperm) Hid).
Qed.

Lemma in_concat_two {B : Type} (ls : list (list B)) (a b : list B) :
  In a ls -> In b ls -> a <> b ->
  (length a + length b <= length (concat ls))%nat.
Proof.
  induction ls as [|x ls IH]; simpl; [intros []|].
  rewrite length_app. intros [->|Ha] [->|Hb] Hab.
  - congruence.
  - pose proof (SequenceFacts.in_concat_length ls b Hb). lia.
  - pose proof (SequenceFacts.in_concat_length ls a Ha). lia.
  - specialize (IH Ha Hb Hab). lia.
Qed.

(** Consecutive present values that meet a maximal run are values of it. *)
Lemma block_incl (present : list Z) (r : list (Z * Z)) (a : Z) (n : nat) :
  maximal_run present r ->
  (forall v, In v (consecutive a n) -> In v present) ->
  In a (map fst r) ->
  forall v, In v (consecutive a n) -> In v (map fst r).
Proof.
  intros (b & m & Hr & _ & Hafter) Hblock Ha.
  rewrite Hr in Ha |- *. apply RunFacts.consecutive_In_iff in Ha.
  assert (Htop : forall j, (j < n)%nat -> a + Z.of_nat j < b + Z.of_nat (S m)).
  { induction j as [|j IHj]; intros Hj; [lia|].
    specialize (IHj ltac:(lia)).
    destruct (Z.eq_dec (a + Z.of_nat (S j)) (b + Z.of_nat (S m))) as [E|E]; [|lia].
    exfalso. apply Hafter. rewrite <- E.
    apply Hblock, RunFacts.consecutive_In_iff. lia. }
  intros v Hv. apply RunFacts.consecutive_In_iff in Hv.
  apply RunFacts.consecutive_In_iff.
  specialize (Htop (Z.to_nat (v - a)) ltac:(lia)). lia.
Qed.

Lemma sorted_entries_length (cards : list Z) :
  (length (sorted_entries cards) <= S (length cards))%nat.
Proof.
  unfold sorted_entries, dict_values.
  rewrite PyFacts.sorted_length, length_map.
  assert (Hd : (length (card_dict_of cards) <= length cards)%nat).
  { rewrite <- (length_map fst), <- (length_map card_value cards).
    apply NoDup_incl_length; [apply SequenceFacts.card_dict_NoDup|].
    intros k. apply SequenceFacts.card_dict_keys. }
  unfold with_low_ace. destruct (dict_get (card_dict_of cards) 13); [|lia].
  pose proof (DictFacts.dict_set_length 0 (0, snd p) (card_dict_of cards)). lia.
Qed.

(** The top of the returned run, when a run of five is present among
    few cards. *)
Lemma highest_run (cards values ids : list Z) (a high : Z) :
  find_max_sequence cards = Ok [values; ids] ->
  (length cards < 9)%nat ->
  (forall v, In v (consecutive a 5) -> has_value cards v) ->
  getitem values (-1) = Ok high ->
  a + 4 <= high.
Proof.
  intros H Hlen Hblock Hhigh.
  destruct (find_max_sequence_two_rows _ _ _ H) as [Hne Hmany].
  destruct (RunFacts.find_max_sequence_selected cards Hne Hmany)
    as (run & Hrun & Hlongest & _ & E).
  rewrite E in H. injection H as <- _.
  assert (Ha : In a (map fst (sorted_entries cards))).
  { apply RunFacts.sorted_entries_has_value, Hblock. now left. }
  rewrite <- (RunFacts.runs_of_concat (sorted_entries cards)) in Ha.
  apply in_map_iff in Ha. destruct Ha as (x & Hx & Hin).
  apply in_concat in Hin. destruct Hin as (r & Hr & Hxr).
  pose proof (RunFacts.runs_of_maximal _ (RunFacts.sorted_entries_strict cards)) as Hmax.
  rewrite Forall_forall in Hmax.
  assert (Hpresent : forall v, In v (consecutive a 5) ->
                               In v (map fst (sorted_entries cards))).
  { intros v Hv. apply RunFacts.sorted_entries_has_value, Hblock, Hv. }
  assert (Har : In a (map fst r)) by (rewrite <- Hx; apply in_map, Hxr).
  pose proof (RunFacts.block_in_run _ r a 5 (Hmax r Hr) Hpresent Har) as Hfive.
  pose proof (block_incl _ r a 5 (Hmax r Hr) Hpresent Har) as Hincl.
  assert (Hsame : r = run).
  { destruct (list_eq_dec (fun x y : Z * Z =>
                             ltac:(decide equality; apply Z.eq_dec)) r run)
      as [|Hdiff]; [assumption|exfalso].
    pose proof (in_concat_two _ r run Hr Hrun Hdiff) as H2.
    rewrite RunFacts.runs_of_concat in H2.
    pose proof (sorted_entries_length cards). specialize (Hlongest r Hr). lia. }
  subst r. destruct (Hmax run Hrun) as (b & m & Hb & _).
  assert (Hl : length run = S m).
  { rewrite <- (length_map fst), Hb. apply SequenceFacts.consecutive_length. }
  rewrite PyFacts.slice_last_map in Hhigh. unfold slice_last in Hhigh.
  rewrite length_map, Hl, Hb, SequenceFacts.consecutive_skipn in Hhigh.
  replace (S m - (S m - 5))%nat with 5%nat in Hhigh by lia.
  apply PathFacts.run_of_five_top in Hhigh.
  specialize (Hincl (a + 4)). rewrite Hb in Hincl.
  assert (H4 : In (a + 4) (consecutive a 5))
    by (apply RunFacts.consecutive_In_iff; lia).
  apply Hincl, RunFacts.consecutive_In_iff in H4. lia.
Qed.

End DistinctFacts.

(** X21: when no two cards have the same rank value, the descriptor of
    fewer than ten cards does not depend on their order. *)
Theorem assess_hand_distinct_values_any_order (h h' : list Z) :
  Permutation h h' -> NoDup (map card_value h) -> (length h < 10)%nat ->
  assess_hand h = assess_hand h'.
Proof.
  intros Hperm Hnd Hlen.
  assert (Hnd' : NoDup (map card_value h'))
    by (apply (Permutation_NoDup (Permutation_map card_value Hperm) Hnd)).
  assert (Hside : forall x, select_side_cards h' x = select_side_cards h x).
  { intros x. symmetry. apply OrderFacts.side_cards_same; [|tauto].
    intros v. split; apply Permutation_in; [|symmetry];
      now apply Permutation_map. }
  unfold assess_hand.
  rewrite <- (DistinctFacts.find_max_sequence_distinct h h' Hperm Hnd).
  rewrite <- (ErrorFacts.flush_suite_perm h h' Hperm Hlen).
  rewrite !(DistinctFacts.distinct_no_group h) by (assumption || lia).
  rewrite !(DistinctFacts.distinct_no_group h') by (assumption || lia).
  rewrite !Hside.
  destruct (find_max_sequence h) as [found|]; [|reflexivity]. cbn [bind].
  destruct (Py.unpack2 found) as [unpacked|]; [|reflexivity]. cbn [bind].
  destruct (if (length (fst unpacked) =? 5)%nat
            then s <- flush_suite (snd unpacked) ;; Ok (is_not_None s)
            else Ok false) as [[|]|]; cbn [bind]; try reflexivity.
  cbn [Py.truthy andb length Nat.eqb].
  destruct (flush_suite h) as [[s|]|]; cbn [bind is_not_None]; try reflexivity.
  - now rewrite (OrderFacts.sort_cards_perm h h' (Some s) true Hperm).
  - now rewrite (OrderFacts.sort_cards_perm h h' None true Hperm).
Qed.

Lemma assess_hand_distinct_values_any_order_witness :
  assess_hand [0; 1; 2; 3; 4; 18; 19] = assess_hand [1; 0; 2; 3; 4; 18; 19].
Proof.
  apply assess_hand_distinct_values_any_order.
  - apply perm_swap.
  - change (NoDup [13; 1; 2; 3; 4; 5; 6]).
    repeat constructor; simpl; intuition lia.
  - simpl. lia.
Defined.

(** X22: among at most eight cards the straight reported is the
    highest one: when the rank values, with 0 for an ace, include five
    consecutive integers from [a] on, the value of a [STRAIGHT] or
    [STRAIGHT_FLUSH] descriptor is at least [a + 4]. *)
Theorem straight_highest (cards : list Z) (cat : Hand) (tb : list Z) (a : Z) :
  assess_hand cards = Ok (cat, tb) ->
  cat = STRAIGHT \/ cat = STRAIGHT_FLUSH ->
  (length cards < 9)%nat ->
  (forall v, In v (consecutive a 5) -> has_value cards v) ->
  exists high, tb = [high] /\ a + 4 <= high.
Proof.
  intros H Hcat Hlen Hblock.
  destruct (assess_hand_straight cards cat tb H Hcat)
    as (vals & ids & high & Hfind & _ & Hhigh & ->).
  exists high. split; [reflexivity|].
  now apply (DistinctFacts.highest_run cards vals ids a high).
Qed.

Lemma straight_highest_witness :
  exists high, [10] = [high] /\ 6 + 4 <= high.
Proof.
  apply (straight_highest [5; 6; 7; 8; 22; 23; 14] STRAIGHT [10] 6).
  - reflexivity.
  - now left.
  - simpl. lia.
  - intros v Hv. left. simpl in Hv |- *. intuition.
Defined.

(** ** The shape of the descriptors *)

Module ShapeFacts.
Import Py.

Lemma outside_In (group cards : list Z) (c : Z) :
  In c (outside group cards) <-> In c cards /\ ~ In (card_value c) group.
Proof.
  unfold outside. rewrite filter_In, negb_true_iff, <- not_true_iff_false,
    existsb_exists.
  split; intros [Hc Hnot]; (split; [assumption|]).
  - intros Hin. apply Hnot. exists (card_value c). split; [assumption|apply Z.eqb_refl].
  - intros (x & Hx & E). apply Z.eqb_eq in E. congruence.
Qed.

Lemma outside_one (cards : list Z) (p : Z) :
  Z.of_nat (length (outside [p] cards)) + occurrences (map card_value cards) p
  = Z.of_nat (length cards).
Proof.
  unfold outside, occurrences. induction cards as [|c cards IH]; [reflexivity|].
  cbn [filter existsb map count_occ length] in *.
  destruct (Z.eq_dec (card_value c) p), (Z.eqb_spec (card_value c) p);
    try congruence; cbn [orb negb length]; lia.
Qed.

Lemma outside_two (cards : list Z) (a b : Z) :
  a <> b ->
  Z.of_nat (length (outside [a; b] cards)) + occurrences (map card_value cards) a
  + occurrences (map card_value cards) b = Z.of_nat (length cards).
Proof.
  intros Hab. unfold outside, occurrences.
  induction cards as [|c cards IH]; [reflexivity|].
  cbn [filter existsb map count_occ length] in *.
  destruct (Z.eq_dec (card_value c) a), (Z.eq_dec (card_value c) b),
    (Z.eqb_spec (card_value c) a), (Z.eqb_spec (card_value c) b);
    try congruence; cbn [orb negb length]; lia.
Qed.

Lemma outside_count (group cards : list Z) (v : Z) :
  (count_occ Z.eq_dec (map card_value (outside group cards)) v
   <= count_occ Z.eq_dec (map card_value cards) v)%nat.
Proof.
  unfold outside. induction cards as [|x cards IH]; [reflexivity|].
  cbn [filter map count_occ].
  destruct (negb (existsb (Z.eqb (card_value x)) group)); cbn [map count_occ];
    destruct (Z.eq_dec (card_value x) v); lia.
Qed.

(** The kickers are the rank values of the cards outside the group: no
    more of them than of these cards, and as many when no value is
    repeated among them. *)
Lemma side_cards_length (cards : list Z) (n : Z) :
  let group := dd_get (group_duplicates cards) n in
  (length (select_side_cards cards group) <= length (outside group cards))%nat /\
  ((forall c, In c (outside group cards) ->
              occurrences (map card_value cards) (card_value c) = 1) ->
   length (select_side_cards cards group) = length (outside group cards)).
Proof.
  intros group.
  destruct (PathFacts.side_cards_of_group cards n) as [Hsorted Hin].
  fold group in Hsorted, Hin.
  assert (Hnd : NoDup (select_side_cards cards group)).
  { clear Hin. induction Hsorted as [|x l _ IH Hx]; constructor; [|assumption].
    intros Hx'. rewrite Forall_forall in Hx. specialize (Hx x Hx'). lia. }
  assert (Hmem : forall v, In v (select_side_cards cards group) <->
                           In v (map card_value (outside group cards))).
  { intros v. rewrite Hin, !in_map_iff. split.
    - intros [(c & <- & Hc) Hnot]. exists c. split; [reflexivity|].
      now apply outside_In.
    - intros (c & <- & Hc). apply outside_In in Hc. destruct Hc as [Hc Hnot].
      split; [now exists c|assumption]. }
  split.
  - rewrite <- (length_map card_value (outside group cards)).
    apply NoDup_incl_length; [assumption|]. intros v. apply Hmem.
  - intros Honce. rewrite <- (length_map card_value (outside group cards)).
    apply Permutation_length, NoDup_Permutation; [assumption| |assumption].
    apply (NoDup_count_occ Z.eq_dec). intros v.
    destruct (in_dec Z.eq_dec v (map card_value (outside group cards))) as [Hv|Hv].
    + apply in_map_iff in Hv. destruct Hv as (c & <- & Hc).
      specialize (Honce c Hc). unfold occurrences in Honce.
      pose proof (outside_count group cards (card_value c)). lia.
    + apply (count_occ_not_In Z.eq_dec) in Hv. lia.
Qed.

(** With at most seven cards and no group of a higher count filled, a
    value outside the groups occurs once. *)
Lemma outside_once (cards : list Z) (n : Z) (c : Z) :
  well_formed cards -> n = 2 \/ n = 3 ->
  (forall m, n < m <= 4 -> dd_get (group_duplicates cards) m = []) ->
  (n = 3 -> dd_get (group_duplicates cards) 2 = []) ->
  (length (dd_get (group_duplicates cards) n) = 1)%nat ->
  In c (outside (dd_get (group_duplicates cards) n) cards) ->
  occurrences (map card_value cards) (card_value c) = 1.
Proof.
  intros Hwf Hn Hhigher Hlower Hone Hc.
  apply outside_In in Hc. destruct Hc as [Hc Hnot].
  pose proof Hwf as ((_ & Hlen) & _).
  set (v := card_value c) in *.
  assert (Hv : In v (map card_value cards)) by (apply in_map, Hc).
  pose proof (PathFacts.well_formed_occurrences cards v Hwf) as Hfour.
  pose proof (proj1 (DictFacts.occurrences_pos _ _) Hv) as Hpos.
  destruct (Z.eq_dec (occurrences (map card_value cards) v) 1) as [|Hne];
    [assumption|exfalso].
  assert (Hfiled : 3 <= occurrences (map card_value cards) v ->
                   In v (dd_get (group_duplicates cards)
                           (occurrences (map card_value cards) v))).
  { intros H3. apply TopTwo.group_duplicates_In. split; [|reflexivity].
    apply TopTwo.top_two_complete; [assumption|lia]. }
  destruct (dd_get (group_duplicates cards) n) as [|t [|? ?]] eqn:En;
    try discriminate Hone.
  destruct (PathFacts.group_single _ _ _ _ En) as [Ht Hocc].
  assert (Hvt : v <> t) by (intros E; apply Hnot; left; now symmetry).
  assert (Hcases : occurrences (map card_value cards) v = 2 \/
                   occurrences (map card_value cards) v = 3 \/
                   occurrences (map card_value cards) v = 4) by lia.
  destruct Hn as [-> | ->].
  - (* one pair filed *)
    destruct Hcases as [E|[E|E]].
    + pose proof (LowerBounds.two_pairs_filed cards v t Hvt E Hocc ltac:(lia)
                    (Hhigher 3 ltac:(lia)) (Hhigher 4 ltac:(lia))) as H2.
      rewrite En in H2. discriminate H2.
    + specialize (Hfiled ltac:(lia)). rewrite E, (Hhigher 3) in Hfiled by lia.
      destruct Hfiled.
    + specialize (Hfiled ltac:(lia)). rewrite E, (Hhigher 4) in Hfiled by lia.
      destruct Hfiled.
  - (* one three of a kind filed *)
    destruct Hcases as [E|[E|E]].
    + assert (Htt : In t (map fst (top_two cards))).
      { apply (TopTwo.group_duplicates_In cards 3 t). rewrite En. now left. }
      assert (Hvtop : ~ In v (map fst (top_two cards))).
      { intros Hin.
        assert (Hg : In v (dd_get (group_duplicates cards) 2))
          by (apply TopTwo.group_duplicates_In; auto).
        rewrite (Hlower eq_refl) in Hg. destruct Hg. }
      destruct (GroupFacts.top_two_facts cards) as (Hnd & _ & Hfacts).
      pose proof (TopTwo.top_two_length cards) as Hlen2.
      assert (Hdistinct : (2 <= length (nodup Z.eq_dec (map card_value cards)))%nat).
      { pose proof (NoDup_incl_length (l := [v; t])
                      (l' := nodup Z.eq_dec (map card_value cards))) as Hi.
        simpl in Hi. apply Hi.
        - repeat constructor; simpl; intuition congruence.
        - intros x [<-|[<-|[]]]; now apply nodup_In. }
      rewrite Nat.min_l in Hlen2 by exact Hdistinct.
      destruct (top_two cards) as [|[a na] [|[b nb] [|? ?]]] eqn:Etop;
        try discriminate Hlen2.
      assert (Hother : exists x k, In (x, k) [(a, na); (b, nb)] /\ x <> t).
      { inversion Hnd as [|? ? Hnotin _]; subst. simpl in Hnotin.
        destruct (Z.eq_dec a t) as [->|Ha].
        - exists b, nb. split; [simpl; auto|]. intros ->. tauto.
        - exists a, na. split; [simpl; auto|assumption]. }
      destruct Hother as (x & k & Hxin & Hxt).
      destruct (Hfacts _ _ Hxin) as [Hxv Hk].
      pose proof (TopTwo.top_two_dominates cards x k v) as Hdom.
      rewrite Etop in Hdom. specialize (Hdom Hxin Hv Hvtop).
      assert (Hxv' : x <> v).
      { intros ->. apply Hvtop. apply in_map_iff. now exists (v, k). }
      pose proof (TopTwo.occurrences_three (map card_value cards) x v t
                    Hxv' Hxt Hvt) as Hsum.
      rewrite length_map in Hsum.
      assert (Hx2 : occurrences (map card_value cards) x = 2) by lia.
      assert (Hg : In x (dd_get (group_duplicates cards) 2)).
      { apply TopTwo.group_duplicates_In. rewrite Etop. split; [|assumption].
        apply in_map_iff. now exists (x, k). }
      rewrite (Hlower eq_refl) in Hg. destruct Hg.
    + specialize (Hfiled ltac:(lia)). rewrite E, En in Hfiled.
      destruct Hfiled as [Hf|[]]. congruence.
    + specialize (Hfiled ltac:(lia)). rewrite E, (Hhigher 4) in Hfiled by lia.
      destruct Hfiled.
Qed.

Lemma firstn_length_ge {A : Type} (n : nat) (l : list A) :
  (n <= length l)%nat -> length (firstn n l) = n.
Proof. intros H. rewrite length_firstn. lia. Qed.

End ShapeFacts.

(** X23: every tie-break of a descriptor is the rank value of a card
    of the hand.  On five to seven different cards of the deck a
    descriptor has the number of tie-breaks of its category: one for
    the two straights, two for [FOUR] and [FULL_HOUSE], three for
    [TWO_PAIR], four for [PAIR], five for [FLUSH] and [HIGH_CARD];
    except [THREE], which has three with one three of a kind in the
    hand, but one or two when two of them are filed. *)
Theorem descriptor_shape (cards : list Z) (cat : Hand) (tb : list Z) :
  assess_hand cards = Ok (cat, tb) ->
  (forall v, In v tb -> In v (map card_value cards)) /\
  (well_formed cards ->
   (cat <> THREE -> length tb = tie_breaks cat) /\
   (cat = THREE ->
    (length (Py.dd_get (group_duplicates cards) 3) = 1%nat /\ length tb = 3%nat) \/
    (length (Py.dd_get (group_duplicates cards) 3) = 2%nat /\
     (1 <= length tb <= 2)%nat))).
Proof.
  intros H.
  destruct (assess_hand_inv _ _ _ H) as (sv & ids & Hfind & Hpath).
  cbv beta zeta delta [assess_hand_path] in Hpath.
  assert (Hgroup : forall n x l, Py.dd_get (group_duplicates cards) n = x :: l ->
                                 forall v, In v (x :: l) -> In v (map card_value cards)).
  { intros n x l E v Hv. apply (GroupFacts.group_facts cards n). now rewrite E. }
  assert (Hside : forall g n v, In v (firstn n (select_side_cards cards g)) ->
                                In v (map card_value cards)).
  { intros g n v Hv. apply (side_cards_In cards g).
    rewrite <- (firstn_skipn n). apply in_or_app. now left. }
  assert (Hsorted : forall s v, In v (Py.slice_to 5 (sort_cards cards s true true)) ->
                                In v (map card_value cards)).
  { intros s v Hv. unfold Py.slice_to in Hv.
    assert (Hv' : In v (sort_cards cards s true true))
      by (rewrite <- (firstn_skipn 5); apply in_or_app; now left).
    destruct (sort_cards_facts cards s true) as (Hperm & _).
    apply (Permutation_in _ Hperm), in_map_iff in Hv'.
    destruct Hv' as (c & <- & Hc). apply in_map.
    destruct s; [apply filter_In in Hc; tauto|exact Hc]. }
  assert (Htop : length sv = 5%nat -> forall h, Py.getitem sv (-1) = Ok h ->
                                                In h (map card_value cards)).
  { intros Hlen h Hh.
    destruct (rows_spec _ _ _ Hfind) as (_ & (a & Ha & _ & Esv) & Hrows).
    rewrite Hlen in Esv.
    assert (Hin : In h sv).
    { apply PathFacts.getitem_last_inv in Hh. destruct Hh as (l & ->).
      apply in_or_app. right. now left. }
    rewrite Esv in Hh. apply PathFacts.run_of_five_top in Hh.
    destruct (PathFacts.Forall2_In_l _ _ _ _ Hrows Hin) as (id & _ & Hid & Hv).
    destruct Hv as [->|[E _]]; [now apply in_map|lia]. }
  split.
  - (* the tie-breaks are rank values of the hand *)
    destruct cat.
    + destruct Hpath as (_ & _ & _ & _ & _ & _ & ->). apply Hsorted.
    + destruct Hpath as (_ & _ & _ & _ & _ & p & Hp & ->).
      apply PathFacts.getitem_first_inv in Hp. destruct Hp as (l & E).
      intros v [<-|Hv]; [|now apply Hside in Hv].
      apply (Hgroup _ _ _ E). now left.
    + destruct Hpath as (_ & _ & _ & _ & Hlen & high & low & k & Hh & Hl & Hk & ->).
      destruct (Py.dd_get (group_duplicates cards) 2) as [|x l] eqn:E;
        [discriminate|].
      pose proof (GroupFacts.group_values cards 2) as Hval. rewrite E in Hval.
      destruct (max_card_spec (x :: l) None ltac:(discriminate)) as (m & Em & Hm & _).
      destruct (min_card_spec (x :: l) ltac:(discriminate)) as (m' & Em' & Hm' & _).
      simpl of_suit in Hm. rewrite Hval in Hm, Hm'.
      rewrite Em in Hh. rewrite Em' in Hl. injection Hh as ->. injection Hl as ->.
      apply PathFacts.getitem_first_inv in Hk. destruct Hk as (l' & Ek).
      intros v [<-|[<-|[<-|[]]]]; try (now apply (Hgroup _ _ _ E)).
      apply (side_cards_In cards (x :: l)). rewrite Ek. now left.
    + destruct Hpath as (_ & _ & _ & _ & _ & t & Ht & ->).
      apply PathFacts.getitem_first_inv in Ht. destruct Ht as (l & E).
      intros v [<-|Hv]; [|now apply Hside in Hv].
      apply (Hgroup _ _ _ E). now left.
    + destruct Hpath as (_ & _ & _ & Hlen & h & Hh & ->).
      intros v [<-|[]]. now apply Htop.
    + destruct Hpath as (_ & _ & s & _ & ->). apply Hsorted.
    + destruct Hpath as (_ & _ & t & p & Ht & Hp & ->).
      apply PathFacts.getitem_first_inv in Ht, Hp.
      destruct Ht as (l & E), Hp as (l' & E').
      intros v [<-|[<-|[]]];
        [apply (Hgroup _ _ _ E)|apply (Hgroup _ _ _ E')]; now left.
    + destruct Hpath as (_ & q & k & Hq & Hk & ->).
      apply PathFacts.getitem_first_inv in Hq, Hk.
      destruct Hq as (l & E), Hk as (l' & E').
      intros v [<-|[<-|[]]]; [apply (Hgroup _ _ _ E); now left|].
      apply (side_cards_In cards (Py.dd_get (group_duplicates cards) 4)).
      rewrite E'. now left.
    + destruct Hpath as (Hlen & s & h & _ & Hh & ->).
      intros v [<-|[]]. now apply Htop.
  - (* their number *)
    intros Hwf. pose proof Hwf as ((Hmin & Hmax) & _).
    assert (Hfive : forall s, (5 <= length (sort_cards cards s true true))%nat ->
                              length (Py.slice_to 5 (sort_cards cards s true true))
                              = 5%nat).
    { intros s Hs. now apply ShapeFacts.firstn_length_ge. }
    split.
    + intros Hcat. destruct cat; try congruence; cbn [tie_breaks].
      * destruct Hpath as (_ & _ & _ & _ & _ & _ & ->). apply Hfive.
        destruct (sort_cards_facts cards None true) as (Hperm & _).
        rewrite (Permutation_length Hperm), length_map. exact Hmin.
      * destruct Hpath as (H4 & _ & _ & H3 & Hlen & p & Hp & ->).
        apply PathFacts.truthy_false in H4, H3.
        destruct (ShapeFacts.side_cards_length cards 2) as [_ Hside2].
        cbv zeta in Hside2.
        assert (Honce : forall c,
                   In c (outside (Py.dd_get (group_duplicates cards) 2) cards) ->
                   occurrences (map card_value cards) (card_value c) = 1).
        { intros c Hc.
          apply (ShapeFacts.outside_once cards 2 c Hwf (or_introl eq_refl));
            try assumption.
          - intros m Hm. assert (Hm' : m = 3 \/ m = 4) by lia.
            destruct Hm' as [-> | ->]; assumption.
          - intros E. discriminate E. }
        specialize (Hside2 Honce).
        apply PathFacts.getitem_first_inv in Hp. destruct Hp as (l & E).
        rewrite E in Hlen, Hside2 |- *. destruct l; [|discriminate Hlen].
        pose proof (ShapeFacts.outside_one cards p) as Hone.
        destruct (PathFacts.group_single _ _ _ _ E) as [_ Hocc].
        cbn [length]. f_equal. apply ShapeFacts.firstn_length_ge.
        rewrite Hside2. lia.
      * now destruct Hpath as (_ & _ & _ & _ & _ & high & low & k & _ & _ & _ & ->).
      * now destruct Hpath as (_ & _ & _ & _ & h & _ & ->).
      * destruct Hpath as (_ & _ & s & Hs & ->). apply Hfive.
        destruct (PathFacts.flush_suite_Some _ _ Hs) as [H5 _].
        destruct (sort_cards_facts cards (Some s) true) as (Hperm & _).
        rewrite (Permutation_length Hperm), length_map.
        rewrite PathFacts.suit_count_of_suit in H5. lia.
      * now destruct Hpath as (_ & _ & t & p & _ & _ & ->).
      * now destruct Hpath as (_ & q & k & _ & _ & ->).
      * now destruct Hpath as (_ & s & h & _ & _ & ->).
    + intros ->. destruct Hpath as (H4 & Hfh & _ & _ & H3 & t & Ht & ->).
      apply PathFacts.truthy_false in H4. rewrite H3 in Hfh. cbn [andb] in Hfh.
      apply PathFacts.truthy_false in Hfh.
      destruct (GroupFacts.group_facts cards 3) as (Hnd & Hle & Hocc).
      destruct (ShapeFacts.side_cards_length cards 3) as [Hside_le Hside_eq].
      cbv zeta in Hside_le, Hside_eq.
      destruct (Py.dd_get (group_duplicates cards) 3) as [|t1 [|t2 [|? ?]]] eqn:E;
        [discriminate H3| | |simpl in Hle; lia].
      * left. split; [reflexivity|]. cbn [length]. f_equal.
        apply ShapeFacts.firstn_length_ge. rewrite Hside_eq.
        -- pose proof (ShapeFacts.outside_one cards t1) as Hone.
           pose proof (proj2 (Hocc t1 (or_introl eq_refl))). lia.
        -- intros c Hc. rewrite <- E in Hc.
           apply (ShapeFacts.outside_once cards 3 c Hwf (or_intror eq_refl));
             try assumption.
           ++ intros m Hm. assert (m = 4) as -> by lia. assumption.
           ++ intros _. assumption.
           ++ now rewrite E.
      * right. split; [reflexivity|]. cbn [length]. unfold Py.slice_to.
        rewrite length_firstn.
        assert (Ht12 : t1 <> t2).
        { inversion Hnd as [|? ? Hnot _]; subst. simpl in Hnot. intuition. }
        pose proof (ShapeFacts.outside_two cards t1 t2 Ht12) as Htwo.
        pose proof (proj2 (Hocc t1 (or_introl eq_refl))).
        pose proof (proj2 (Hocc t2 (or_intror (or_introl eq_refl)))).
        lia.
Qed.

Lemma descriptor_shape_witness :
  well_formed [0; 13; 26; 12; 25; 38; 1] /\
  length [13; 1] <> tie_breaks THREE.
Proof.
  assert (Hwf : well_formed [0; 13; 26; 12; 25; 38; 1]).
  { unfold well_formed. split; [simpl; lia|]. split.
    - repeat constructor; simpl; intuition lia.
    - repeat constructor; lia. }
  split; [exact Hwf|].
  destruct (proj2 (proj2 (descriptor_shape [0; 13; 26; 12; 25; 38; 1] THREE [13; 1]
                            eq_refl) Hwf) eq_refl) as [[_ H]|[_ H]];
    simpl in *; lia.
Defined.
